(** * Healthcare facility processor: a shallow embedding and its properties

    The development embeds [stage2/healthcare_facility_processor.py] in Rocq:
    the record parser [read_json_from_s3], the expiry evaluator
    [is_expiring_soon], the facility filter [filter_expiring_facilities], the
    report writer [write_json_to_s3], and the run [process_all_files] with
    [list_input_files], then the start-up check ([__init__]) and the entry
    point ([main]).

    Python objects live in an explicit object store: lists and dictionaries
    are stored objects reached through references, so that a copy is a new
    object and an item assignment updates an object in place.  Effects are
    threaded through a state-and-exception monad whose state survives a
    raised exception: the store, the clock, the storage service and the log.
    The libraries the program calls ([json], [dateutil], [datetime], the S3
    client) are variables of the section that holds the program.

    A list a function builds with [append] is kept as a Rocq list while it
    is local, and becomes a stored object when it is returned, passed on or
    put inside another object; nothing else refers to it before that. *)

From Stdlib Require Import ZArith String Ascii List Bool Lia PrimFloat DecimalString.
From stdpp Require Import base list strings.

Set Warnings "-register-all".

Local Open Scope string_scope.
Local Open Scope list_scope.

(** ** Python values and the object store *)

(** A Python value is an immediate or a reference to a list or a dict in the
    store.  [str] is a Rocq [string], one [ascii] per character: the
    characters of a string are its code points, and the strings of the model
    are those whose code points are below 256. *)
Inductive pyval : Type :=
| VNone
| VBool (b : bool)
| VInt (n : Z)
| VFloat (f : float)
| VStr (s : string)
| VRef (a : nat).

(** Dictionaries keep insertion order, as Python's do. *)
Inductive pyobj : Type :=
| OList (items : list pyval)
| ODict (entries : list (string * pyval)).

Abbreviation heap := (list pyobj).

(** What [json.loads] decodes: a tree, before it is allocated. *)
Inductive json : Type :=
| JNull
| JBool (b : bool)
| JInt (n : Z)
| JFloat (f : float)
| JStr (s : string)
| JArr (items : list json)
| JObj (members : list (string * json)).

Fixpoint dict_lookup (d : list (string * pyval)) (k : string) : option pyval :=
  match d with
  | [] => None
  | (k', v) :: rest => if String.eqb k' k then Some v else dict_lookup rest k
  end.

(** [d[k] = v]: replaces the value in place when the key is present, appends
    the pair otherwise. *)
Fixpoint dict_set (d : list (string * pyval)) (k : string) (v : pyval)
  : list (string * pyval) :=
  match d with
  | [] => [(k, v)]
  | (k', v') :: rest =>
      if String.eqb k' k then (k', v) :: rest else (k', v') :: dict_set rest k v
  end.

(** ** Exceptions, the world and the monad *)

Inductive exn : Type :=
| JSONDecodeError
| ClientError
| TypeError
| AttributeError
| KeyError (key : string)
| ValueError
| OverflowError
| UnicodeError
| OtherError (name : string).

Inductive result (A : Type) : Type :=
| Ok (a : A)
| Raise (e : exn).
Arguments Ok {A} a.
Arguments Raise {A} e.

Definition bytes := list Byte.byte.

Record s3_object := {
  s3_bucket : string;
  s3_key : string;
  s3_body : bytes;
  s3_content_type : string
}.

Inductive level := INFO | WARNING | ERROR.

Inductive log_arg : Type :=
| LStr (s : string)
| LInt (n : Z)
| LVal (v : pyval)
| LExn (e : exn).

(** A log record keeps the f-string's text with [{}] for each interpolated
    expression, and the interpolated values unformatted. *)
Record log_record := {
  lr_level : level;
  lr_format : string;
  lr_args : list log_arg
}.

Record world := {
  w_heap : heap;
  w_ticks : nat;              (* clock readings taken so far *)
  w_s3 : list s3_object;      (* the objects the storage service holds *)
  w_s3_calls : nat;           (* requests sent to the service so far *)
  w_log : list log_record
}.

Definition with_heap (w : world) (h : heap) : world :=
  {| w_heap := h; w_ticks := w_ticks w; w_s3 := w_s3 w;
     w_s3_calls := w_s3_calls w; w_log := w_log w |}.

Definition with_ticks (w : world) (n : nat) : world :=
  {| w_heap := w_heap w; w_ticks := n; w_s3 := w_s3 w;
     w_s3_calls := w_s3_calls w; w_log := w_log w |}.

Definition with_s3 (w : world) (s : list s3_object) : world :=
  {| w_heap := w_heap w; w_ticks := w_ticks w; w_s3 := s;
     w_s3_calls := w_s3_calls w; w_log := w_log w |}.

Definition with_s3_calls (w : world) (n : nat) : world :=
  {| w_heap := w_heap w; w_ticks := w_ticks w; w_s3 := w_s3 w;
     w_s3_calls := n; w_log := w_log w |}.

Definition with_log (w : world) (l : list log_record) : world :=
  {| w_heap := w_heap w; w_ticks := w_ticks w; w_s3 := w_s3 w;
     w_s3_calls := w_s3_calls w; w_log := l |}.

(** A computation returns a value or raises; either way the world it leaves
    behind is kept. *)
Definition M (A : Type) : Type := world -> result A * world.

Definition ret {A} (a : A) : M A := fun w => (Ok a, w).

Definition raise {A} (e : exn) : M A := fun w => (Raise e, w).

Definition bind {A B} (m : M A) (k : A -> M B) : M B :=
  fun w =>
    match m w with
    | (Ok a, w') => k a w'
    | (Raise e, w') => (Raise e, w')
    end.

(** [try: m  except Exception as e: h e] *)
Definition try_except {A} (m : M A) (h : exn -> M A) : M A :=
  fun w =>
    match m w with
    | (Ok a, w') => (Ok a, w')
    | (Raise e, w') => h e w'
    end.

Definition lift {A} (r : result A) : M A := fun w => (r, w).

Declare Scope py_scope.
Delimit Scope py_scope with py.
Notation "x <- c1 ;; c2" := (bind c1 (fun x => c2))
  (at level 100, c1 at next level, right associativity) : py_scope.
Notation "c1 ;; c2" := (bind c1 (fun _ => c2))
  (at level 100, right associativity) : py_scope.
Local Open Scope py_scope.

(** [for x in l: s = body x s], the loop state passed along. *)
Fixpoint for_each {A S} (body : A -> S -> M S) (l : list A) (s : S) : M S :=
  match l with
  | [] => ret s
  | x :: rest => s' <- body x s ;; for_each body rest s'
  end.

Definition log (lvl : level) (fmt : string) (args : list log_arg) : M unit :=
  fun w =>
    (Ok tt,
     with_log w (w_log w ++ [{| lr_level := lvl; lr_format := fmt; lr_args := args |}])).

(** ** Python operations on stored objects *)

Definition alloc (o : pyobj) : M pyval :=
  fun w => (Ok (VRef (length (w_heap w))), with_heap w (w_heap w ++ [o])).

Definition heap_get (h : heap) (v : pyval) : option pyobj :=
  match v with
  | VRef a => h !! a
  | _ => None
  end.

(** The dictionary behind a value, or the exception the failed attribute or
    item access raises. *)
Definition dict_of (v : pyval) (e : exn) : M (list (string * pyval)) :=
  fun w =>
    match heap_get (w_heap w) v with
    | Some (ODict d) => (Ok d, w)
    | _ => (Raise e, w)
    end.

(** [obj.get(key, dflt)]: the attribute is looked up first (only a dict has
    [get]), then the default is evaluated, then the call is made. *)
Definition py_get (obj : pyval) (key : string) (dflt : M pyval) : M pyval :=
  d <- dict_of obj AttributeError ;;
  v <- dflt ;;
  ret (default v (dict_lookup d key)).

(** [obj[key]] with a string key. *)
Definition py_getitem (obj : pyval) (key : string) : M pyval :=
  d <- dict_of obj TypeError ;;
  match dict_lookup d key with
  | Some v => ret v
  | None => raise (KeyError key)
  end.

(** Truth value of an object, as [if not x] tests it. *)
Definition truthy (h : heap) (v : pyval) : bool :=
  match v with
  | VNone => false
  | VBool b => b
  | VInt n => negb (n =? 0)%Z
  | VFloat f => negb (PrimFloat.eqb f 0%float)
  | VStr s => negb (String.eqb s EmptyString)
  | VRef a =>
      match h !! a with
      | Some (OList l) => negb (Nat.eqb (length l) 0)
      | Some (ODict d) => negb (Nat.eqb (length d) 0)
      | None => true
      end
  end.

Definition py_truthy (v : pyval) : M bool :=
  fun w => (Ok (truthy (w_heap w) v), w).

Definition chars (s : string) : list pyval :=
  map (fun c => VStr (String c EmptyString)) (list_ascii_of_string s).

(** The items a [for] loop over the value visits: the elements of a list,
    the keys of a dict, the characters of a string. *)
Definition iter_items (h : heap) (v : pyval) : result (list pyval) :=
  match v with
  | VStr s => Ok (chars s)
  | VRef a =>
      match h !! a with
      | Some (OList l) => Ok l
      | Some (ODict d) => Ok (map (fun kv => VStr (fst kv)) d)
      | None => Raise TypeError
      end
  | _ => Raise TypeError
  end.

Definition py_iter (v : pyval) : M (list pyval) :=
  fun w => (iter_items (w_heap w) v, w).

(** [len(v)] *)
Definition len_of (h : heap) (v : pyval) : result Z :=
  match v with
  | VStr s => Ok (Z.of_nat (String.length s))
  | VRef a =>
      match h !! a with
      | Some (OList l) => Ok (Z.of_nat (length l))
      | Some (ODict d) => Ok (Z.of_nat (length d))
      | None => Raise TypeError
      end
  | _ => Raise TypeError
  end.

Definition py_len (v : pyval) : M Z :=
  fun w => (len_of (w_heap w) v, w).

(** [obj.copy()]: a new object with the same top-level entries; the values
    are shared with the original. *)
Definition py_copy (obj : pyval) : M pyval :=
  fun w =>
    match heap_get (w_heap w) obj with
    | Some o => alloc o w
    | None => (Raise AttributeError, w)
    end.

(** [obj[key] = v] with a string key: updates the stored dict in place. *)
Definition py_setitem (obj : pyval) (key : string) (v : pyval) : M unit :=
  fun w =>
    match obj with
    | VRef a =>
        match w_heap w !! a with
        | Some (ODict d) =>
            (Ok tt, with_heap w (<[a := ODict (dict_set d key v)]> (w_heap w)))
        | _ => (Raise TypeError, w)
        end
    | _ => (Raise TypeError, w)
    end.

(** Allocation of a decoded JSON tree: every array becomes a list object and
    every object a dict built pair by pair, so a repeated key keeps its last
    value. *)
Fixpoint alloc_json (j : json) (h : heap) : pyval * heap :=
  match j with
  | JNull => (VNone, h)
  | JBool b => (VBool b, h)
  | JInt n => (VInt n, h)
  | JFloat f => (VFloat f, h)
  | JStr s => (VStr s, h)
  | JArr items =>
      let '(vs, h1) :=
        (fix go (l : list json) (h : heap) : list pyval * heap :=
           match l with
           | [] => ([], h)
           | x :: r =>
               let '(v, h1) := alloc_json x h in
               let '(vs, h2) := go r h1 in
               (v :: vs, h2)
           end) items h in
      (VRef (length h1), h1 ++ [OList vs])
  | JObj members =>
      let '(d, h1) :=
        (fix go (l : list (string * json)) (d : list (string * pyval)) (h : heap)
           : list (string * pyval) * heap :=
           match l with
           | [] => (d, h)
           | (k, x) :: r =>
               let '(v, h1) := alloc_json x h in
               go r (dict_set d k v) h1
           end) members [] h in
      (VRef (length h1), h1 ++ [ODict d])
  end.

Definition py_alloc_json (j : json) : M pyval :=
  fun w => let '(v, h) := alloc_json j (w_heap w) in (Ok v, with_heap w h).

(** Reading a value back as a tree, as a serializer walks it.  The fuel
    bounds the nesting depth; a walk that exhausts it has met a cycle. *)
Fixpoint reify (fuel : nat) (h : heap) (v : pyval) : option json :=
  match v with
  | VNone => Some JNull
  | VBool b => Some (JBool b)
  | VInt n => Some (JInt n)
  | VFloat f => Some (JFloat f)
  | VStr s => Some (JStr s)
  | VRef a =>
      match fuel with
      | O => None
      | S fuel' =>
          match h !! a with
          | Some (OList l) =>
              option_map JArr
                ((fix go (l : list pyval) : option (list json) :=
                    match l with
                    | [] => Some []
                    | x :: r =>
                        match reify fuel' h x, go r with
                        | Some j, Some js => Some (j :: js)
                        | _, _ => None
                        end
                    end) l)
          | Some (ODict d) =>
              option_map JObj
                ((fix go (l : list (string * pyval)) : option (list (string * json)) :=
                    match l with
                    | [] => Some []
                    | (k, x) :: r =>
                        match reify fuel' h x, go r with
                        | Some j, Some js => Some ((k, j) :: js)
                        | _, _ => None
                        end
                    end) d)
          | None => None
          end
      end
  end.

(** ** Strings *)

(** The characters [str.isspace()] holds for, which [str.strip()] removes
    from both ends: U+0009 to U+000D, U+001C to U+0020, U+0085 (next line)
    and U+00A0 (no-break space); the other Unicode spaces are past U+00FF. *)
Definition is_space (c : ascii) : bool :=
  let n := nat_of_ascii c in
  ((9 <=? n)%nat && (n <=? 13)%nat) || ((28 <=? n)%nat && (n <=? 32)%nat)
  || (n =? 133)%nat || (n =? 160)%nat.

Fixpoint lstrip (s : string) : string :=
  match s with
  | EmptyString => EmptyString
  | String c r => if is_space c then lstrip r else s
  end.

Fixpoint rstrip (s : string) : string :=
  match s with
  | EmptyString => EmptyString
  | String c r =>
      match rstrip r with
      | EmptyString => if is_space c then EmptyString else String c EmptyString
      | r' => String c r'
      end
  end.

Definition strip (s : string) : string := rstrip (lstrip s).

(** [s.split('\n')] *)
Fixpoint split_lines (s : string) : list string :=
  match s with
  | EmptyString => [EmptyString]
  | String c r =>
      if Ascii.eqb c "010"%char then EmptyString :: split_lines r
      else
        match split_lines r with
        | l :: ls => String c l :: ls
        | [] => [String c EmptyString]
        end
  end.

Fixpoint ends_with (suffix s : string) : bool :=
  if String.eqb s suffix then true
  else
    match s with
    | EmptyString => false
    | String _ r => ends_with suffix r
    end.

Fixpoint enumerate {A} (start : Z) (l : list A) : list (Z * A) :=
  match l with
  | [] => []
  | x :: r => (start, x) :: enumerate (start + 1)%Z r
  end.

(** ** Dates *)

(** A naive [datetime]: the proleptic Gregorian ordinal of its day (1 is
    0001-01-01) and the microsecond within the day. *)
Record datetime := {
  dt_day : Z;
  dt_usec : Z
}.

(** [date.max.toordinal()], 9999-12-31. *)
Definition max_ordinal : Z := 3652059.

Definition valid_day (d : Z) : Prop := (1 <= d <= max_ordinal)%Z.

(** [timedelta(days=n)] *)
Definition timedelta (days : Z) : result Z :=
  if (Z.abs days <=? 999999999)%Z then Ok days else Raise OverflowError.

(** [t + timedelta]: the sum must be a representable date. *)
Definition datetime_add (t : datetime) (days : Z) : result datetime :=
  let d := (dt_day t + days)%Z in
  if ((1 <=? d) && (d <=? max_ordinal))%Z
  then Ok {| dt_day := d; dt_usec := dt_usec t |}
  else Raise OverflowError.

(** ** The processor *)

Record processor := {
  input_bucket : string;
  output_bucket : string;
  input_key : string;
  output_key : string
}.

Definition same_object (b k : string) (o : s3_object) : bool :=
  String.eqb (s3_bucket o) b && String.eqb (s3_key o) k.

(** Storing an object replaces the one held under the same bucket and key. *)
Fixpoint store_put (o : s3_object) (s : list s3_object) : list s3_object :=
  match s with
  | [] => [o]
  | x :: r =>
      if same_object (s3_bucket o) (s3_key o) x then o :: r
      else x :: store_put o r
  end.

(** The order the service lists keys in: character by character, by code. *)
Fixpoint key_leb (k1 k2 : string) : bool :=
  match k1, k2 with
  | EmptyString, _ => true
  | String _ _, EmptyString => false
  | String c1 r1, String c2 r2 =>
      let n1 := nat_of_ascii c1 in
      let n2 := nat_of_ascii c2 in
      if (n1 <? n2)%nat then true
      else if (n2 <? n1)%nat then false
      else key_leb r1 r2
  end.

Fixpoint insert_by_key (o : s3_object) (l : list s3_object) : list s3_object :=
  match l with
  | [] => [o]
  | x :: r =>
      if key_leb (s3_key o) (s3_key x) then o :: l else x :: insert_by_key o r
  end.

Definition sort_by_key (l : list s3_object) : list s3_object :=
  fold_right insert_by_key [] l.

Section Processor.

(** The environment of a run. *)
Variable clock : nat -> datetime.
  (* the successive readings of [datetime.now()] *)
Variable dateutil_parse : Z -> string -> result datetime.
  (* [dateutil.parser.parse] on a string; the first argument is the day the
     fields missing from the string are taken from *)
Variable isoformat : datetime -> string.
Variable strftime : datetime -> string -> string.
Variable json_loads : string -> result json.
Variable json_dumps : option Z -> bool -> json -> string.
  (* [json.dumps(obj, indent=, ensure_ascii=)] on an acyclic value *)
Variable str_encode : string -> result bytes.
Variable bytes_decode : bytes -> result string.
Variable s3_fault : nat -> bool.
  (* whether the service answers the n-th request with a [ClientError] *)

Definition datetime_now : M datetime :=
  fun w => (Ok (clock (w_ticks w)), with_ticks w (S (w_ticks w))).

(** *** The storage client *)

Definition s3_request : M unit :=
  fun w =>
    let w' := with_s3_calls w (S (w_s3_calls w)) in
    if s3_fault (w_s3_calls w) then (Raise ClientError, w') else (Ok tt, w').

Definition get_object (b k : string) : M bytes :=
  s3_request ;;
  fun w =>
    match List.find (same_object b k) (w_s3 w) with
    | Some o => (Ok (s3_body o), w)
    | None => (Raise ClientError, w)
    end.

Definition put_object (b k : string) (body : bytes) (content_type : string) : M unit :=
  s3_request ;;
  fun w =>
    (Ok tt,
     with_s3 w (store_put {| s3_bucket := b; s3_key := k; s3_body := body;
                             s3_content_type := content_type |} (w_s3 w))).

(** One page of a listing: the objects of the bucket under the prefix, in
    the order of their keys, at most 1000 of them. *)
Definition list_objects_v2 (b pre : string) : M (list string) :=
  s3_request ;;
  fun w =>
    (Ok (map s3_key
           (firstn 1000
              (sort_by_key
                 (List.filter
                    (fun o => String.eqb (s3_bucket o) b && String.prefix pre (s3_key o))
                    (w_s3 w))))),
     w).

(** *** read_json_from_s3 (lines 49-96) *)

(** The body of the JSON Lines loop, lines 79-85. *)
Definition parse_line (numbered : Z * string) (facilities : list pyval)
  : M (list pyval) :=
  let '(line_num, line) := numbered in
  if String.eqb (strip line) EmptyString then ret facilities
  else
    match json_loads line with
    | Ok j =>
        facility <- py_alloc_json j ;;
        ret (facilities ++ [facility])
    | Raise JSONDecodeError =>
        log WARNING "Skipping invalid JSON on line {}: {}"
          [LInt line_num; LExn JSONDecodeError] ;;
        ret facilities
    | Raise e => raise e
    end.

Definition read_json_from_s3 (self : processor) (file_key : string) : M pyval :=
  try_except
    (log INFO "Reading file from s3://{}/{}" [LStr (input_bucket self); LStr file_key] ;;
     body <- get_object (input_bucket self) file_key ;;
     content <- lift (bytes_decode body) ;;
     match json_loads content with
     | Ok j =>
         facilities <- py_alloc_json j ;;
         n <- py_len facilities ;;
         log INFO "Successfully parsed JSON array with {} facilities" [LInt n] ;;
         ret facilities
     | Raise JSONDecodeError =>
         log INFO "JSON array parsing failed, trying JSON Lines format" [] ;;
         facilities <-
           for_each parse_line (enumerate 1 (split_lines (strip content))) [] ;;
         log INFO "Successfully parsed JSON Lines with {} facilities"
           [LInt (Z.of_nat (length facilities))] ;;
         alloc (OList facilities)
     | Raise e => raise e
     end)
    (fun e =>
       match e with
       | ClientError => log ERROR "Error reading from S3: {}" [LExn e] ;; raise e
       | _ => log ERROR "Unexpected error reading JSON: {}" [LExn e] ;; raise e
       end).

(** *** is_expiring_soon (lines 98-119) *)

(** [parse(timestr)]: the parser first reads the clock for its default day,
    then rejects what is not a string. *)
Definition parse (timestr : pyval) : M datetime :=
  now <- datetime_now ;;
  match timestr with
  | VStr s => lift (dateutil_parse (dt_day now) s)
  | _ => raise TypeError
  end.

Definition is_expiring_soon (expiry_date_str : pyval) (months_threshold : Z) : M bool :=
  try_except
    (expiry <- parse expiry_date_str ;;
     let expiry_date := dt_day expiry in
     now <- datetime_now ;;
     let current_date := dt_day now in
     now' <- datetime_now ;;
     delta <- lift (timedelta (months_threshold * 30)) ;;
     threshold <- lift (datetime_add now' delta) ;;
     let threshold_date := dt_day threshold in
     ret ((current_date <=? expiry_date)%Z && (expiry_date <=? threshold_date)%Z))
    (fun e =>
       log WARNING "Error parsing date '{}': {}" [LVal expiry_date_str; LExn e] ;;
       ret false).

(** *** filter_expiring_facilities (lines 121-172) *)

(** The body of the loop over the accreditations, lines 146-153; the state is
    [has_expiring_accreditation] and [expiring_accreditations]. *)
Definition check_accreditation (accreditation : pyval) (st : bool * list pyval)
  : M (bool * list pyval) :=
  expiry_date <- py_get accreditation "valid_until" (ret (VStr EmptyString)) ;;
  soon <- is_expiring_soon expiry_date 6 ;;
  if soon : bool then
    body <- py_get accreditation "accreditation_body" (ret (VStr EmptyString)) ;;
    entry <- alloc (ODict [("body", body); ("expiry", expiry_date)]) ;;
    ret (true, snd st ++ [entry])
  else ret st.

(** The body of the loop over the facilities, lines 134-169.  The lists the
    function builds are kept as Rocq lists until they are stored or returned. *)
Definition process_facility (facility : pyval) (filtered_facilities : list pyval)
  : M (list pyval) :=
  try_except
    (facility_id <- py_get facility "facility_id" (ret (VStr "Unknown")) ;;
     facility_name <- py_get facility "facility_name" (ret (VStr "Unknown")) ;;
     accreditations <- py_get facility "accreditations" (alloc (OList [])) ;;
     nonempty <- py_truthy accreditations ;;
     if negb nonempty then
       log INFO "Facility {} has no accreditations, skipping" [LVal facility_id] ;;
       ret filtered_facilities
     else
       items <- py_iter accreditations ;;
       st <- for_each check_accreditation items (false, []) ;;
       let '(has_expiring_accreditation, expiring_accreditations) := st in
       if has_expiring_accreditation : bool then
         facility_copy <- py_copy facility ;;
         now <- datetime_now ;;
         expiring <- alloc (OList expiring_accreditations) ;;
         total <- py_len accreditations ;;
         metadata <- alloc (ODict [("processed_date", VStr (isoformat now));
                                   ("expiring_accreditations", expiring);
                                   ("total_accreditations", VInt total)]) ;;
         py_setitem facility_copy "_processing_metadata" metadata ;;
         log INFO "Facility {} ({}) has {} expiring accreditation(s)"
           [LVal facility_id; LVal facility_name;
            LInt (Z.of_nat (length expiring_accreditations))] ;;
         ret (filtered_facilities ++ [facility_copy])
       else ret filtered_facilities)
    (fun e =>
       facility_id <- py_get facility "facility_id" (ret (VStr "Unknown")) ;;
       log ERROR "Error processing facility {}: {}" [LVal facility_id; LExn e] ;;
       ret filtered_facilities).

Definition filter_expiring_facilities (facilities : pyval) : M pyval :=
  items <- py_iter facilities ;;
  filtered_facilities <- for_each process_facility items [] ;;
  total <- py_len facilities ;;
  log INFO "Filtered {} facilities with expiring accreditations out of {} total"
    [LInt (Z.of_nat (length filtered_facilities)); LInt total] ;;
  alloc (OList filtered_facilities).

(** *** write_json_to_s3 (lines 174-229) *)

(** [json.dumps(v, indent=, ensure_ascii=)]: a value that contains itself is
    refused. *)
Definition py_json_dumps (v : pyval) (indent : option Z) (ensure_ascii : bool)
  : M string :=
  fun w =>
    match reify (S (length (w_heap w))) (w_heap w) v with
    | Some j => (Ok (json_dumps indent ensure_ascii j), w)
    | None => (Raise ValueError, w)
    end.

(** One element of the comprehension at lines 204-211. *)
Definition summary_entry (facility : pyval) (entries : list pyval) : M (list pyval) :=
  facility_id <- py_getitem facility "facility_id" ;;
  facility_name <- py_getitem facility "facility_name" ;;
  metadata <- py_get facility "_processing_metadata" (alloc (ODict [])) ;;
  expiring <- py_get metadata "expiring_accreditations" (alloc (OList [])) ;;
  expiring_count <- py_len expiring ;;
  entry <- alloc (ODict [("facility_id", facility_id);
                         ("facility_name", facility_name);
                         ("expiring_count", VInt expiring_count)]) ;;
  ret (entries ++ [entry]).

Definition write_json_to_s3 (self : processor) (data : pyval) (output_filename : string)
  : M unit :=
  try_except
    (let key := output_key self +:+ output_filename in
     json_content <- py_json_dumps data (Some 2%Z) false ;;
     body <- lift (str_encode json_content) ;;
     put_object (output_bucket self) key body "application/json" ;;
     n <- py_len data ;;
     log INFO "Successfully wrote {} filtered records to s3://{}/{}"
       [LInt n; LStr (output_bucket self); LStr key] ;;
     now <- datetime_now ;;
     total <- py_len data ;;
     items <- py_iter data ;;
     entries <- for_each summary_entry items [] ;;
     facilities_summary <- alloc (OList entries) ;;
     summary <- alloc (ODict
       [("processing_date", VStr (isoformat now));
        ("total_facilities_processed", VInt total);
        ("output_location", VStr ("s3://" +:+ output_bucket self +:+ "/" +:+ key));
        ("filter_criteria", VStr "Accreditations expiring within 6 months");
        ("facilities_summary", facilities_summary)]) ;;
     now' <- datetime_now ;;
     let summary_key :=
       output_key self +:+ "processing_summary_"
         +:+ strftime now' "%Y%m%d_%H%M%S" +:+ ".json" in
     summary_content <- py_json_dumps summary (Some 2%Z) true ;;
     summary_body <- lift (str_encode summary_content) ;;
     put_object (output_bucket self) summary_key summary_body "application/json" ;;
     log INFO "Created processing summary at s3://{}/{}"
       [LStr (output_bucket self); LStr summary_key])
    (fun e =>
       match e with
       | ClientError => log ERROR "Error writing to S3: {}" [LExn e] ;; raise e
       | _ => log ERROR "Unexpected error writing JSON: {}" [LExn e] ;; raise e
       end).

(** *** list_input_files (lines 231-256) *)

Definition list_input_files (self : processor) : M (list string) :=
  try_except
    (keys <- list_objects_v2 (input_bucket self) (input_key self) ;;
     let json_files :=
       List.filter
         (fun key => ends_with ".json" key && negb (String.eqb key (input_key self)))
         keys in
     log INFO "Found {} JSON files in input location"
       [LInt (Z.of_nat (length json_files))] ;;
     ret json_files)
    (fun e =>
       match e with
       | ClientError => log ERROR "Error listing files: {}" [LExn e] ;; raise e
       | _ => raise e
       end).

(** *** process_all_files (lines 258-310) *)

(** The body of the loop over the input files, lines 276-289. *)
Definition process_file (self : processor) (file_key : string)
    (all_filtered_facilities : list pyval) : M (list pyval) :=
  try_except
    (log INFO "Processing file: {}" [LStr file_key] ;;
     facilities <- read_json_from_s3 self file_key ;;
     filtered <- filter_expiring_facilities facilities ;;
     items <- py_iter filtered ;;
     ret (all_filtered_facilities ++ items))
    (fun e =>
       log ERROR "Error processing file {}: {}" [LStr file_key; LExn e] ;;
       ret all_filtered_facilities).

Definition process_all_files (self : processor) : M unit :=
  try_except
    (log INFO "Starting healthcare facility processing" [] ;;
     input_files <- list_input_files self ;;
     match input_files with
     | [] => log WARNING "No JSON files found in input location" []
     | _ :: _ =>
         all_filtered_facilities <- for_each (process_file self) input_files [] ;;
         match all_filtered_facilities with
         | _ :: _ =>
             now <- datetime_now ;;
             let output_filename :=
               "expiring_facilities_" +:+ strftime now "%Y%m%d_%H%M%S" +:+ ".json" in
             data <- alloc (OList all_filtered_facilities) ;;
             write_json_to_s3 self data output_filename ;;
             log INFO
               "Processing complete. Found {} facilities with expiring accreditations"
               [LInt (Z.of_nat (length all_filtered_facilities))]
         | [] =>
             log INFO "No facilities found with expiring accreditations" [] ;;
             now <- datetime_now ;;
             facilities <- alloc (OList []) ;;
             empty_result <- alloc (ODict
               [("message", VStr "No facilities with expiring accreditations found");
                ("processing_date", VStr (isoformat now));
                ("facilities", facilities)]) ;;
             data <- alloc (OList [empty_result]) ;;
             now' <- datetime_now ;;
             write_json_to_s3 self data
               ("no_expiring_facilities_" +:+ strftime now' "%Y%m%d_%H%M%S" +:+ ".json")
         end
     end)
    (fun e => log ERROR "Fatal error in processing: {}" [LExn e] ;; raise e).

End Processor.


(** ** The application: start-up and exit (lines 21-47 and 313-337) *)

(** The two exceptions of the application that the processor itself never
    raises. *)
Definition NoCredentialsError : exn := OtherError "NoCredentialsError".

(** [SystemExit(status)], what [sys.exit(status)] raises. *)
Definition SystemExit (status : Z) : exn :=
  OtherError ("SystemExit(" +:+ NilZero.string_of_int (Z.to_int status) +:+ ")").

Definition is_no_credentials (e : exn) : bool :=
  match e with
  | OtherError name => String.eqb name "NoCredentialsError"
  | _ => false
  end.

Section Application.

Variable clock : nat -> datetime.
Variable dateutil_parse : Z -> string -> result datetime.
Variable isoformat : datetime -> string.
Variable strftime : datetime -> string -> string.
Variable json_loads : string -> result json.
Variable json_dumps : option Z -> bool -> json -> string.
Variable str_encode : string -> result bytes.
Variable bytes_decode : bytes -> result string.
Variable s3_fault : nat -> bool.
Variable credentials : bool.
  (* whether the client finds credentials to sign a request with *)

(** [s3_client.head_bucket(Bucket=b)]: without credentials the request
    cannot be signed and is never sent; a bucket that is missing or
    forbidden is an error answer of the service. *)
Definition head_bucket (b : string) : M unit :=
  if credentials then s3_request s3_fault else raise NoCredentialsError.

Definition __init__ (input_bucket output_bucket input_key output_key : string)
  : M processor :=
  try_except
    (head_bucket input_bucket ;;
     log INFO "Successfully connected to AWS S3" [] ;;
     ret {| input_bucket := input_bucket; output_bucket := output_bucket;
            input_key := input_key; output_key := output_key |})
    (fun e =>
       if is_no_credentials e then
         log ERROR "AWS credentials not found. Please configure your credentials." [] ;;
         raise e
       else
         match e with
         | ClientError => log ERROR "Error connecting to S3: {}" [LExn e] ;; raise e
         | _ => raise e
         end).

Definition sys_exit {A} (status : Z) : M A := raise (SystemExit status).

Definition main : M unit :=
  try_except
    (let INPUT_BUCKET := "healthcare-facility-data" in
     let OUTPUT_BUCKET := "healthcare-facility-data" in
     processor <- __init__ INPUT_BUCKET OUTPUT_BUCKET "input/" "filtered/" ;;
     process_all_files clock dateutil_parse isoformat strftime json_loads json_dumps
       str_encode bytes_decode s3_fault processor ;;
     log INFO "Healthcare facility processing completed successfully" [])
    (fun e => log ERROR "Application failed: {}" [LExn e] ;; sys_exit 1).

End Application.
(** * Reasoning about computations *)

(** [wp m Q w]: running [m] in [w] ends in an outcome and a world that [Q]
    accepts. *)
Definition wp {A} (m : M A) (Q : result A -> world -> Prop) (w : world) : Prop :=
  Q (fst (m w)) (snd (m w)).
Arguments wp : simpl never.

(** The store only grew and the storage service was not contacted. *)
Definition extends (w w' : world) : Prop :=
  w_heap w `prefix_of` w_heap w' /\ w_s3 w' = w_s3 w /\ w_s3_calls w' = w_s3_calls w.

(** Only the clock and the log moved. *)
Definition same_store (w w' : world) : Prop :=
  w_heap w' = w_heap w /\ w_s3 w' = w_s3 w /\ w_s3_calls w' = w_s3_calls w.

(** ** Statement vocabulary *)

(** The expiry window for a day [d] seen from [today]: not yet expired, no
    later than [months * 30] days ahead, and the far end of the window is a
    date the calendar can represent. *)
Definition in_window (today months d : Z) : bool :=
  ((today <=? d) && (d <=? today + months * 30)
   && (today + months * 30 <=? max_ordinal))%Z.

(** What [is_expiring_soon] answers for a value when the clock stays on
    [today]: only a string that parses to a day in the window qualifies. *)
Definition expiring_soon_on (dateutil_parse : Z -> string -> result datetime)
    (today months : Z) (v : pyval) : bool :=
  match v with
  | VStr s =>
      match dateutil_parse today s with
      | Ok dt => in_window today months (dt_day dt)
      | Raise _ => false
      end
  | _ => false
  end.

(** The key the filter writes its annotation under. *)
Definition metadata_key : string := "_processing_metadata".

(** The value stored at [v] is a dictionary with the entries [d]. *)
Definition dict_at (h : heap) (v : pyval) (d : list (string * pyval)) : Prop :=
  heap_get h v = Some (ODict d).

Definition is_dict (h : heap) (v : pyval) : bool :=
  match heap_get h v with
  | Some (ODict _) => true
  | _ => false
  end.

(** A reference points into the store. *)
Definition allocated (h : heap) (v : pyval) : Prop :=
  match v with
  | VRef a => a < length h
  | _ => True
  end.

Definition field (d : list (string * pyval)) (k : string) : pyval :=
  default (VStr EmptyString) (dict_lookup d k).

(** The [{body, expiry}] pair the filter records for an accreditation. *)
Definition expiring_entry (d : list (string * pyval)) : pyobj :=
  ODict [("body", field d "accreditation_body"); ("expiry", field d "valid_until")].

(** The accreditations entry is present and is not an empty (false) value. *)
Definition accreditations_nonempty (h : heap) (d : list (string * pyval)) : Prop :=
  exists v, dict_lookup d "accreditations" = Some v /\ truthy h v = true.

(** How one iteration of the loop over the facilities ends for a facility
    that is a mapping with entries [d], started in [w] with [acc] collected
    so far; [inner] is the loop over the accreditations. *)
Definition facility_outcome
    (inner : list pyval -> bool * list pyval -> M (bool * list pyval))
    (d : list (string * pyval)) (acc : list pyval) (w : world)
    (r : result (list pyval)) (w' : world) : Prop :=
  let accreditations :=
    default (VRef (length (w_heap w))) (dict_lookup d "accreditations") in
  let w1 := with_heap w (w_heap w ++ [OList []]) in
  exists acc',
    r = Ok acc' /\ w_s3 w' = w_s3 w /\ w_s3_calls w' = w_s3_calls w
    /\ if negb (truthy (w_heap w1) accreditations)
       then acc' = acc /\ w_heap w' = w_heap w1
       else
         match iter_items (w_heap w1) accreditations with
         | Raise _ => acc' = acc /\ w_heap w' = w_heap w1
         | Ok items =>
             match inner items (false, []) w1 with
             | (Ok (true, es), w2) =>
                 let c := length (w_heap w2) in
                 exists ts,
                   acc' = acc ++ [VRef c]
                   /\ w_heap w'
                      = w_heap w2
                          ++ [ODict (dict_set d metadata_key (VRef (c + 2)));
                              OList es;
                              ODict [("processed_date", VStr ts);
                                     ("expiring_accreditations", VRef (c + 1));
                                     ("total_accreditations",
                                      VInt (Z.of_nat (length items)))]]
             | (_, w2) => acc' = acc /\ w_heap w' = w_heap w2
             end
         end.

(** An accreditation mapping the filter records as expiring, the clock
    staying on [today]: its [valid_until] (the empty string when missing) is
    in the six-month window. *)
Definition qualifying (dateutil_parse : Z -> string -> result datetime) (today : Z)
    (d : list (string * pyval)) : bool :=
  expiring_soon_on dateutil_parse today 6 (field d "valid_until").

(** A facility as the data model has it: its accreditations entry is a list
    of mappings, with entries [ds]. *)
Definition facility_record (h : heap) (d : list (string * pyval))
    (accs : list pyval) (ds : list (list (string * pyval))) : Prop :=
  exists la,
    dict_lookup d "accreditations" = Some (VRef la)
    /\ h !! la = Some (OList accs)
    /\ Forall2 (dict_at h) accs ds.

(** The object at [c] is a copy of [d] annotated with a metadata block that
    counts [total] accreditations and lists the pairs of [quals], in order. *)
Definition annotated (h : heap) (d : list (string * pyval)) (total : Z)
    (quals : list (list (string * pyval))) (c : nat) : Prop :=
  exists m e es ts,
    h !! c = Some (ODict (dict_set d metadata_key (VRef m)))
    /\ h !! m = Some (ODict [("processed_date", VStr ts);
                             ("expiring_accreditations", VRef e);
                             ("total_accreditations", VInt total)])
    /\ h !! e = Some (OList es)
    /\ Forall2 (fun x dq => heap_get h x = Some (expiring_entry dq)) es quals.

(** [o] is an output of a run started with store [h0] over [items]: a new
    object, the copy of a stored mapping among [items] whose accreditations
    are not empty, with the metadata key set. *)
Definition output_of (h0 h' : heap) (items : list pyval) (o : pyval) : Prop :=
  exists c a d m,
    o = VRef c /\ length h0 <= c
    /\ In (VRef a) items /\ h0 !! a = Some (ODict d)
    /\ h' !! c = Some (ODict (dict_set d metadata_key m))
    /\ accreditations_nonempty h0 d.

(** The metadata block of a filtered record: the object at [m] holds the
    three entries the filter writes, in the order it writes them, and the
    second refers to a stored list. *)
Definition metadata_block (h : heap) (m : nat) : Prop :=
  exists ts e total es,
    h !! m = Some (ODict [("processed_date", VStr ts);
                          ("expiring_accreditations", VRef e);
                          ("total_accreditations", VInt total)])
    /\ h !! e = Some (OList es).

(** [o] is an output of a run started with store [h0] over [items], seen
    with its annotation: a new object, the copy of a stored mapping among
    [items] with the metadata key set to a reference to a metadata block
    that the run has allocated. *)
Definition output_block (h0 h' : heap) (items : list pyval) (o : pyval) : Prop :=
  exists c a d m,
    o = VRef c /\ length h0 <= c
    /\ In (VRef a) items /\ h0 !! a = Some (ODict d)
    /\ h' !! c = Some (ODict (dict_set d metadata_key (VRef m)))
    /\ length h0 <= m /\ metadata_block h' m.

(** The payload written when nothing qualifies, as a tree; [stamp] is the
    timestamp of the run. *)
Definition no_results_payload (stamp : string) : json :=
  JArr [JObj [("message", JStr "No facilities with expiring accreditations found");
              ("processing_date", JStr stamp);
              ("facilities", JArr [])]].

(** ASCII text: every character is below U+0080. *)
Definition is_ascii_text (s : string) : bool :=
  forallb (fun c => (nat_of_ascii c <? 128)%nat) (list_ascii_of_string s).

(** The lines of a JSON Lines file that yield a record: those that are not
    blank and decode. *)
Definition decodable (json_loads : string -> result json) (line : string) : bool :=
  negb (String.eqb (strip line) EmptyString)
  && match json_loads line with Ok _ => true | Raise _ => false end.

(** A line the fallback can pass over: blank, decodable, or refused by the
    decoder as a syntax error. *)
Definition line_ok (json_loads : string -> result json) (line : string) : bool :=
  String.eqb (strip line) EmptyString
  || match json_loads line with
     | Ok _ | Raise JSONDecodeError => true
     | Raise _ => false
     end.

(** The storage service holds the same objects. *)
Definition s3_unchanged (w w' : world) : Prop := w_s3 w' = w_s3 w.

(** A computation that never changes what the storage service holds. *)
Definition reads_only {A} (m : M A) : Prop := forall w, s3_unchanged w (snd (m w)).

(** The world once [process_all_files] has logged that it starts. *)
Definition started (w : world) : world :=
  with_log w (w_log w ++ [{| lr_level := INFO;
                             lr_format := "Starting healthcare facility processing";
                             lr_args := [] |}]).

(** ** Vocabulary of the further properties *)

(** A computation that sends no request to the storage service and leaves
    the objects it holds as they are. *)
Definition offline {A} (m : M A) : Prop :=
  forall w, w_s3 (snd (m w)) = w_s3 w /\ w_s3_calls (snd (m w)) = w_s3_calls w.

(** A decoded JSON value that has no length: a number, a boolean or null. *)
Definition is_scalar (j : json) : bool :=
  match j with
  | JNull | JBool _ | JInt _ | JFloat _ => true
  | JStr _ | JArr _ | JObj _ => false
  end.

(** The log records appended between two worlds. *)
Definition logged (w w' : world) (records : list log_record) : Prop :=
  w_log w' = w_log w ++ records.

(** A computation that sends exactly [n] requests to the storage service,
    however it ends, and leaves the objects it holds as they are. *)
Definition sends (n : nat) {A} (m : M A) : Prop :=
  forall w, w_s3 (snd (m w)) = w_s3 w /\ w_s3_calls (snd (m w)) = n + w_s3_calls w.

(** A log record. *)
Definition record (lvl : level) (fmt : string) (args : list log_arg) : log_record :=
  {| lr_level := lvl; lr_format := fmt; lr_args := args |}.

(** An object the listing of the input location can return: it is held in
    the input bucket under a key that starts with the input prefix. *)
Definition under_input (self : processor) (o : s3_object) : bool :=
  String.eqb (s3_bucket o) (input_bucket self)
  && String.prefix (input_key self) (s3_key o).

(** An object [list_input_files] takes for an input file. *)
Definition is_input_file (self : processor) (o : s3_object) : bool :=
  under_input self o
  && ends_with ".json" (s3_key o)
  && negb (String.eqb (s3_key o) (input_key self)).

(** The JSON form of a value that is held as such, not behind a reference. *)
Definition json_of (v : pyval) : option json :=
  match v with
  | VNone => Some JNull
  | VBool b => Some (JBool b)
  | VInt n => Some (JInt n)
  | VFloat f => Some (JFloat f)
  | VStr s => Some (JStr s)
  | VRef _ => None
  end.

(** The number of expiring accreditations the summary reports for a record
    with entries [d]: the length of the list its metadata block holds, and 0
    when the record has no metadata block or the block no such list. *)
Definition expiring_count (h : heap) (d : list (string * pyval)) (count : Z) : Prop :=
  match dict_lookup d metadata_key with
  | None => count = 0%Z
  | Some mv =>
      exists m,
        dict_at h mv m
        /\ match dict_lookup m "expiring_accreditations" with
           | None => count = 0%Z
           | Some ev => len_of h ev = Ok count
           end
  end.

(** A record the summary can be built for, and what the summary says of it:
    the record is a mapping that has a [facility_id] and a [facility_name],
    both plain values. *)
Definition summarised (h : heap) (facility : pyval) (row : json * json * Z) : Prop :=
  exists d fid fname,
    dict_at h facility d
    /\ dict_lookup d "facility_id" = Some fid /\ json_of fid = Some (fst (fst row))
    /\ dict_lookup d "facility_name" = Some fname /\ json_of fname = Some (snd (fst row))
    /\ expiring_count h d (snd row).

(** The entry of [facilities_summary] stored for a row. *)
Definition entry_for (h : heap) (entry : pyval) (row : json * json * Z) : Prop :=
  exists fid fname,
    heap_get h entry = Some (ODict [("facility_id", fid);
                                    ("facility_name", fname);
                                    ("expiring_count", VInt (snd row))])
    /\ json_of fid = Some (fst (fst row))
    /\ json_of fname = Some (snd (fst row)).

Definition row_json (row : json * json * Z) : json :=
  JObj [("facility_id", fst (fst row));
        ("facility_name", snd (fst row));
        ("expiring_count", JInt (snd row))].

(** The processing summary, as a tree. *)
Definition summary_json (stamp location : string) (rows : list (json * json * Z))
  : json :=
  JObj [("processing_date", JStr stamp);
        ("total_facilities_processed", JInt (Z.of_nat (length rows)));
        ("output_location", JStr location);
        ("filter_criteria", JStr "Accreditations expiring within 6 months");
        ("facilities_summary", JArr (map row_json rows))].

(** The two objects a successful write leaves: the payload under the name it
    was given, the summary under a name made from the time of the write. *)
Definition payload_object (self : processor) (output_filename : string) (body : bytes)
  : s3_object :=
  {| s3_bucket := output_bucket self;
     s3_key := output_key self +:+ output_filename;
     s3_body := body;
     s3_content_type := "application/json" |}.

Definition summary_object (self : processor) (stamp : string) (body : bytes)
  : s3_object :=
  {| s3_bucket := output_bucket self;
     s3_key := output_key self +:+ "processing_summary_" +:+ stamp +:+ ".json";
     s3_body := body;
     s3_content_type := "application/json" |}.

(** The [s3://bucket/key] form of the place the payload is written to. *)
Definition output_location (self : processor) (output_filename : string) : string :=
  "s3://" +:+ output_bucket self +:+ "/" +:+ (output_key self +:+ output_filename).

(** A facility as the filter reads it: a mapping with entries [fst view]
    whose accreditations are the mappings [snd view], none when the mapping
    has no [accreditations] key. *)
Definition facility_view (h : heap) (x : pyval)
    (view : list (string * pyval) * list (list (string * pyval))) : Prop :=
  dict_at h x (fst view)
  /\ ((dict_lookup (fst view) "accreditations" = None /\ snd view = [])
      \/ exists accs, facility_record h (fst view) accs (snd view)).

(** What the filter makes of a facility it keeps, the clock staying on
    [today]: an annotated copy that counts all the accreditations of the
    facility and lists the qualifying ones. *)
Definition selected (dateutil_parse : Z -> string -> result datetime) (today : Z)
    (h : heap) (o : pyval)
    (view : list (string * pyval) * list (list (string * pyval))) : Prop :=
  exists c,
    o = VRef c
    /\ annotated h (fst view) (Z.of_nat (length (snd view)))
         (List.filter (qualifying dateutil_parse today) (snd view)) c.

(** A facility the filter keeps: one of its accreditations qualifies. *)
Definition has_qualifying (dateutil_parse : Z -> string -> result datetime) (today : Z)
    (view : list (string * pyval) * list (list (string * pyval))) : bool :=
  existsb (qualifying dateutil_parse today) (snd view).

(** The processor [main] constructs. *)
Definition main_processor : processor :=
  {| input_bucket := "healthcare-facility-data";
     output_bucket := "healthcare-facility-data";
     input_key := "input/";
     output_key := "filtered/" |}.

(** The world once the start-up check of [__init__] has succeeded. *)
Definition connected (w : world) : world :=
  with_log (with_s3_calls w (S (w_s3_calls w)))
    (w_log w ++ [record INFO "Successfully connected to AWS S3" []]).

(** ** A concrete environment *)

Module Scenario.

Definition digit (c : ascii) : option Z :=
  let n := nat_of_ascii c in
  if ((48 <=? n)%nat && (n <=? 57)%nat) then Some (Z.of_nat (n - 48)) else None.

Fixpoint number (s : string) (acc : Z) : option Z :=
  match s with
  | EmptyString => Some acc
  | String c r =>
      match digit c with
      | Some d => number r (acc * 10 + d)%Z
      | None => None
      end
  end.

Definition is_leap (y : Z) : bool :=
  ((y mod 4 =? 0) && (negb (y mod 100 =? 0) || (y mod 400 =? 0)))%Z.

Definition days_before_month (y m : Z) : Z :=
  (nth (Z.to_nat (m - 1)) [0; 31; 59; 90; 120; 151; 181; 212; 243; 273; 304; 334] 0
   + (if (2 <? m) && is_leap y then 1 else 0))%Z.

Definition days_in_month (y m : Z) : Z :=
  (if (m =? 2) && is_leap y then 29
   else nth (Z.to_nat (m - 1)) [31; 28; 31; 30; 31; 30; 31; 31; 30; 31; 30; 31] 0)%Z.

(** [date(y, m, d).toordinal()] *)
Definition toordinal (y m d : Z) : Z :=
  (let y' := y - 1 in
   y' * 365 + y' / 4 - y' / 100 + y' / 400 + days_before_month y m + d)%Z.

(** A parser for [YYYY-MM-DD] only; every other string is refused. *)
Definition iso_parse (_ : Z) (s : string) : result datetime :=
  match number (substring 0 4 s) 0, number (substring 5 2 s) 0, number (substring 8 2 s) 0 with
  | Some y, Some m, Some d =>
      if (Nat.eqb (String.length s) 10
          && String.eqb (substring 4 1 s) "-" && String.eqb (substring 7 1 s) "-"
          && (1 <=? y)%Z && (y <=? 9999)%Z && (1 <=? m)%Z && (m <=? 12)%Z
          && (1 <=? d)%Z && (d <=? days_in_month y m)%Z)
      then Ok {| dt_day := toordinal y m d; dt_usec := 0 |}
      else Raise ValueError
  | _, _, _ => Raise ValueError
  end.

(** Every reading of the clock falls on 2026-11-03. *)
Definition today : Z := 739923.
Definition clock (n : nat) : datetime := {| dt_day := today; dt_usec := Z.of_nat n |}.

Definition isoformat (_ : datetime) : string := "2026-11-03T09:00:00".
Definition strftime (_ : datetime) (_ : string) : string := "20261103_090000".

(** *** A small JSON codec: objects, arrays, strings without escapes,
    integers and the three literals *)

Definition dq : ascii := "034"%char.

(** JSON text written with single quotes for readability. *)
Definition json_text (s : string) : string :=
  string_of_list_ascii
    (map (fun c => if Ascii.eqb c "'"%char then dq else c) (list_ascii_of_string s)).

Inductive token : Type :=
| TLBrace | TRBrace | TLBrack | TRBrack | TColon | TComma
| TStr (s : string) | TInt (n : Z) | TTrue | TFalse | TNull.

Fixpoint string_body (s : string) : option (string * string) :=
  match s with
  | EmptyString => None
  | String c r =>
      if Ascii.eqb c dq then Some (EmptyString, r)
      else
        match string_body r with
        | Some (b, rest) => Some (String c b, rest)
        | None => None
        end
  end.

Fixpoint digits (s : string) (acc : Z) : Z * string :=
  match s with
  | EmptyString => (acc, s)
  | String c r =>
      match digit c with
      | Some d => digits r (acc * 10 + d)%Z
      | None => (acc, s)
      end
  end.

Fixpoint skip (n : nat) (s : string) : string :=
  match n, s with
  | S n', String _ r => skip n' r
  | _, _ => s
  end.

(** The whitespace JSON allows between tokens: space, tab, line feed and
    carriage return. *)
Definition is_json_space (c : ascii) : bool :=
  let n := nat_of_ascii c in
  (n =? 32)%nat || (n =? 9)%nat || (n =? 10)%nat || (n =? 13)%nat.

Fixpoint lex (fuel : nat) (s : string) : option (list token) :=
  match s with
  | EmptyString => Some []
  | String c r =>
      match fuel with
      | O => None
      | S f =>
          let one t := option_map (cons t) (lex f r) in
          if is_json_space c then lex f r
          else if Ascii.eqb c "{"%char then one TLBrace
          else if Ascii.eqb c "}"%char then one TRBrace
          else if Ascii.eqb c "["%char then one TLBrack
          else if Ascii.eqb c "]"%char then one TRBrack
          else if Ascii.eqb c ":"%char then one TColon
          else if Ascii.eqb c ","%char then one TComma
          else if Ascii.eqb c dq then
            match string_body r with
            | Some (b, rest) => option_map (cons (TStr b)) (lex f rest)
            | None => None
            end
          else if Ascii.eqb c "-"%char then
            match r with
            | String c' _ =>
                match digit c' with
                | Some _ =>
                    let '(n, rest) := digits r 0 in
                    option_map (cons (TInt (- n))) (lex f rest)
                | None => None
                end
            | EmptyString => None
            end
          else
            match digit c with
            | Some _ =>
                let '(n, rest) := digits s 0 in
                option_map (cons (TInt n)) (lex f rest)
            | None =>
                if String.prefix "true" s then option_map (cons TTrue) (lex f (skip 3 r))
                else if String.prefix "false" s then option_map (cons TFalse) (lex f (skip 4 r))
                else if String.prefix "null" s then option_map (cons TNull) (lex f (skip 3 r))
                else None
            end
      end
  end.

Fixpoint parse_value (fuel : nat) (ts : list token) : option (json * list token) :=
  match fuel with
  | O => None
  | S f =>
      match ts with
      | TNull :: r => Some (JNull, r)
      | TTrue :: r => Some (JBool true, r)
      | TFalse :: r => Some (JBool false, r)
      | TInt n :: r => Some (JInt n, r)
      | TStr s :: r => Some (JStr s, r)
      | TLBrack :: TRBrack :: r => Some (JArr [], r)
      | TLBrack :: r =>
          match parse_items f r with
          | Some (items, r') => Some (JArr items, r')
          | None => None
          end
      | TLBrace :: TRBrace :: r => Some (JObj [], r)
      | TLBrace :: r =>
          match parse_members f r with
          | Some (members, r') => Some (JObj members, r')
          | None => None
          end
      | _ => None
      end
  end
with parse_items (fuel : nat) (ts : list token) : option (list json * list token) :=
  match fuel with
  | O => None
  | S f =>
      match parse_value f ts with
      | Some (v, TComma :: r) =>
          match parse_items f r with
          | Some (vs, r') => Some (v :: vs, r')
          | None => None
          end
      | Some (v, TRBrack :: r) => Some ([v], r)
      | _ => None
      end
  end
with parse_members (fuel : nat) (ts : list token)
  : option (list (string * json) * list token) :=
  match fuel with
  | O => None
  | S f =>
      match ts with
      | TStr k :: TColon :: r =>
          match parse_value f r with
          | Some (v, TComma :: r') =>
              match parse_members f r' with
              | Some (ms, r'') => Some ((k, v) :: ms, r'')
              | None => None
              end
          | Some (v, TRBrace :: r') => Some ([(k, v)], r')
          | _ => None
          end
      | _ => None
      end
  end.

(** The whole text must be one value. *)
Definition json_loads (s : string) : result json :=
  match lex (String.length s) s with
  | Some ts =>
      match parse_value (2 * length ts + 2) ts with
      | Some (j, []) => Ok j
      | _ => Raise JSONDecodeError
      end
  | None => Raise JSONDecodeError
  end.

Definition quoted (s : string) : string :=
  String dq (s +:+ String dq EmptyString).

(** A compact rendering; the indentation asked for is ignored. *)
Fixpoint render (j : json) : string :=
  match j with
  | JNull => "null"
  | JBool true => "true"
  | JBool false => "false"
  | JInt n => NilZero.string_of_int (Z.to_int n)
  | JFloat _ => "NaN"
  | JStr s => quoted s
  | JArr items =>
      "[" +:+ (fix go (l : list json) : string :=
                 match l with
                 | [] => EmptyString
                 | x :: r =>
                     match r with
                     | [] => render x
                     | _ :: _ => render x +:+ ", " +:+ go r
                     end
                 end) items +:+ "]"
  | JObj members =>
      "{" +:+ (fix go (l : list (string * json)) : string :=
                 match l with
                 | [] => EmptyString
                 | (k, x) :: r =>
                     match r with
                     | [] => quoted k +:+ ": " +:+ render x
                     | _ :: _ => quoted k +:+ ": " +:+ render x +:+ ", " +:+ go r
                     end
                 end) members +:+ "}"
  end.

Definition json_dumps (_ : option Z) (_ : bool) (j : json) : string := render j.

Definition str_encode (s : string) : result bytes := Ok (list_byte_of_string s).
Definition bytes_decode (b : bytes) : result string := Ok (string_of_list_byte b).

(** A storage service that never fails. *)
Definition no_fault (_ : nat) : bool := false.

(** The processor [main] builds. *)
Definition self : processor :=
  {| input_bucket := "healthcare-facility-data";
     output_bucket := "healthcare-facility-data";
     input_key := "input/";
     output_key := "filtered/" |}.

Definition input_file (key content : string) : s3_object :=
  {| s3_bucket := "healthcare-facility-data";
     s3_key := key;
     s3_body := list_byte_of_string content;
     s3_content_type := "application/json" |}.

(** A world with the objects [h] stored and the files [files] in the bucket. *)
Definition world_of (h : heap) (files : list s3_object) : world :=
  {| w_heap := h; w_ticks := 0; w_s3 := files; w_s3_calls := 0; w_log := [] |}.

(** The two facilities of the repository's test: FAC001 expires in 30 days,
    FAC002 in a year. *)
Definition sample_facilities : heap :=
  [ ODict [("accreditation_body", VStr "Joint Commission");
           ("valid_until", VStr "2026-12-03")];
    OList [VRef 0];
    ODict [("facility_id", VStr "FAC001"); ("facility_name", VStr "Test Hospital");
           ("employee_count", VInt 100); ("accreditations", VRef 1)];
    ODict [("accreditation_body", VStr "NCQA"); ("valid_until", VStr "2027-11-03")];
    OList [VRef 3];
    ODict [("facility_id", VStr "FAC002"); ("facility_name", VStr "Safe Clinic");
           ("employee_count", VInt 50); ("accreditations", VRef 4)];
    OList [VRef 2; VRef 5] ].

(** FAC001 again, with FAC003 whose accreditations are an empty list and
    FAC004 that has no accreditations entry. *)
Definition with_empty_accreditations : heap :=
  sample_facilities
    ++ [ OList [];
         ODict [("facility_id", VStr "FAC003"); ("accreditations", VRef 7)];
         ODict [("facility_id", VStr "FAC004")];
         OList [VRef 2; VRef 8; VRef 9] ].

(** A facility that already carries a metadata field, as a record written by
    an earlier run does. *)
Definition reprocessed : heap :=
  [ ODict [("accreditation_body", VStr "Joint Commission");
           ("valid_until", VStr "2026-12-03")];
    OList [VRef 0];
    ODict [("facility_id", VStr "FAC001");
           ("_processing_metadata", VStr "set by an earlier run");
           ("accreditations", VRef 1)];
    OList [VRef 2] ].

(** The list [[None, FAC001]]: what the array [[null, {...}]] decodes to. *)
Definition with_null_record : heap :=
  sample_facilities ++ [OList [VNone; VRef 2]].

(** FAC005 is a mapping whose accreditations list holds a number. *)
Definition with_malformed_accreditations : heap :=
  sample_facilities
    ++ [ OList [VInt 7];
         ODict [("facility_id", VStr "FAC005"); ("accreditations", VRef 7)];
         OList [VRef 8; VRef 2] ].

(** A JSON Lines file with a single record. *)
Definition one_record_line : string :=
  json_text "{'facility_id': 'FAC001', 'facility_name': 'Test Hospital', 'accreditations': [{'accreditation_body': 'Joint Commission', 'valid_until': '2026-12-03'}]}".

(** A JSON Lines file: two records around a truncated line. *)
Definition three_lines : string :=
  json_text "{'facility_id': 'FAC001'}
{'facility_id':
{'facility_id': 'FAC002'}
".

(** A JSON array file whose only facility expires in a year. *)
Definition not_expiring_file : string :=
  json_text "[{'facility_id': 'FAC002', 'facility_name': 'Safe Clinic', 'accreditations': [{'accreditation_body': 'NCQA', 'valid_until': '2027-11-03'}]}]".

(** The placeholder record, stored, and the list that holds it. *)
Definition placeholder_data : heap :=
  [ OList [];
    ODict [("message", VStr "No facilities with expiring accreditations found");
           ("processing_date", VStr "2026-11-03T09:00:00");
           ("facilities", VRef 0)];
    OList [VRef 1] ].

(** *** Environments and data for the further properties *)

(** A storage service that refuses its request number [n] (from 0) and
    accepts the others. *)
Definition fault_at (n : nat) (k : nat) : bool := Nat.eqb k n.

(** UTF-8 decoding of byte strings: a byte from 0xF8 up, which no UTF-8
    sequence holds, is refused. *)
Definition utf8_decode (b : bytes) : result string :=
  if existsb (fun x => (248 <=? Byte.to_nat x)%nat) b then Raise UnicodeError
  else Ok (string_of_list_byte b).

(** An object that is not text. *)
Definition binary_file (key : string) : s3_object :=
  {| s3_bucket := "healthcare-facility-data";
     s3_key := key;
     s3_body := [Byte.xff; Byte.xfe];
     s3_content_type := "application/octet-stream" |}.

(** A JSON array file with the two facilities of the repository's test. *)
Definition expiring_file : string :=
  json_text "[{'facility_id': 'FAC001', 'facility_name': 'Test Hospital', 'accreditations': [{'accreditation_body': 'Joint Commission', 'valid_until': '2026-12-03'}]}, {'facility_id': 'FAC002', 'facility_name': 'Safe Clinic', 'accreditations': [{'accreditation_body': 'NCQA', 'valid_until': '2027-11-03'}]}]".

(** FAC001 as the filter returns it, and the list that holds it. *)
Definition filtered_records : heap :=
  [ ODict [("body", VStr "Joint Commission"); ("expiry", VStr "2026-12-03")];
    OList [VRef 0];
    ODict [("processed_date", VStr "2026-11-03T09:00:00");
           ("expiring_accreditations", VRef 1);
           ("total_accreditations", VInt 1)];
    ODict [("facility_id", VStr "FAC001"); ("facility_name", VStr "Test Hospital");
           ("_processing_metadata", VRef 2)];
    OList [VRef 3] ].

Definition filtered_json : json :=
  JArr [JObj [("facility_id", JStr "FAC001"); ("facility_name", JStr "Test Hospital");
              ("_processing_metadata",
               JObj [("processed_date", JStr "2026-11-03T09:00:00");
                     ("expiring_accreditations",
                      JArr [JObj [("body", JStr "Joint Commission");
                                  ("expiry", JStr "2026-12-03")]]);
                     ("total_accreditations", JInt 1)])]].

(** FAC001 as it is collected from [expiring_file], serialized. *)
Definition collected_json : json :=
  JObj [("facility_id", JStr "FAC001"); ("facility_name", JStr "Test Hospital");
        ("accreditations",
         JArr [JObj [("accreditation_body", JStr "Joint Commission");
                     ("valid_until", JStr "2026-12-03")]]);
        ("_processing_metadata",
         JObj [("processed_date", JStr "2026-11-03T09:00:00");
               ("expiring_accreditations",
                JArr [JObj [("body", JStr "Joint Commission");
                            ("expiry", JStr "2026-12-03")]]);
               ("total_accreditations", JInt 1)])].

(** What the input location holds beside input files: the marker of the
    prefix, a file that is not JSON, and a JSON file of another bucket. *)
Definition other_objects : list s3_object :=
  [ input_file "input/" EmptyString;
    input_file "input/readme.txt" "notes";
    {| s3_bucket := "another-bucket";
       s3_key := "input/facilities.json";
       s3_body := [];
       s3_content_type := "application/json" |} ].

End Scenario.

(** * Lemmas *)

Lemma wp_run {A} (m : M A) (Q : result A -> world -> Prop) w r w' :
  m w = (r, w') -> Q r w' -> wp m Q w.
Proof. unfold wp. intros ->. auto. Qed.

Lemma wp_elim {A} (m : M A) (Q : result A -> world -> Prop) w :
  wp m Q w -> exists r w', m w = (r, w') /\ Q r w'.
Proof. unfold wp. destruct (m w) as [r w']. eauto. Qed.

Lemma wp_eq {A} (m : M A) w x :
  wp m (fun r w' => (r, w') = x) w -> m w = x.
Proof. unfold wp. destruct (m w). auto. Qed.

Lemma wp_mono {A} (m : M A) (Q Q' : result A -> world -> Prop) w :
  wp m Q w -> (forall r w', Q r w' -> Q' r w') -> wp m Q' w.
Proof. unfold wp. auto. Qed.

Lemma wp_ret {A} (a : A) Q w : Q (Ok a) w -> wp (ret a) Q w.
Proof. auto. Qed.

Lemma wp_raise {A} (e : exn) (Q : result A -> world -> Prop) w :
  Q (Raise e) w -> wp (raise e) Q w.
Proof. auto. Qed.

Lemma wp_lift {A} (r : result A) Q w : Q r w -> wp (lift r) Q w.
Proof. auto. Qed.

Lemma wp_bind {A B} (m : M A) (k : A -> M B) Q w :
  wp m (fun r w' =>
          match r with
          | Ok a => wp (k a) Q w'
          | Raise e => Q (Raise e) w'
          end) w ->
  wp (bind m k) Q w.
Proof. unfold wp, bind. destruct (m w) as [[a|e] w']; simpl; auto. Qed.

Lemma wp_try {A} (m : M A) (h : exn -> M A) Q w :
  wp m (fun r w' =>
          match r with
          | Ok a => Q (Ok a) w'
          | Raise e => wp (h e) Q w'
          end) w ->
  wp (try_except m h) Q w.
Proof. unfold wp, try_except. destruct (m w) as [[a|e] w']; simpl; auto. Qed.

Lemma wp_log lvl fmt args (Q : result unit -> world -> Prop) w :
  Q (Ok tt) (with_log w (w_log w ++ [{| lr_level := lvl; lr_format := fmt; lr_args := args |}])) ->
  wp (log lvl fmt args) Q w.
Proof. auto. Qed.

Lemma wp_alloc o (Q : result pyval -> world -> Prop) w :
  Q (Ok (VRef (length (w_heap w)))) (with_heap w (w_heap w ++ [o])) ->
  wp (alloc o) Q w.
Proof. auto. Qed.

(** ** What a computation leaves untouched *)

Lemma extends_refl w : extends w w.
Proof. repeat split; reflexivity. Qed.

Lemma extends_trans w1 w2 w3 : extends w1 w2 -> extends w2 w3 -> extends w1 w3.
Proof.
  intros (H1 & H2 & H3) (H4 & H5 & H6). repeat split.
  - etransitivity; eassumption.
  - congruence.
  - congruence.
Qed.

Lemma same_store_extends w w' : same_store w w' -> extends w w'.
Proof. intros (H1 & H2 & H3). repeat split; auto. rewrite H1. reflexivity. Qed.

Lemma extends_lookup w w' a o :
  extends w w' -> w_heap w !! a = Some o -> w_heap w' !! a = Some o.
Proof. intros (H & _) Ha. eapply prefix_lookup_Some; eassumption. Qed.

Lemma extends_length w w' : extends w w' -> length (w_heap w) <= length (w_heap w').
Proof. intros (H & _). apply prefix_length, H. Qed.

Lemma extends_alloc w o : extends w (with_heap w (w_heap w ++ [o])).
Proof. repeat split; simpl. apply prefix_app_r. reflexivity. Qed.

Lemma lookup_alloc (h : heap) o : (h ++ [o]) !! length h = Some o.
Proof. rewrite lookup_app_r by lia. rewrite Nat.sub_diag. reflexivity. Qed.

(** ** Reading the store *)

Lemma heap_get_prefix (h h' : heap) v o :
  h `prefix_of` h' -> heap_get h v = Some o -> heap_get h' v = Some o.
Proof.
  destruct v; simpl; try discriminate. intros Hp Hl.
  eapply prefix_lookup_Some; eassumption.
Qed.

Lemma dict_at_extends w w' v d :
  extends w w' -> dict_at (w_heap w) v d -> dict_at (w_heap w') v d.
Proof. intros (Hp & _). apply heap_get_prefix, Hp. Qed.

Lemma is_dict_true h v : is_dict h v = true -> exists d, dict_at h v d.
Proof.
  unfold is_dict, dict_at. destruct (heap_get h v) as [[l|d]|]; try discriminate.
  eauto.
Qed.

Lemma dict_at_allocated h v d : dict_at h v d -> exists a, v = VRef a /\ a < length h.
Proof.
  unfold dict_at. destruct v; simpl; try discriminate. intros H.
  eexists; split; [reflexivity|]. eapply lookup_lt_Some, H.
Qed.

Lemma iter_items_prefix (h h' : heap) v items :
  h `prefix_of` h' -> iter_items h v = Ok items -> iter_items h' v = Ok items.
Proof.
  intros Hp. destruct v; simpl; auto.
  destruct (h !! a) as [o|] eqn:E; [|discriminate].
  rewrite (prefix_lookup_Some _ _ _ _ E Hp). auto.
Qed.

(** What can be iterated has a length, the number of items visited. *)
Lemma iter_items_len (h : heap) v items :
  iter_items h v = Ok items -> len_of h v = Ok (Z.of_nat (length items)).
Proof.
  destruct v; simpl; try discriminate.
  - intros [= <-]. unfold chars. rewrite length_map.
    f_equal. f_equal. induction s; simpl; auto.
  - destruct (h !! a) as [[l|d]|]; try discriminate; intros [= <-]; auto.
    rewrite length_map. reflexivity.
Qed.

(** A value that is true next to a freshly allocated empty list was true
    before the allocation. *)
Lemma truthy_before_alloc (h : heap) v :
  truthy (h ++ [OList []]) v = true -> truthy h v = true.
Proof.
  destruct v; simpl; auto.
  destruct (h !! a) as [o|] eqn:E.
  - rewrite (lookup_app_l_Some _ _ _ _ E). auto.
  - auto.
Qed.

(** ** Dictionaries *)

Lemma dict_lookup_set_eq d k v : dict_lookup (dict_set d k v) k = Some v.
Proof.
  induction d as [|[k' v'] d IH]; simpl.
  - rewrite String.eqb_refl. reflexivity.
  - destruct (String.eqb k' k) eqn:E; simpl; rewrite E; auto.
Qed.

Lemma dict_lookup_set_ne d k v k' :
  k' <> k -> dict_lookup (dict_set d k v) k' = dict_lookup d k'.
Proof.
  intros Hne. induction d as [|[k0 v0] d IH]; simpl.
  - destruct (String.eqb_spec k k'); [congruence | reflexivity].
  - destruct (String.eqb_spec k0 k) as [->|Hk]; simpl.
    + destruct (String.eqb_spec k k'); [congruence | reflexivity].
    + destruct (String.eqb k0 k'); auto.
Qed.

(** Keys keep their positions; a new key goes last. *)
Lemma dict_set_keys d k v :
  map fst (dict_set d k v)
  = match dict_lookup d k with
    | Some _ => map fst d
    | None => map fst d ++ [k]
    end.
Proof.
  induction d as [|[k' v'] d IH]; simpl; auto.
  destruct (String.eqb k' k) eqn:E; simpl; auto.
  rewrite IH. destruct (dict_lookup d k); reflexivity.
Qed.

(** ** Rules for the operations *)

Lemma wp_py_get_dict obj d key dflt (Q : result pyval -> world -> Prop) w :
  dict_at (w_heap w) obj d ->
  wp dflt (fun r w' =>
             match r with
             | Ok v => Q (Ok (default v (dict_lookup d key))) w'
             | Raise e => Q (Raise e) w'
             end) w ->
  wp (py_get obj key dflt) Q w.
Proof.
  unfold dict_at, wp, py_get, dict_of, bind, ret. intros ->. simpl.
  destruct (dflt w) as [[v|e] w']; simpl; auto.
Qed.

Lemma wp_py_truthy v (Q : result bool -> world -> Prop) w :
  Q (Ok (truthy (w_heap w) v)) w -> wp (py_truthy v) Q w.
Proof. auto. Qed.

Lemma wp_py_iter v (Q : result (list pyval) -> world -> Prop) w :
  Q (iter_items (w_heap w) v) w -> wp (py_iter v) Q w.
Proof. auto. Qed.

Lemma wp_py_len v (Q : result Z -> world -> Prop) w :
  Q (len_of (w_heap w) v) w -> wp (py_len v) Q w.
Proof. auto. Qed.

Lemma wp_py_copy_dict obj d (Q : result pyval -> world -> Prop) w :
  dict_at (w_heap w) obj d ->
  Q (Ok (VRef (length (w_heap w)))) (with_heap w (w_heap w ++ [ODict d])) ->
  wp (py_copy obj) Q w.
Proof. unfold dict_at, wp, py_copy, alloc. intros ->. auto. Qed.

Lemma wp_py_setitem_dict a d key v (Q : result unit -> world -> Prop) w :
  w_heap w !! a = Some (ODict d) ->
  Q (Ok tt) (with_heap w (<[a := ODict (dict_set d key v)]> (w_heap w))) ->
  wp (py_setitem (VRef a) key v) Q w.
Proof. unfold wp, py_setitem. intros ->. auto. Qed.

Lemma wp_py_alloc_json j v h (Q : result pyval -> world -> Prop) w :
  alloc_json j (w_heap w) = (v, h) ->
  Q (Ok v) (with_heap w h) ->
  wp (py_alloc_json j) Q w.
Proof. unfold wp, py_alloc_json. intros ->. auto. Qed.

Lemma wp_datetime_now clock (Q : result datetime -> world -> Prop) w :
  Q (Ok (clock (w_ticks w))) (with_ticks w (S (w_ticks w))) ->
  wp (datetime_now clock) Q w.
Proof. auto. Qed.

(** The copy made at the end of the store, its two companions allocated
    after it, then the copy updated in place. *)
Lemma insert_copy (h : heap) x y b c :
  <[length h := x]> (((h ++ [y]) ++ [b]) ++ [c]) = h ++ [x; b; c].
Proof.
  rewrite <- !app_assoc. simpl. rewrite insert_app_r_alt by lia.
  rewrite Nat.sub_diag. reflexivity.
Qed.

Ltac wp_step :=
  lazymatch goal with
  | |- wp (bind _ _) _ _ => apply wp_bind
  | |- wp (try_except _ _) _ _ => apply wp_try
  | |- wp (ret _) _ _ => apply wp_ret
  | |- wp (raise _) _ _ => apply wp_raise
  | |- wp (lift _) _ _ => apply wp_lift
  | |- wp (log _ _ _) _ _ => apply wp_log
  | |- wp (alloc _) _ _ => apply wp_alloc
  | |- wp (datetime_now _) _ _ => apply wp_datetime_now
  | |- wp (py_truthy _) _ _ => apply wp_py_truthy
  | |- wp (py_iter _) _ _ => apply wp_py_iter
  | |- wp (py_len _) _ _ => apply wp_py_len
  end; simpl.

Ltac wp_steps := repeat wp_step.

Lemma lookup_tail (h l : heap) k : (h ++ l) !! (length h + k) = l !! k.
Proof. rewrite lookup_app_r by lia. f_equal. lia. Qed.

(** ** Computations that only read the storage service *)

Lemma reads_only_ret {A} (a : A) : reads_only (ret a).
Proof. intros w. reflexivity. Qed.

Lemma reads_only_raise {A} e : reads_only (@raise A e).
Proof. intros w. reflexivity. Qed.

Lemma reads_only_lift {A} (r : result A) : reads_only (lift r).
Proof. intros w. reflexivity. Qed.

Lemma reads_only_log lvl fmt args : reads_only (log lvl fmt args).
Proof. intros w. reflexivity. Qed.

Lemma reads_only_alloc o : reads_only (alloc o).
Proof. intros w. reflexivity. Qed.

Lemma reads_only_py_iter v : reads_only (py_iter v).
Proof. intros w. reflexivity. Qed.

Lemma reads_only_py_len v : reads_only (py_len v).
Proof. intros w. reflexivity. Qed.

Lemma reads_only_py_alloc_json j : reads_only (py_alloc_json j).
Proof. intros w. unfold py_alloc_json. destruct (alloc_json j (w_heap w)). reflexivity. Qed.

Lemma reads_only_bind {A B} (m : M A) (k : A -> M B) :
  reads_only m -> (forall a, reads_only (k a)) -> reads_only (bind m k).
Proof.
  intros Hm Hk w. unfold bind. specialize (Hm w). unfold s3_unchanged in *.
  destruct (m w) as [[a|e] w1]; simpl in *; [|exact Hm].
  rewrite (Hk a w1). exact Hm.
Qed.

Lemma reads_only_try {A} (m : M A) (h : exn -> M A) :
  reads_only m -> (forall e, reads_only (h e)) -> reads_only (try_except m h).
Proof.
  intros Hm Hh w. unfold try_except. specialize (Hm w). unfold s3_unchanged in *.
  destruct (m w) as [[a|e] w1]; simpl in *; [exact Hm|].
  rewrite (Hh e w1). exact Hm.
Qed.

Lemma reads_only_for_each {A S} (body : A -> S -> M S) :
  (forall x s, reads_only (body x s)) -> forall l s, reads_only (for_each body l s).
Proof.
  intros Hbody l. induction l as [|x rest IH]; intros s; simpl.
  - apply reads_only_ret.
  - apply reads_only_bind; [apply Hbody | intros; apply IH].
Qed.

Lemma reads_only_extends {A} (m : M A) :
  (forall w, extends w (snd (m w))) -> reads_only m.
Proof. intros H w. destruct (H w) as (_ & Hs & _). exact Hs. Qed.

Ltac frame_step :=
  lazymatch goal with
  | |- reads_only (ret _) => apply reads_only_ret
  | |- reads_only (raise _) => apply reads_only_raise
  | |- reads_only (lift _) => apply reads_only_lift
  | |- reads_only (log _ _ _) => apply reads_only_log
  | |- reads_only (alloc _) => apply reads_only_alloc
  | |- reads_only (py_iter _) => apply reads_only_py_iter
  | |- reads_only (py_len _) => apply reads_only_py_len
  | |- reads_only (py_alloc_json _) => apply reads_only_py_alloc_json
  | |- reads_only (bind _ _) => apply reads_only_bind; [|intros]
  | |- reads_only (try_except _ _) => apply reads_only_try; [|intros]
  | |- reads_only (for_each _ _ _) => apply reads_only_for_each; intros
  | |- reads_only (match ?x with _ => _ end) => destruct x
  end.

Ltac frame := repeat frame_step.

(** ** Serializing the placeholder *)

Lemma reify_no_results (h : heap) message stamp :
  let h' := h ++ [OList [];
                  ODict [("message", VStr message);
                         ("processing_date", VStr stamp);
                         ("facilities", VRef (length h))];
                  OList [VRef (length h + 1)]] in
  reify (S (length h')) h' (VRef (length h + 2))
  = Some (JArr [JObj [("message", JStr message);
                      ("processing_date", JStr stamp);
                      ("facilities", JArr [])]]).
Proof.
  intros h'. subst h'. rewrite length_app. simpl length.
  replace (S (length h + 3)) with (S (S (S (length h + 1)))) by lia.
  cbn [reify]. rewrite lookup_tail. cbn [lookup list_lookup option_map].
  cbn [reify]. rewrite lookup_tail. cbn [lookup list_lookup option_map].
  replace (length h + 1) with (S (length h)) by lia.
  cbn [reify].
  rewrite <- (Nat.add_0_r (length h)) at 1. rewrite lookup_tail.
  reflexivity.
Qed.
(** * Properties of the processor *)

Section Properties.

Variable clock : nat -> datetime.
Variable dateutil_parse : Z -> string -> result datetime.
Variable isoformat : datetime -> string.
Variable strftime : datetime -> string -> string.
Variable json_loads : string -> result json.
Variable json_dumps : option Z -> bool -> json -> string.
Variable str_encode : string -> result bytes.
Variable bytes_decode : bytes -> result string.
Variable s3_fault : nat -> bool.

(** ** The expiry evaluator *)

Lemma timedelta_add_window today months d usec :
  valid_day today ->
  match timedelta (months * 30) with
  | Ok delta =>
      match datetime_add {| dt_day := today; dt_usec := usec |} delta with
      | Ok t => ((today <=? d) && (d <=? dt_day t))%Z
      | Raise _ => false
      end
  | Raise _ => false
  end = in_window today months d.
Proof.
  unfold valid_day, timedelta, datetime_add, in_window, max_ordinal. intros Hd. simpl.
  destruct (Z.leb_spec (Z.abs (months * 30)) 999999999) as [Ha|Ha].
  - destruct (Z.leb_spec 1 (today + months * 30)) as [H1|H1]; simpl.
    + destruct (Z.leb_spec (today + months * 30) 3652059) as [H2|H2]; simpl.
      * rewrite andb_true_r. reflexivity.
      * rewrite andb_false_r. reflexivity.
    + destruct (Z.leb_spec today d); simpl; [|reflexivity].
      destruct (Z.leb_spec d (today + months * 30)); simpl; [lia | reflexivity].
  - destruct (Z.leb_spec (today + months * 30) 3652059) as [H2|H2]; simpl.
    + rewrite andb_true_r.
      destruct (Z.leb_spec today d); simpl; [|reflexivity].
      destruct (Z.leb_spec d (today + months * 30)); simpl; [lia | reflexivity].
    + rewrite andb_false_r. reflexivity.
Qed.

(** One call on a string that parses, the three readings of the clock
    falling on the same day. *)
Lemma is_expiring_soon_run s months w today dt :
  valid_day today ->
  dt_day (clock (w_ticks w)) = today ->
  dt_day (clock (S (w_ticks w))) = today ->
  dt_day (clock (S (S (w_ticks w)))) = today ->
  dateutil_parse today s = Ok dt ->
  exists w',
    is_expiring_soon clock dateutil_parse (VStr s) months w
    = (Ok (in_window today months (dt_day dt)), w')
    /\ same_store w w'.
Proof.
  intros Hv H0 H1 H2 Hp.
  unfold is_expiring_soon, try_except, bind, parse, datetime_now, lift, ret. simpl.
  rewrite H0, Hp. simpl. rewrite H1.
  pose proof (timedelta_add_window today months (dt_day dt)
                (dt_usec (clock (S (S (w_ticks w))))) Hv) as Hw.
  destruct (clock (S (S (w_ticks w)))) as [day usec] eqn:Hc. simpl in H2. subst day.
  simpl in Hw.
  destruct (timedelta (months * 30)) as [delta|e]; simpl.
  - destruct (datetime_add {| dt_day := today; dt_usec := usec |} delta) as [t|e]; simpl.
    + rewrite Hw. eexists. split; [reflexivity | repeat split].
    + rewrite <- Hw. eexists. split; [reflexivity | repeat split].
  - rewrite <- Hw. eexists. split; [reflexivity | repeat split].
Qed.

(** Whatever it is given, the evaluator answers and leaves the store alone. *)
Lemma is_expiring_soon_total v months w :
  exists b w',
    is_expiring_soon clock dateutil_parse v months w = (Ok b, w') /\ same_store w w'.
Proof.
  unfold is_expiring_soon, try_except, bind, parse, datetime_now, lift, ret, raise, log.
  simpl.
  destruct v; simpl;
    try (eexists _, _; split; [reflexivity | repeat split]).
  destruct (dateutil_parse _ s) as [dt|e]; simpl;
    [| eexists _, _; split; [reflexivity | repeat split]].
  destruct (timedelta (months * 30)) as [delta|e]; simpl;
    [| eexists _, _; split; [reflexivity | repeat split]].
  destruct (datetime_add _ delta) as [t|e]; simpl;
    eexists _, _; (split; [reflexivity | repeat split]).
Qed.

(** A string the parser refuses: one reading of the clock, one warning, and
    the answer is [False]. *)
Lemma is_expiring_soon_refused s months w e :
  dateutil_parse (dt_day (clock (w_ticks w))) s = Raise e ->
  is_expiring_soon clock dateutil_parse (VStr s) months w
  = (Ok false,
     with_log (with_ticks w (S (w_ticks w)))
       (w_log w ++ [{| lr_level := WARNING;
                       lr_format := "Error parsing date '{}': {}";
                       lr_args := [LVal (VStr s); LExn e] |}])).
Proof.
  intros Hp.
  unfold is_expiring_soon, try_except, bind, parse, datetime_now, lift, ret, raise, log.
  simpl. rewrite Hp. reflexivity.
Qed.

(** ** The loop over the accreditations *)

Lemma check_accreditation_extends accreditation st w :
  extends w (snd (check_accreditation clock dateutil_parse accreditation st w)).
Proof.
  unfold check_accreditation, py_get, dict_of, bind, ret. simpl.
  destruct (heap_get (w_heap w) accreditation) as [[l|d]|] eqn:Hd0; simpl;
    try apply extends_refl.
  destruct (is_expiring_soon_total (default (VStr EmptyString) (dict_lookup d "valid_until")) 6 w)
    as (b & w' & Heq & Hs).
  rewrite Heq. simpl.
  assert (Hd : heap_get (w_heap w') accreditation = Some (ODict d)).
  { destruct Hs as (-> & _). assumption. }
  destruct b; simpl.
  - rewrite Hd. simpl.
    eapply extends_trans; [apply same_store_extends, Hs | apply extends_alloc].
  - apply same_store_extends, Hs.
Qed.

Lemma for_each_extends {A S} (body : A -> S -> M S) :
  (forall x s w, extends w (snd (body x s w))) ->
  forall l s w, extends w (snd (for_each body l s w)).
Proof.
  intros Hbody l. induction l as [|x rest IH]; intros s w; simpl.
  - apply extends_refl.
  - unfold bind. specialize (Hbody x s w).
    destruct (body x s w) as [[s'|e] w']; simpl in *; auto.
    eapply extends_trans; [exact Hbody | apply IH].
Qed.

(** ** One facility *)

(** A facility that is not a mapping: the first [facility.get] raises, and so
    does the one the handler evaluates for its log message; the exception
    leaves the function. *)
Lemma process_facility_not_dict facility acc w :
  is_dict (w_heap w) facility = false ->
  process_facility clock dateutil_parse isoformat facility acc w
  = (Raise AttributeError, w).
Proof.
  unfold is_dict, process_facility, try_except, py_get, dict_of, bind. simpl.
  destruct (heap_get (w_heap w) facility) as [[l|d]|] eqn:E; simpl;
    try discriminate; rewrite E; reflexivity.
Qed.

(** A facility that is a mapping: the iteration always ends normally, and
    appends the annotated copy exactly when the loop over the accreditations
    ran to its end with the flag set. *)
Lemma process_facility_dict facility d acc w :
  dict_at (w_heap w) facility d ->
  wp (process_facility clock dateutil_parse isoformat facility acc)
     (facility_outcome (for_each (check_accreditation clock dateutil_parse)) d acc w) w.
Proof.
  intros Hd.
  assert (Hhandler : forall e w',
             extends w w' ->
             forall Q : result (list pyval) -> world -> Prop,
             (forall l, Q (Ok acc) (with_log w' l)) ->
             wp (facility_id <- py_get facility "facility_id" (ret (VStr "Unknown")) ;;
                 log ERROR "Error processing facility {}: {}" [LVal facility_id; LExn e] ;;
                 ret acc) Q w').
  { intros e w' Hext Q HQ. wp_step.
    eapply wp_py_get_dict; [eapply dict_at_extends; eassumption|].
    wp_steps. apply HQ. }
  unfold process_facility. wp_step.
  wp_step. eapply wp_py_get_dict; [exact Hd|]. wp_steps.
  eapply wp_py_get_dict; [exact Hd|]. wp_steps.
  eapply wp_py_get_dict; [exact Hd|]. wp_steps.
  unfold facility_outcome. simpl.
  set (accreditations := default (VRef (length (w_heap w))) (dict_lookup d "accreditations")).
  set (w1 := with_heap w (w_heap w ++ [OList []])).
  destruct (truthy (w_heap w ++ [OList []]) accreditations) eqn:Htruthy; simpl.
  2:{ wp_steps. eexists. repeat split. }
  wp_steps.
  destruct (iter_items (w_heap w ++ [OList []]) accreditations) as [items|e] eqn:Hiter; simpl.
  2:{ apply Hhandler; [apply extends_alloc|]. intros l. eexists. repeat split. }
  wp_step.
  pose proof (for_each_extends _ (check_accreditation_extends) items (false, []) w1) as Hext.
  destruct (for_each (check_accreditation clock dateutil_parse) items (false, []) w1)
    as [[[[|] es]|e] w2] eqn:Hloop; simpl in Hext;
    (eapply wp_run; [exact Hloop|]); simpl;
    (assert (Hext0 : extends w w2)
      by (eapply extends_trans; [apply extends_alloc | exact Hext]));
    pose proof Hext0 as (_ & Hs3 & Hcalls).
  3:{ apply Hhandler; [exact Hext0|].
      intros l. eexists. split; [reflexivity|]. simpl. auto. }
  2:{ wp_steps. eexists. split; [reflexivity|]. auto. }
  wp_step. eapply wp_py_copy_dict; [eapply dict_at_extends; eassumption|]. simpl.
  wp_steps.
  assert (Hlen : len_of ((w_heap w2 ++ [ODict d]) ++ [OList es]) accreditations
                 = Ok (Z.of_nat (length items))).
  { apply iter_items_len. eapply iter_items_prefix; [|exact Hiter].
    destruct Hext as (Hp & _). simpl in Hp.
    apply prefix_app_r, prefix_app_r, Hp. }
  rewrite Hlen. simpl. wp_steps.
  eapply wp_py_setitem_dict.
  { simpl. rewrite <- !app_assoc. rewrite lookup_app_r by lia.
    rewrite Nat.sub_diag. reflexivity. }
  simpl. wp_steps.
  eexists. split; [reflexivity|].
  split; [exact Hs3|]. split; [exact Hcalls|].
  exists (isoformat (clock (w_ticks w2))). split; [reflexivity|].
  rewrite insert_copy. rewrite !length_app. simpl.
  replace (length (w_heap w2) + 1 + 1) with (length (w_heap w2) + 2) by lia.
  reflexivity.
Qed.
(** What every run on a mapping guarantees, whatever its accreditations
    hold. *)
Lemma process_facility_generic a d acc w :
  w_heap w !! a = Some (ODict d) ->
  wp (process_facility clock dateutil_parse isoformat (VRef a) acc)
     (fun r w' =>
        extends w w'
        /\ exists acc',
            r = Ok acc'
            /\ (acc' = acc
                \/ exists c m,
                    acc' = acc ++ [VRef c] /\ length (w_heap w) <= c
                    /\ w_heap w' !! c = Some (ODict (dict_set d metadata_key m))
                    /\ accreditations_nonempty (w_heap w) d)) w.
Proof.
  intros Hd. eapply wp_mono; [apply (process_facility_dict (VRef a) d acc w Hd)|].
  intros r w' (acc' & -> & Hs & Hc & Hcases). simpl in Hcases.
  assert (Hgrow : forall h, w_heap w' = h -> w_heap w `prefix_of` h -> extends w w').
  { intros h <- Hp. split; auto. }
  destruct (truthy (w_heap w ++ [OList []])
              (default (VRef (length (w_heap w))) (dict_lookup d "accreditations")))
    eqn:Htruthy; simpl in Hcases.
  2:{ destruct Hcases as (-> & Hh). split; [|eauto].
      eapply Hgrow; [exact Hh|]. apply prefix_app_r. reflexivity. }
  assert (Hne : accreditations_nonempty (w_heap w) d).
  { unfold accreditations_nonempty.
    destruct (dict_lookup d "accreditations") as [v|]; simpl in Htruthy.
    - exists v. split; [reflexivity|]. apply truthy_before_alloc, Htruthy.
    - rewrite lookup_alloc in Htruthy. discriminate. }
  destruct (iter_items (w_heap w ++ [OList []])
              (default (VRef (length (w_heap w))) (dict_lookup d "accreditations")))
    as [items|e].
  2:{ destruct Hcases as (-> & Hh). split; [|eauto].
      eapply Hgrow; [exact Hh|]. apply prefix_app_r. reflexivity. }
  pose proof (for_each_extends _ check_accreditation_extends items (false, [])
                (with_heap w (w_heap w ++ [OList []]))) as Hext.
  destruct (for_each (check_accreditation clock dateutil_parse) items (false, [])
              (with_heap w (w_heap w ++ [OList []]))) as [r2 w2].
  simpl in Hext. destruct Hext as (Hp & _). simpl in Hp.
  assert (Hp0 : w_heap w `prefix_of` w_heap w2).
  { etransitivity; [|exact Hp]. apply prefix_app_r. reflexivity. }
  destruct r2 as [[[|] es]|e];
    try (destruct Hcases as (-> & Hh); split; [|eauto];
         eapply Hgrow; [exact Hh | exact Hp0]).
  destruct Hcases as (ts & -> & Hh). split.
  - eapply Hgrow; [exact Hh|]. apply prefix_app_r, Hp0.
  - eexists. split; [reflexivity|]. right. eexists _, _.
    split; [reflexivity|]. split; [apply prefix_length, Hp0|].
    split; [|exact Hne].
    rewrite Hh. rewrite lookup_app_r by lia. rewrite Nat.sub_diag. reflexivity.
Qed.

Lemma truthy_shrink (h0 h : heap) v :
  h0 `prefix_of` h -> truthy h v = true -> truthy h0 v = true.
Proof.
  intros Hp. destruct v; simpl; auto.
  destruct (h0 !! a) as [o|] eqn:E; [|auto].
  rewrite (prefix_lookup_Some _ _ _ _ E Hp). auto.
Qed.

Lemma output_of_extends h0 w w' items o :
  extends w w' ->
  output_of h0 (w_heap w) items o -> output_of h0 (w_heap w') items o.
Proof.
  intros Hext (c & a & d & m & -> & Hc & Hin & Ha & Hcopy & Hne).
  exists c, a, d, m. repeat split; auto. eapply extends_lookup; eassumption.
Qed.

(** ** The loop over the facilities *)

(** Every record the loop collects is the annotated copy of an input mapping
    with accreditations, and nothing that was stored before is touched. *)
Lemma filter_loop_outputs w0 items0 :
  forall items acc w,
    extends w0 w ->
    incl items items0 ->
    Forall (allocated (w_heap w0)) items ->
    Forall (output_of (w_heap w0) (w_heap w) items0) acc ->
    wp (for_each (process_facility clock dateutil_parse isoformat) items acc)
       (fun r w' =>
          extends w0 w'
          /\ match r with
             | Ok acc' => Forall (output_of (w_heap w0) (w_heap w') items0) acc'
             | Raise _ => True
             end) w.
Proof.
  induction items as [|x items IH]; intros acc w Hext Hincl Halloc Hacc; simpl.
  - apply wp_ret. auto.
  - apply wp_bind.
    destruct (is_dict (w_heap w) x) eqn:Hx.
    2:{ eapply wp_run; [apply process_facility_not_dict, Hx|]. simpl. auto. }
    apply is_dict_true in Hx as [d Hd].
    destruct (dict_at_allocated _ _ _ Hd) as (a & -> & _).
    unfold dict_at in Hd. simpl in Hd.
    assert (Ha0 : w_heap w0 !! a = Some (ODict d)).
    { inversion Halloc as [|? ? Ha _]; subst. simpl in Ha.
      destruct (lookup_lt_is_Some_2 _ _ Ha) as [o Ho].
      pose proof (extends_lookup _ _ _ _ Hext Ho) as Ho'. congruence. }
    eapply wp_mono; [apply (process_facility_generic a d acc w Hd)|].
    intros r w' (Hext' & acc' & -> & Hcase).
    assert (Hext0 : extends w0 w') by (eapply extends_trans; eassumption).
    apply IH; auto.
    + intros y Hy. apply Hincl. right. exact Hy.
    + inversion Halloc; assumption.
    + assert (Hold : Forall (output_of (w_heap w0) (w_heap w') items0) acc).
      { eapply Forall_impl; [exact Hacc|]. intros o. apply output_of_extends, Hext'. }
      destruct Hcase as [-> | (c & m & -> & Hc & Hcopy & (v & Hv & Htruthy))]; auto.
      apply Forall_app. split; [exact Hold|]. constructor; [|constructor].
      exists c, a, d, m. repeat split; auto.
      * etransitivity; [apply (extends_length _ _ Hext) | exact Hc].
      * apply Hincl. left. reflexivity.
      * exists v. split; [exact Hv|].
        destruct Hext as (Hp & _). eapply truthy_shrink; eassumption.
Qed.

Lemma filter_expiring_facilities_outputs facilities items w :
  iter_items (w_heap w) facilities = Ok items ->
  Forall (allocated (w_heap w)) items ->
  wp (filter_expiring_facilities clock dateutil_parse isoformat facilities)
     (fun r w' =>
        extends w w'
        /\ match r with
           | Ok out =>
               exists outs,
                 heap_get (w_heap w') out = Some (OList outs)
                 /\ Forall (output_of (w_heap w) (w_heap w') items) outs
           | Raise _ => True
           end) w.
Proof.
  intros Hiter Halloc. unfold filter_expiring_facilities.
  wp_steps. rewrite Hiter. simpl. wp_step.
  eapply wp_mono.
  { apply (filter_loop_outputs w items items [] w);
      [apply extends_refl | apply incl_refl | exact Halloc | constructor]. }
  intros [filtered|e] w2 (Hext & Hout); [|auto].
  wp_steps.
  rewrite (iter_items_len _ _ _ (iter_items_prefix _ _ _ _ (proj1 Hext) Hiter)).
  simpl. wp_steps.
  assert (Hext' : extends w (with_heap
                    (with_log w2 (w_log w2 ++ [{| lr_level := INFO;
                       lr_format := "Filtered {} facilities with expiring accreditations out of {} total";
                       lr_args := [LInt (Z.of_nat (length filtered));
                                   LInt (Z.of_nat (length items))] |}]))
                    (w_heap w2 ++ [OList filtered]))).
  { destruct Hext as (Hp & Hs & Hc). split; [|split]; simpl; auto.
    apply prefix_app_r, Hp. }
  split; [exact Hext'|].
  exists filtered. split; [apply lookup_alloc|].
  eapply Forall_impl; [exact Hout|]. intros o.
  intros (c & a & d & m & -> & Hc & Hin & Ha & Hcopy & Hne).
  exists c, a, d, m. repeat split; auto. simpl.
  apply lookup_app_l_Some, Hcopy.
Qed.

Section SameDay.

(** Every reading of the clock during the run falls on [today]. *)
Variable today : Z.
Hypothesis today_valid : valid_day today.
Hypothesis clock_today : forall n, dt_day (clock n) = today.

Lemma is_expiring_soon_same_day v months w :
  exists w',
    is_expiring_soon clock dateutil_parse v months w
    = (Ok (expiring_soon_on dateutil_parse today months v), w')
    /\ same_store w w'.
Proof.
  destruct v;
    try (unfold is_expiring_soon, try_except, bind, parse, datetime_now, raise, log, ret;
         simpl; eexists; split; [reflexivity | repeat split]).
  simpl. destruct (dateutil_parse today s) as [dt|e] eqn:Hp.
  - apply is_expiring_soon_run; auto.
  - rewrite is_expiring_soon_refused with (e := e) by (rewrite clock_today; exact Hp).
    eexists; split; [reflexivity | repeat split].
Qed.

Local Abbreviation qualifies := (qualifying dateutil_parse today).

Lemma check_accreditation_dict v d has es w :
  dict_at (w_heap w) v d ->
  exists w',
    check_accreditation clock dateutil_parse v (has, es) w
    = (Ok (if qualifies d then (true, es ++ [VRef (length (w_heap w))]) else (has, es)), w')
    /\ w_heap w' = (if qualifies d then w_heap w ++ [expiring_entry d] else w_heap w)
    /\ w_s3 w' = w_s3 w /\ w_s3_calls w' = w_s3_calls w.
Proof.
  unfold dict_at. intros Hd.
  unfold check_accreditation, py_get, dict_of, bind, ret. simpl. rewrite Hd. simpl.
  destruct (is_expiring_soon_same_day (default (VStr EmptyString) (dict_lookup d "valid_until")) 6 w)
    as (w' & Heq & Hh & Hs & Hc).
  rewrite Heq. simpl. fold (field d "valid_until").
  change (expiring_soon_on dateutil_parse today 6 (field d "valid_until"))
    with (qualifies d).
  destruct (qualifies d); simpl.
  - rewrite Hh, Hd. simpl. rewrite Hh. eexists. split; [reflexivity|].
    simpl. auto.
  - eexists. split; [reflexivity|]. auto.
Qed.

(** Over accreditations that are all mappings the loop cannot fail: it
    records the qualifying ones, in order. *)
Lemma check_accreditations_dicts accs :
  forall ds has es w,
    Forall2 (dict_at (w_heap w)) accs ds ->
    exists new w',
      for_each (check_accreditation clock dateutil_parse) accs (has, es) w
      = (Ok (has || existsb qualifies ds, es ++ new), w')
      /\ extends w w'
      /\ Forall2 (fun x d => heap_get (w_heap w') x = Some (expiring_entry d))
           new (List.filter qualifies ds).
Proof.
  induction accs as [|v accs IH]; intros ds has es w H;
    inversion H as [|? d ? ds' Hd Hrest]; subst; simpl.
  - exists [], w. rewrite orb_false_r, app_nil_r.
    split; [reflexivity|]. split; [apply extends_refl | constructor].
  - destruct (check_accreditation_dict v d has es w Hd) as (w1 & Heq & Hh & Hs & Hc).
    unfold bind. rewrite Heq.
    assert (Hext : extends w w1).
    { split; [|split]; auto. rewrite Hh. destruct (qualifies d).
      - apply prefix_app_r. reflexivity.
      - reflexivity. }
    assert (Hrest' : Forall2 (dict_at (w_heap w1)) accs ds').
    { eapply Forall2_impl; [exact Hrest|]. intros x y. apply dict_at_extends, Hext. }
    clear H.
    destruct (qualifies d) eqn:Hq.
    + destruct (IH ds' true (es ++ [VRef (length (w_heap w))]) w1 Hrest')
        as (new & w' & Heq' & Hext' & Hnew).
      exists (VRef (length (w_heap w)) :: new), w'.
      rewrite Heq'. rewrite <- app_assoc. simpl. rewrite orb_true_r.
      split; [reflexivity|]. split; [eapply extends_trans; eassumption|].
      constructor; [|exact Hnew].
      simpl. eapply extends_lookup; [exact Hext'|].
      rewrite Hh. apply lookup_alloc.
    + destruct (IH ds' has es w1 Hrest') as (new & w' & Heq' & Hext' & Hnew).
      exists new, w'. rewrite Heq'. simpl.
      split; [reflexivity|]. split; [eapply extends_trans; eassumption | exact Hnew].
Qed.

Lemma annotated_extends w w' d total quals c :
  extends w w' ->
  annotated (w_heap w) d total quals c -> annotated (w_heap w') d total quals c.
Proof.
  intros Hext (m & e & es & ts & Hc & Hm & He & Hes).
  exists m, e, es, ts.
  repeat split; try (eapply extends_lookup; eassumption).
  eapply Forall2_impl; [exact Hes|]. intros x dq.
  apply heap_get_prefix, Hext.
Qed.

(** One iteration on a mapping: it ends normally, and a facility record with
    a qualifying accreditation is appended, annotated. *)
Lemma process_facility_step x d acc w :
  dict_at (w_heap w) x d ->
  exists new w',
    process_facility clock dateutil_parse isoformat x acc w = (Ok (acc ++ new), w')
    /\ extends w w'
    /\ forall accs ds,
        facility_record (w_heap w) d accs ds ->
        existsb qualifies ds = true ->
        exists c,
          new = [VRef c]
          /\ annotated (w_heap w') d (Z.of_nat (length accs))
               (List.filter qualifies ds) c.
Proof.
  intros Hd.
  destruct (dict_at_allocated _ _ _ Hd) as (a & -> & _).
  pose proof (process_facility_generic a d acc w Hd) as Hgen.
  pose proof (process_facility_dict (VRef a) d acc w Hd) as Hcases.
  unfold wp in Hgen, Hcases.
  destruct (process_facility clock dateutil_parse isoformat (VRef a) acc w) as [r w'].
  simpl in Hgen, Hcases.
  destruct Hgen as (Hext & acc1 & -> & Hacc1).
  destruct Hcases as (acc' & [= <-] & _ & _ & Hcases).
  exists (drop (length acc) acc1), w'.
  assert (Hsplit : acc1 = acc ++ drop (length acc) acc1).
  { destruct Hacc1 as [-> | (c & m & -> & _)].
    - rewrite drop_all, app_nil_r. reflexivity.
    - rewrite drop_app_length. reflexivity. }
  split; [congruence|]. split; [exact Hext|].
  intros accs ds (la & Hla & Hlist & Hds) Hq.
  assert (Hn : Nat.eqb (length accs) 0 = false).
  { destruct accs; [inversion Hds; subst; discriminate | reflexivity]. }
  rewrite Hla in Hcases. simpl in Hcases.
  rewrite (lookup_app_l_Some _ [OList []] _ _ Hlist), Hn in Hcases.
  simpl in Hcases.
  assert (Hds1 : Forall2 (dict_at (w_heap (with_heap w (w_heap w ++ [OList []]))))
                   accs ds).
  { eapply Forall2_impl; [exact Hds|]. intros y dy.
    apply dict_at_extends, extends_alloc. }
  destruct (check_accreditations_dicts accs ds false [] _ Hds1)
    as (es & w2 & Heq & Hext2 & Hes).
  rewrite Heq, Hq in Hcases. simpl in Hcases.
  destruct Hcases as (ts & -> & Hh).
  rewrite drop_app_length. eexists. split; [reflexivity|].
  exists (length (w_heap w2) + 2), (length (w_heap w2) + 1), es, ts.
  rewrite Hh.
  split; [rewrite <- (Nat.add_0_r (length (w_heap w2))) at 1; apply lookup_tail|].
  split; [apply lookup_tail|].
  split; [apply lookup_tail|].
  eapply Forall2_impl; [exact Hes|]. intros y dy.
  apply heap_get_prefix, prefix_app_r. reflexivity.
Qed.

(** Over a list of mappings the loop runs to its end, and every facility
    record with a qualifying accreditation has its annotated copy among the
    records collected. *)
Lemma filter_loop_dicts :
  forall items acc w,
    Forall (fun x => is_dict (w_heap w) x = true) items ->
    exists new w',
      for_each (process_facility clock dateutil_parse isoformat) items acc w
      = (Ok (acc ++ new), w')
      /\ extends w w'
      /\ forall x d accs ds,
          In x items ->
          dict_at (w_heap w) x d ->
          facility_record (w_heap w) d accs ds ->
          existsb qualifies ds = true ->
          exists c,
            In (VRef c) new
            /\ annotated (w_heap w') d (Z.of_nat (length accs))
                 (List.filter qualifies ds) c.
Proof.
  induction items as [|x items IH]; intros acc w Hall; simpl.
  - exists [], w. rewrite app_nil_r.
    split; [reflexivity|]. split; [apply extends_refl|].
    intros ? ? ? ? [].
  - inversion Hall as [|? ? Hx Hrest]; subst.
    apply is_dict_true in Hx as [dx Hdx].
    destruct (process_facility_step x dx acc w Hdx) as (new1 & w1 & Heq1 & Hext1 & Hnew1).
    unfold bind. rewrite Heq1.
    assert (Hrest1 : Forall (fun y => is_dict (w_heap w1) y = true) items).
    { eapply Forall_impl; [exact Hrest|]. intros y Hy.
      apply is_dict_true in Hy as [dy Hy].
      unfold is_dict. rewrite (dict_at_extends _ _ _ _ Hext1 Hy). reflexivity. }
    destruct (IH (acc ++ new1) w1 Hrest1) as (new2 & w' & Heq2 & Hext2 & Hnew2).
    exists (new1 ++ new2), w'. rewrite Heq2, app_assoc.
    split; [reflexivity|]. split; [eapply extends_trans; eassumption|].
    intros y d accs ds [<- | Hin] Hd Hrec Hq.
    + unfold dict_at in Hd, Hdx. rewrite Hdx in Hd. injection Hd as <-.
      destruct (Hnew1 accs ds Hrec Hq) as (c & -> & Hann).
      exists c. split; [left; reflexivity|].
      eapply annotated_extends; eassumption.
    + assert (Hrec1 : facility_record (w_heap w1) d accs ds).
      { destruct Hrec as (la & Hla & Hlist & Hds). exists la.
        split; [exact Hla|]. split; [eapply extends_lookup; eassumption|].
        eapply Forall2_impl; [exact Hds|]. intros z dz.
        apply dict_at_extends, Hext1. }
      destruct (Hnew2 y d accs ds Hin (dict_at_extends _ _ _ _ Hext1 Hd) Hrec1 Hq)
        as (c & Hc & Hann).
      exists c. split; [apply in_or_app; right; exact Hc | exact Hann].
Qed.


(** C2: the clock staying on one day, a list of facility mappings that
    holds a facility record with at least one qualifying accreditation is
    filtered without an exception, and the result holds the annotated copy of
    that record: its metadata block lists exactly the qualifying
    accreditations as body/expiry pairs, in their original order, and counts
    all the accreditations of the record. *)
Theorem filter_includes_qualifying l items facility d accs ds w :
  w_heap w !! l = Some (OList items) ->
  Forall (fun x => is_dict (w_heap w) x = true) items ->
  In facility items ->
  dict_at (w_heap w) facility d ->
  facility_record (w_heap w) d accs ds ->
  List.filter qualifies ds <> [] ->
  exists out outs w',
    filter_expiring_facilities clock dateutil_parse isoformat (VRef l) w = (Ok out, w')
    /\ heap_get (w_heap w') out = Some (OList outs)
    /\ exists c,
        In (VRef c) outs
        /\ annotated (w_heap w') d (Z.of_nat (length accs))
             (List.filter qualifies ds) c.
Proof.
  intros Hl Hall Hin Hd Hrec Hq.
  assert (Hex : existsb qualifies ds = true).
  { clear - Hq. induction ds as [|x xs IH]; simpl in *; [congruence|].
    destruct (qualifies x); simpl; auto. }
  destruct (filter_loop_dicts items [] w Hall) as (new & w1 & Heq & Hext & Hnew).
  destruct (Hnew facility d accs ds Hin Hd Hrec Hex) as (c & Hc & Hann).
  unfold filter_expiring_facilities, bind, py_iter, py_len, log, alloc. simpl.
  rewrite Hl, Heq. simpl.
  rewrite (extends_lookup _ _ _ _ Hext Hl). simpl.
  eexists _, new, _. split; [reflexivity|]. simpl.
  split; [apply lookup_alloc|].
  exists c. split; [exact Hc|].
  apply (annotated_extends w1 (with_heap w1 (w_heap w1 ++ [OList new])));
    [apply extends_alloc | exact Hann].
Qed.

End SameDay.

(** C1 (amended): for a string that parses to the day [dt_day dt], the three
    readings of the clock falling on [today], the evaluator answers, and it
    answers [True] exactly when [today <= d <= today + months * 30] and that
    upper bound is a date the calendar can represent (no later than
    9999-12-31). *)
Theorem is_expiring_soon_window s months w today dt :
  valid_day today ->
  dt_day (clock (w_ticks w)) = today ->
  dt_day (clock (S (w_ticks w))) = today ->
  dt_day (clock (S (S (w_ticks w)))) = today ->
  dateutil_parse today s = Ok dt ->
  exists b w',
    is_expiring_soon clock dateutil_parse (VStr s) months w = (Ok b, w')
    /\ (b = true <->
        (today <= dt_day dt <= today + months * 30
         /\ today + months * 30 <= max_ordinal)%Z).
Proof.
  intros Hv H0 H1 H2 Hp.
  destruct (is_expiring_soon_run s months w today dt Hv H0 H1 H2 Hp) as (w' & Heq & _).
  exists (in_window today months (dt_day dt)), w'. split; [exact Heq|].
  unfold in_window. rewrite !andb_true_iff, !Z.leb_le. reflexivity.
Qed.

(** C6: a string the date parser refuses makes the evaluator answer [False]
    without raising; the refusal is logged as one warning and nothing else
    changes but the clock, read once. *)
Theorem is_expiring_soon_unparseable s months w e :
  dateutil_parse (dt_day (clock (w_ticks w))) s = Raise e ->
  exists w',
    is_expiring_soon clock dateutil_parse (VStr s) months w = (Ok false, w')
    /\ same_store w w'
    /\ w_ticks w' = S (w_ticks w)
    /\ w_log w'
       = w_log w ++ [{| lr_level := WARNING;
                        lr_format := "Error parsing date '{}': {}";
                        lr_args := [LVal (VStr s); LExn e] |}].
Proof.
  intros Hp. rewrite (is_expiring_soon_refused s months w e Hp).
  eexists. split; [reflexivity|]. repeat split.
Qed.

(** C7: every record the filter returns is the copy of an input mapping whose
    accreditations entry is present and not empty, and carries that entry; a
    facility with an empty or missing accreditations sequence is the source
    of no output. *)
Theorem filter_excludes_without_accreditations facilities items w out w' :
  iter_items (w_heap w) facilities = Ok items ->
  Forall (allocated (w_heap w)) items ->
  filter_expiring_facilities clock dateutil_parse isoformat facilities w = (Ok out, w') ->
  exists outs,
    heap_get (w_heap w') out = Some (OList outs)
    /\ Forall
         (fun o =>
            exists c a d d' v,
              o = VRef c
              /\ In (VRef a) items /\ w_heap w !! a = Some (ODict d)
              /\ dict_lookup d "accreditations" = Some v /\ truthy (w_heap w) v = true
              /\ w_heap w' !! c = Some (ODict d')
              /\ dict_lookup d' "accreditations" = Some v)
         outs.
Proof.
  intros Hiter Halloc Hrun.
  pose proof (filter_expiring_facilities_outputs facilities items w Hiter Halloc) as H.
  unfold wp in H. rewrite Hrun in H. simpl in H.
  destruct H as (_ & outs & Hout & Hall).
  exists outs. split; [exact Hout|].
  eapply Forall_impl; [exact Hall|]. intros o.
  intros (c & a & d & m & -> & _ & Hin & Ha & Hcopy & (v & Hv & Htruthy)).
  exists c, a, d, (dict_set d metadata_key m), v.
  repeat split; auto.
  rewrite dict_lookup_set_ne by discriminate. exact Hv.
Qed.

(** ** The annotation of a filtered record *)

Lemma metadata_block_prefix (h h' : heap) m :
  h `prefix_of` h' -> metadata_block h m -> metadata_block h' m.
Proof.
  intros Hp (ts & e & total & es & Hm & He). exists ts, e, total, es.
  split; eapply prefix_lookup_Some; eassumption.
Qed.

(** One iteration on a mapping, with what it stores when it keeps the
    facility: the copy, updated in place to refer to the block allocated
    after it. *)
Lemma process_facility_block a d acc w :
  w_heap w !! a = Some (ODict d) ->
  wp (process_facility clock dateutil_parse isoformat (VRef a) acc)
     (fun r w' =>
        extends w w'
        /\ exists acc',
            r = Ok acc'
            /\ (acc' = acc
                \/ exists c m,
                    acc' = acc ++ [VRef c] /\ length (w_heap w) <= c
                    /\ w_heap w' !! c = Some (ODict (dict_set d metadata_key (VRef m)))
                    /\ length (w_heap w) <= m
                    /\ metadata_block (w_heap w') m)) w.
Proof.
  intros Hd. eapply wp_mono; [apply (process_facility_dict (VRef a) d acc w Hd)|].
  intros r w' (acc' & -> & Hs & Hc & Hcases). simpl in Hcases.
  assert (Hgrow : forall h, w_heap w' = h -> w_heap w `prefix_of` h -> extends w w').
  { intros h <- Hp. split; auto. }
  destruct (truthy (w_heap w ++ [OList []])
              (default (VRef (length (w_heap w))) (dict_lookup d "accreditations")));
    simpl in Hcases.
  2:{ destruct Hcases as (-> & Hh). split; [|eauto].
      eapply Hgrow; [exact Hh|]. apply prefix_app_r. reflexivity. }
  destruct (iter_items (w_heap w ++ [OList []])
              (default (VRef (length (w_heap w))) (dict_lookup d "accreditations")))
    as [items|e].
  2:{ destruct Hcases as (-> & Hh). split; [|eauto].
      eapply Hgrow; [exact Hh|]. apply prefix_app_r. reflexivity. }
  pose proof (for_each_extends _ check_accreditation_extends items (false, [])
                (with_heap w (w_heap w ++ [OList []]))) as Hext.
  destruct (for_each (check_accreditation clock dateutil_parse) items (false, [])
              (with_heap w (w_heap w ++ [OList []]))) as [r2 w2].
  simpl in Hext. destruct Hext as (Hp & _). simpl in Hp.
  assert (Hp0 : w_heap w `prefix_of` w_heap w2).
  { etransitivity; [|exact Hp]. apply prefix_app_r. reflexivity. }
  destruct r2 as [[[|] es]|e];
    try (destruct Hcases as (-> & Hh); split; [|eauto];
         eapply Hgrow; [exact Hh | exact Hp0]).
  destruct Hcases as (ts & -> & Hh). split.
  - eapply Hgrow; [exact Hh|]. apply prefix_app_r, Hp0.
  - pose proof (prefix_length _ _ Hp0) as Hlen.
    eexists. split; [reflexivity|]. right.
    exists (length (w_heap w2)), (length (w_heap w2) + 2).
    split; [reflexivity|]. split; [exact Hlen|].
    split; [rewrite Hh, <- (Nat.add_0_r (length (w_heap w2))) at 1;
            rewrite lookup_tail; reflexivity|].
    split; [lia|].
    eexists ts, (length (w_heap w2) + 1), _, es. rewrite Hh.
    split; rewrite lookup_tail; reflexivity.
Qed.

Lemma output_block_extends h0 w w' items o :
  extends w w' ->
  output_block h0 (w_heap w) items o -> output_block h0 (w_heap w') items o.
Proof.
  intros Hext (c & a & d & m & -> & Hc & Hin & Ha & Hcopy & Hm & Hblock).
  exists c, a, d, m. repeat split; auto.
  - eapply extends_lookup; eassumption.
  - eapply metadata_block_prefix; [apply Hext | exact Hblock].
Qed.

Lemma filter_loop_blocks w0 items0 :
  forall items acc w,
    extends w0 w ->
    incl items items0 ->
    Forall (allocated (w_heap w0)) items ->
    Forall (output_block (w_heap w0) (w_heap w) items0) acc ->
    wp (for_each (process_facility clock dateutil_parse isoformat) items acc)
       (fun r w' =>
          extends w0 w'
          /\ match r with
             | Ok acc' => Forall (output_block (w_heap w0) (w_heap w') items0) acc'
             | Raise _ => True
             end) w.
Proof.
  induction items as [|x items IH]; intros acc w Hext Hincl Halloc Hacc; simpl.
  - apply wp_ret. auto.
  - apply wp_bind.
    destruct (is_dict (w_heap w) x) eqn:Hx.
    2:{ eapply wp_run; [apply process_facility_not_dict, Hx|]. simpl. auto. }
    apply is_dict_true in Hx as [d Hd].
    destruct (dict_at_allocated _ _ _ Hd) as (a & -> & _).
    unfold dict_at in Hd. simpl in Hd.
    assert (Ha0 : w_heap w0 !! a = Some (ODict d)).
    { inversion Halloc as [|? ? Ha _]; subst. simpl in Ha.
      destruct (lookup_lt_is_Some_2 _ _ Ha) as [o Ho].
      pose proof (extends_lookup _ _ _ _ Hext Ho) as Ho'. congruence. }
    eapply wp_mono; [apply (process_facility_block a d acc w Hd)|].
    intros r w' (Hext' & acc' & -> & Hcase).
    assert (Hext0 : extends w0 w') by (eapply extends_trans; eassumption).
    apply IH; auto.
    + intros y Hy. apply Hincl. right. exact Hy.
    + inversion Halloc; assumption.
    + assert (Hold : Forall (output_block (w_heap w0) (w_heap w') items0) acc).
      { eapply Forall_impl; [exact Hacc|]. intros o. apply output_block_extends, Hext'. }
      destruct Hcase as [-> | (c & m & -> & Hc & Hcopy & Hm & Hblock)]; auto.
      apply Forall_app. split; [exact Hold|]. constructor; [|constructor].
      pose proof (extends_length _ _ Hext) as Hlen.
      exists c, a, d, m. repeat split; auto.
      * lia.
      * apply Hincl. left. reflexivity.
      * lia.
Qed.

Lemma filter_expiring_facilities_blocks facilities items w :
  iter_items (w_heap w) facilities = Ok items ->
  Forall (allocated (w_heap w)) items ->
  wp (filter_expiring_facilities clock dateutil_parse isoformat facilities)
     (fun r w' =>
        extends w w'
        /\ match r with
           | Ok out =>
               exists outs,
                 heap_get (w_heap w') out = Some (OList outs)
                 /\ Forall (output_block (w_heap w) (w_heap w') items) outs
           | Raise _ => True
           end) w.
Proof.
  intros Hiter Halloc. unfold filter_expiring_facilities.
  wp_steps. rewrite Hiter. simpl. wp_step.
  eapply wp_mono.
  { apply (filter_loop_blocks w items items [] w);
      [apply extends_refl | apply incl_refl | exact Halloc | constructor]. }
  intros [filtered|e] w2 (Hext & Hout); [|auto].
  wp_steps.
  rewrite (iter_items_len _ _ _ (iter_items_prefix _ _ _ _ (proj1 Hext) Hiter)).
  simpl. wp_steps.
  assert (Hext' : extends w (with_heap
                    (with_log w2 (w_log w2 ++ [{| lr_level := INFO;
                       lr_format := "Filtered {} facilities with expiring accreditations out of {} total";
                       lr_args := [LInt (Z.of_nat (length filtered));
                                   LInt (Z.of_nat (length items))] |}]))
                    (w_heap w2 ++ [OList filtered]))).
  { destruct Hext as (Hp & Hs & Hc). split; [|split]; simpl; auto.
    apply prefix_app_r, Hp. }
  split; [exact Hext'|].
  exists filtered. split; [apply lookup_alloc|].
  eapply Forall_impl; [exact Hout|]. intros o.
  intros (c & a & d & m & -> & Hc & Hin & Ha & Hcopy & Hm & Hblock).
  exists c, a, d, m. repeat split; auto; simpl.
  - apply lookup_app_l_Some, Hcopy.
  - eapply metadata_block_prefix; [|exact Hblock]. apply prefix_app_r. reflexivity.
Qed.

(** C8 (amended): filtering changes no object that was stored before it ran,
    so every source facility mapping is the same before and after; each
    record returned is a new object that keeps every field of its source
    other than [_processing_metadata] with the same value, keeps the order of
    the keys, and has [_processing_metadata] set to a reference to the new
    metadata block, an object the run has allocated: the entry is added last
    when the source had no such field and replaces the old value in place
    when it had one. *)
Theorem filter_copies_leave_input_unchanged facilities items w out w' :
  iter_items (w_heap w) facilities = Ok items ->
  Forall (allocated (w_heap w)) items ->
  filter_expiring_facilities clock dateutil_parse isoformat facilities w = (Ok out, w') ->
  (forall a o, w_heap w !! a = Some o -> w_heap w' !! a = Some o)
  /\ exists outs,
      heap_get (w_heap w') out = Some (OList outs)
      /\ Forall
           (fun o =>
              exists c a d d' m,
                o = VRef c /\ length (w_heap w) <= c
                /\ In (VRef a) items /\ w_heap w !! a = Some (ODict d)
                /\ w_heap w' !! c = Some (ODict d')
                /\ d' = dict_set d metadata_key (VRef m)
                /\ (forall k, k <> metadata_key -> dict_lookup d' k = dict_lookup d k)
                /\ dict_lookup d' metadata_key = Some (VRef m)
                /\ length (w_heap w) <= m
                /\ metadata_block (w_heap w') m
                /\ map fst d'
                   = match dict_lookup d metadata_key with
                     | Some _ => map fst d
                     | None => map fst d ++ [metadata_key]
                     end)
           outs.
Proof.
  intros Hiter Halloc Hrun.
  pose proof (filter_expiring_facilities_blocks facilities items w Hiter Halloc) as H.
  unfold wp in H. rewrite Hrun in H. simpl in H.
  destruct H as (Hext & outs & Hout & Hall).
  split; [intros a o; apply extends_lookup, Hext|].
  exists outs. split; [exact Hout|].
  eapply Forall_impl; [exact Hall|]. intros o.
  intros (c & a & d & m & -> & Hc & Hin & Ha & Hcopy & Hm & Hblock).
  exists c, a, d, (dict_set d metadata_key (VRef m)), m.
  repeat split; auto.
  - intros k Hk. apply dict_lookup_set_ne, Hk.
  - apply dict_lookup_set_eq.
  - apply dict_set_keys.
Qed.


(** ** The report writer *)

Lemma wp_put_object b k body ctype (Q : result unit -> world -> Prop) w :
  s3_fault (w_s3_calls w) = false ->
  Q (Ok tt)
    (with_s3 (with_s3_calls w (S (w_s3_calls w)))
       (store_put {| s3_bucket := b; s3_key := k; s3_body := body;
                     s3_content_type := ctype |} (w_s3 w))) ->
  wp (put_object s3_fault b k body ctype) Q w.
Proof.
  unfold wp, put_object, bind, s3_request. simpl. intros ->. auto.
Qed.

Lemma wp_py_json_dumps v indent ensure_ascii j (Q : result string -> world -> Prop) w :
  reify (S (length (w_heap w))) (w_heap w) v = Some j ->
  Q (Ok (json_dumps indent ensure_ascii j)) w ->
  wp (py_json_dumps json_dumps v indent ensure_ascii) Q w.
Proof. unfold wp, py_json_dumps. intros ->. auto. Qed.

Lemma summary_entry_extends facility entries w :
  extends w (snd (summary_entry facility entries w)).
Proof.
  unfold summary_entry, py_getitem, py_get, dict_of, bind, ret, raise, alloc, py_len.
  simpl.
  destruct (heap_get (w_heap w) facility) as [[l|d]|] eqn:Hf; simpl;
    try apply extends_refl.
  destruct (dict_lookup d "facility_id"); simpl; [|apply extends_refl].
  rewrite Hf. simpl.
  destruct (dict_lookup d "facility_name"); simpl; [|apply extends_refl].
  rewrite Hf. simpl.
  set (h1 := w_heap w ++ [ODict []]).
  assert (H1 : extends w (with_heap w h1)) by apply extends_alloc.
  destruct (heap_get h1 (default (VRef (length (w_heap w))) (dict_lookup d "_processing_metadata")))
    as [[l'|d']|]; simpl; try exact H1.
  set (h2 := h1 ++ [OList []]).
  assert (H2 : extends w (with_heap (with_heap w h1) h2)).
  { eapply extends_trans; [exact H1 | apply (extends_alloc (with_heap w h1))]. }
  destruct (len_of h2 (default (VRef (length h1)) (dict_lookup d' "expiring_accreditations")));
    simpl; [|exact H2].
  eapply extends_trans; [exact H2|].
  apply (extends_alloc (with_heap (with_heap w h1) h2)).
Qed.

(** The comprehension over [data] raises as soon as it meets a mapping that
    lacks one of the two keys it reads with a subscript. *)
Lemma summary_entries_raise pre a d post :
  dict_lookup d "facility_id" = None \/ dict_lookup d "facility_name" = None ->
  forall entries w,
    w_heap w !! a = Some (ODict d) ->
    wp (for_each summary_entry (pre ++ VRef a :: post) entries)
       (fun r w' => extends w w' /\ exists e, r = Raise e) w.
Proof.
  intros Hmiss. induction pre as [|x pre IH]; intros entries w Ha; simpl.
  - apply wp_bind. unfold wp, summary_entry, py_getitem, dict_of, bind, raise. simpl.
    rewrite Ha. simpl.
    destruct (dict_lookup d "facility_id"); simpl.
    + rewrite Ha. simpl. destruct Hmiss as [Hm|Hm]; [discriminate|].
      rewrite Hm. simpl. split; [apply extends_refl | eauto].
    + split; [apply extends_refl | eauto].
  - apply wp_bind. pose proof (summary_entry_extends x entries w) as Hext.
    unfold wp at 1. destruct (summary_entry x entries w) as [[entries'|e] w1]; simpl in *.
    + eapply wp_mono; [apply IH; eapply extends_lookup; eassumption|].
      intros r w' (Hext' & He). split; [eapply extends_trans; eassumption | exact He].
    + split; [exact Hext | eauto].
Qed.

(** Once the payload is stored, a record without [facility_id] or
    [facility_name] makes the writer raise: the payload stays, the summary is
    never sent. *)
Lemma write_json_to_s3_partial self l items pre a d post output_filename j body w :
  w_heap w !! l = Some (OList items) ->
  items = pre ++ VRef a :: post ->
  w_heap w !! a = Some (ODict d) ->
  dict_lookup d "facility_id" = None \/ dict_lookup d "facility_name" = None ->
  reify (S (length (w_heap w))) (w_heap w) (VRef l) = Some j ->
  str_encode (json_dumps (Some 2%Z) false j) = Ok body ->
  s3_fault (w_s3_calls w) = false ->
  wp (write_json_to_s3 clock isoformat strftime json_dumps str_encode s3_fault
        self (VRef l) output_filename)
     (fun r w' =>
        (exists e, r = Raise e)
        /\ w_s3 w'
           = store_put {| s3_bucket := output_bucket self;
                          s3_key := output_key self +:+ output_filename;
                          s3_body := body;
                          s3_content_type := "application/json" |} (w_s3 w)
        /\ w_s3_calls w' = S (w_s3_calls w)) w.
Proof.
  intros Hl -> Ha Hmiss Hreify Henc Hfault.
  unfold write_json_to_s3. wp_step. wp_step.
  eapply wp_py_json_dumps; [exact Hreify|].
  wp_step. rewrite Henc. wp_step. wp_step.
  apply wp_put_object; [exact Hfault|]. simpl.
  wp_steps. rewrite Hl. simpl. wp_steps. rewrite Hl. simpl.
  wp_steps. rewrite Hl. simpl. wp_step.
  eapply wp_mono; [apply (summary_entries_raise pre a d post Hmiss); exact Ha|].
  intros r w' ((_ & Hs & Hc) & e & ->). simpl in *.
  assert (Hpost : forall l', w_s3 (with_log w' l') = w_s3 w' /\
                             w_s3_calls (with_log w' l') = w_s3_calls w') by (split; reflexivity).
  destruct e; wp_steps; (split; [eauto|]); rewrite Hs, Hc; auto.
Qed.

(** C10: [write_json_to_s3] stores the data payload before it builds the
    summary, and builds the summary by subscripting every element with
    [facility_id] and [facility_name]; when the payload is stored and some
    element is a mapping without one of these keys, the call raises with the
    payload stored and the summary never sent: one of the two objects is
    left behind. *)
Theorem write_json_to_s3_not_atomic self l pre a d post output_filename j body w :
  w_heap w !! l = Some (OList (pre ++ VRef a :: post)) ->
  w_heap w !! a = Some (ODict d) ->
  dict_lookup d "facility_id" = None \/ dict_lookup d "facility_name" = None ->
  reify (S (length (w_heap w))) (w_heap w) (VRef l) = Some j ->
  str_encode (json_dumps (Some 2%Z) false j) = Ok body ->
  s3_fault (w_s3_calls w) = false ->
  exists e w',
    write_json_to_s3 clock isoformat strftime json_dumps str_encode s3_fault
      self (VRef l) output_filename w = (Raise e, w')
    /\ w_s3 w'
       = store_put {| s3_bucket := output_bucket self;
                      s3_key := output_key self +:+ output_filename;
                      s3_body := body;
                      s3_content_type := "application/json" |} (w_s3 w)
    /\ w_s3_calls w' = S (w_s3_calls w).
Proof.
  intros Hl Ha Hmiss Hreify Henc Hfault.
  pose proof (write_json_to_s3_partial self l _ pre a d post output_filename j body w
                Hl eq_refl Ha Hmiss Hreify Henc Hfault) as H.
  unfold wp in H.
  destruct (write_json_to_s3 clock isoformat strftime json_dumps str_encode s3_fault
              self (VRef l) output_filename w) as [r w'].
  simpl in H. destruct H as ((e & ->) & Hs & Hc).
  exists e, w'. auto.
Qed.

(** ** Reading never writes *)

Lemma process_facility_extends x acc w :
  extends w (snd (process_facility clock dateutil_parse isoformat x acc w)).
Proof.
  destruct (is_dict (w_heap w) x) eqn:Hx.
  - apply is_dict_true in Hx as [d Hd].
    destruct (dict_at_allocated _ _ _ Hd) as (a & -> & _).
    pose proof (process_facility_generic a d acc w Hd) as H.
    unfold wp in H. tauto.
  - rewrite process_facility_not_dict by exact Hx. apply extends_refl.
Qed.

Lemma reads_only_filter facilities :
  reads_only (filter_expiring_facilities clock dateutil_parse isoformat facilities).
Proof.
  unfold filter_expiring_facilities. frame.
  apply reads_only_extends. intros w. apply process_facility_extends.
Qed.

Lemma reads_only_get_object b k : reads_only (get_object s3_fault b k).
Proof.
  intros w. unfold get_object, bind, s3_request, s3_unchanged. simpl.
  destruct (s3_fault (w_s3_calls w)); simpl; [reflexivity|].
  destruct (List.find (same_object b k) (w_s3 w)); reflexivity.
Qed.

Lemma reads_only_parse_line numbered facilities :
  reads_only (parse_line json_loads numbered facilities).
Proof.
  unfold parse_line. destruct numbered as [n line].
  destruct (String.eqb (strip line) EmptyString); frame.
Qed.

Lemma reads_only_read_json self file_key :
  reads_only (read_json_from_s3 json_loads bytes_decode s3_fault self file_key).
Proof.
  unfold read_json_from_s3. frame.
  - apply reads_only_get_object.
  - apply reads_only_parse_line.
Qed.

Lemma reads_only_process_file self file_key acc :
  reads_only (process_file clock dateutil_parse isoformat json_loads bytes_decode
                s3_fault self file_key acc).
Proof.
  unfold process_file. frame.
  - apply reads_only_read_json.
  - apply reads_only_filter.
Qed.

Lemma reads_only_list_input_files self : reads_only (list_input_files s3_fault self).
Proof.
  unfold list_input_files. frame.
  intros w. unfold list_objects_v2, bind, s3_request, s3_unchanged. simpl.
  destruct (s3_fault (w_s3_calls w)); reflexivity.
Qed.

(** ** A run in which nothing qualifies *)

Lemma process_all_files_empty self w files w1 w2 body :
  list_input_files s3_fault self (started w) = (Ok files, w1) ->
  files <> [] ->
  for_each (process_file clock dateutil_parse isoformat json_loads bytes_decode
              s3_fault self) files [] w1 = (Ok [], w2) ->
  s3_fault (w_s3_calls w2) = false ->
  str_encode (json_dumps (Some 2%Z) false
                (no_results_payload (isoformat (clock (w_ticks w2))))) = Ok body ->
  wp (process_all_files clock dateutil_parse isoformat strftime json_loads json_dumps
        str_encode bytes_decode s3_fault self)
     (fun r w' =>
        w_s3 w'
        = store_put
            {| s3_bucket := output_bucket self;
               s3_key := output_key self +:+ "no_expiring_facilities_"
                         +:+ strftime (clock (S (w_ticks w2))) "%Y%m%d_%H%M%S"
                         +:+ ".json";
               s3_body := body;
               s3_content_type := "application/json" |} (w_s3 w)
        /\ w_s3_calls w' = S (w_s3_calls w2)) w.
Proof.
  intros Hlist Hne Hloop Hfault Henc.
  assert (Hs1 : w_s3 w1 = w_s3 w).
  { pose proof (reads_only_list_input_files self (started w)) as H.
    rewrite Hlist in H. exact H. }
  assert (Hs2 : w_s3 w2 = w_s3 w).
  { pose proof (reads_only_for_each _ (reads_only_process_file self) files [] w1) as H.
    rewrite Hloop in H. unfold s3_unchanged in H. simpl in H. congruence. }
  unfold process_all_files. wp_step. wp_step. wp_step. wp_step.
  eapply wp_run; [exact Hlist|]. simpl.
  destruct files as [|f files]; [congruence|].
  wp_step. eapply wp_run; [exact Hloop|]. simpl.
  wp_steps.
  rewrite <- !app_assoc, !length_app. simpl.
  eapply wp_mono.
  { eapply (write_json_to_s3_partial self (length (w_heap w2) + 2) _ []
              (length (w_heap w2) + 1) _ []); simpl.
    - rewrite lookup_tail. reflexivity.
    - reflexivity.
    - rewrite lookup_tail. reflexivity.
    - left. reflexivity.
    - apply reify_no_results.
    - exact Henc.
    - exact Hfault. }
  intros r w' ((e & ->) & Hs & Hc). simpl in *. wp_steps.
  rewrite Hs, Hc, Hs2. auto.
Qed.

(** C3: in a run that reaches the writer with nothing collected (the listing
    found at least one input file and the loop over the files collected no
    facility) and whose write the service accepts, exactly one object is
    stored: the placeholder payload, under a [no_expiring_facilities_] key;
    one request follows the loop, so no summary is sent after the
    placeholder. *)
Theorem process_all_files_writes_placeholder_only self w files w1 w2 body :
  list_input_files s3_fault self (started w) = (Ok files, w1) ->
  files <> [] ->
  for_each (process_file clock dateutil_parse isoformat json_loads bytes_decode
              s3_fault self) files [] w1 = (Ok [], w2) ->
  s3_fault (w_s3_calls w2) = false ->
  str_encode (json_dumps (Some 2%Z) false
                (no_results_payload (isoformat (clock (w_ticks w2))))) = Ok body ->
  let w' := snd (process_all_files clock dateutil_parse isoformat strftime json_loads
                   json_dumps str_encode bytes_decode s3_fault self w) in
  w_s3 w'
  = store_put
      {| s3_bucket := output_bucket self;
         s3_key := output_key self +:+ "no_expiring_facilities_"
                   +:+ strftime (clock (S (w_ticks w2))) "%Y%m%d_%H%M%S"
                   +:+ ".json";
         s3_body := body;
         s3_content_type := "application/json" |} (w_s3 w)
  /\ w_s3_calls w' = S (w_s3_calls w2).
Proof.
  intros Hlist Hne Hloop Hfault Henc.
  exact (process_all_files_empty self w files w1 w2 body Hlist Hne Hloop Hfault Henc).
Qed.

(** ** The record parser *)

Lemma alloc_json_object members h :
  exists d h1,
    alloc_json (JObj members) h = (VRef (length h1), h1 ++ [ODict d]).
Proof.
  simpl.
  destruct ((fix go (l : list (string * json)) (d : list (string * pyval)) (h : heap)
               : list (string * pyval) * heap :=
               match l with
               | [] => (d, h)
               | (k, x) :: r => let '(v, h1) := alloc_json x h in go r (dict_set d k v) h1
               end) members [] h) as [d h1].
  eauto.
Qed.

Lemma alloc_json_array items h :
  exists vs h1,
    alloc_json (JArr items) h = (VRef (length h1), h1 ++ [OList vs])
    /\ length vs = length items.
Proof.
  simpl.
  assert (H : forall l h0,
             length (fst ((fix go (l : list json) (h : heap) : list pyval * heap :=
                             match l with
                             | [] => ([], h)
                             | x :: r =>
                                 let '(v, h1) := alloc_json x h in
                                 let '(vs, h2) := go r h1 in (v :: vs, h2)
                             end) l h0)) = length l).
  { induction l as [|x r IH]; intros h0; [reflexivity|].
    destruct (alloc_json x h0) as [v h1]. specialize (IH h1).
    destruct ((fix go (l : list json) (h : heap) : list pyval * heap :=
                 match l with
                 | [] => ([], h)
                 | x :: r =>
                     let '(v, h1) := alloc_json x h in
                     let '(vs, h2) := go r h1 in (v :: vs, h2)
                 end) r h1) as [vs h2].
    simpl in *. congruence. }
  specialize (H items h).
  destruct ((fix go (l : list json) (h : heap) : list pyval * heap :=
               match l with
               | [] => ([], h)
               | x :: r =>
                   let '(v, h1) := alloc_json x h in
                   let '(vs, h2) := go r h1 in (v :: vs, h2)
               end) items h) as [vs h1].
  exists vs, h1. auto.
Qed.

(** One line of the fallback: a blank line or a line with a syntax error is
    passed over, every other line adds one record. *)
Lemma parse_line_step n line facilities w :
  line_ok json_loads line = true ->
  exists new w',
    parse_line json_loads (n, line) facilities w = (Ok (facilities ++ new), w')
    /\ length new = if decodable json_loads line then 1 else 0.
Proof.
  unfold line_ok, decodable, parse_line. intros Hline.
  destruct (String.eqb (strip line) EmptyString); simpl in *.
  - exists [], w. rewrite app_nil_r. auto.
  - destruct (json_loads line) as [j|[]]; try discriminate.
    + unfold bind, py_alloc_json, ret. destruct (alloc_json j (w_heap w)) as [v h].
      exists [v]. eexists. auto.
    + exists []. eexists. rewrite app_nil_r. unfold bind, log, ret. simpl. auto.
Qed.

Lemma parse_lines_count lines :
  forallb (line_ok json_loads) lines = true ->
  forall start facilities w,
    exists new w',
      for_each (parse_line json_loads) (enumerate start lines) facilities w
      = (Ok (facilities ++ new), w')
      /\ length new = length (List.filter (decodable json_loads) lines).
Proof.
  induction lines as [|line lines IH]; intros Hok start facilities w;
    cbn [enumerate for_each List.filter forallb] in *.
  - exists [], w. rewrite app_nil_r. auto.
  - apply andb_true_iff in Hok as [Hline Hrest].
    destruct (parse_line_step start line facilities w Hline) as (new1 & w1 & Heq1 & Hlen1).
    destruct (IH Hrest (start + 1)%Z (facilities ++ new1) w1) as (new2 & w' & Heq2 & Hlen2).
    exists (new1 ++ new2), w'. unfold bind. rewrite Heq1, Heq2, app_assoc.
    split; [reflexivity|]. rewrite length_app, Hlen1, Hlen2.
    destruct (decodable json_loads line); reflexivity.
Qed.

Lemma wp_get_object b k o (Q : result bytes -> world -> Prop) w :
  s3_fault (w_s3_calls w) = false ->
  List.find (same_object b k) (w_s3 w) = Some o ->
  Q (Ok (s3_body o)) (with_s3_calls w (S (w_s3_calls w))) ->
  wp (get_object s3_fault b k) Q w.
Proof.
  unfold wp, get_object, bind, s3_request. simpl. intros -> Hfind. simpl.
  rewrite Hfind. auto.
Qed.

(** The first tier of the parser: the content decodes as a whole, and the
    decoded value is returned once its length has been logged. *)
Lemma read_json_whole self file_key w o content j v h n :
  s3_fault (w_s3_calls w) = false ->
  List.find (same_object (input_bucket self) file_key) (w_s3 w) = Some o ->
  bytes_decode (s3_body o) = Ok content ->
  json_loads content = Ok j ->
  alloc_json j (w_heap w) = (v, h) ->
  len_of h v = Ok n ->
  read_json_from_s3 json_loads bytes_decode s3_fault self file_key w
  = (Ok v,
     with_log
       (with_heap (with_s3_calls w (S (w_s3_calls w))) h)
       (w_log w
          ++ [{| lr_level := INFO; lr_format := "Reading file from s3://{}/{}";
                 lr_args := [LStr (input_bucket self); LStr file_key] |};
              {| lr_level := INFO;
                 lr_format := "Successfully parsed JSON array with {} facilities";
                 lr_args := [LInt n] |}])).
Proof.
  intros Hfault Hfind Hdec Hloads Halloc Hlen.
  apply wp_eq. unfold read_json_from_s3. wp_steps.
  eapply wp_get_object; [exact Hfault | exact Hfind |]. simpl.
  wp_steps. rewrite Hdec. simpl. rewrite Hloads. wp_step.
  eapply wp_py_alloc_json; [exact Halloc|]. simpl.
  wp_steps. rewrite Hlen. simpl. wp_steps.
  rewrite <- app_assoc. reflexivity.
Qed.

(** C9: when the whole content of the file decodes to a JSON object, the
    parser returns that object, a mapping and not a list of records; it logs
    the number of its keys as a number of facilities, and the JSON Lines
    fallback is not tried. *)
Theorem read_json_returns_decoded_object self file_key w o content members :
  s3_fault (w_s3_calls w) = false ->
  List.find (same_object (input_bucket self) file_key) (w_s3 w) = Some o ->
  bytes_decode (s3_body o) = Ok content ->
  json_loads content = Ok (JObj members) ->
  exists a d w',
    read_json_from_s3 json_loads bytes_decode s3_fault self file_key w
    = (Ok (VRef a), w')
    /\ alloc_json (JObj members) (w_heap w) = (VRef a, w_heap w')
    /\ w_heap w' !! a = Some (ODict d)
    /\ w_log w'
       = w_log w
           ++ [{| lr_level := INFO; lr_format := "Reading file from s3://{}/{}";
                  lr_args := [LStr (input_bucket self); LStr file_key] |};
               {| lr_level := INFO;
                  lr_format := "Successfully parsed JSON array with {} facilities";
                  lr_args := [LInt (Z.of_nat (length d))] |}].
Proof.
  intros Hfault Hfind Hdec Hloads.
  destruct (alloc_json_object members (w_heap w)) as (d & h1 & Halloc).
  exists (length h1), d. eexists.
  split.
  { eapply read_json_whole; try eassumption.
    simpl. rewrite lookup_alloc. reflexivity. }
  split; [exact Halloc|]. split; [apply lookup_alloc | reflexivity].
Qed.

(** The array case of the parser: one record per element. *)
Lemma read_json_array self file_key w o content items :
  s3_fault (w_s3_calls w) = false ->
  List.find (same_object (input_bucket self) file_key) (w_s3 w) = Some o ->
  bytes_decode (s3_body o) = Ok content ->
  json_loads content = Ok (JArr items) ->
  exists a records w',
    read_json_from_s3 json_loads bytes_decode s3_fault self file_key w
    = (Ok (VRef a), w')
    /\ w_heap w' !! a = Some (OList records)
    /\ length records = length items.
Proof.
  intros Hfault Hfind Hdec Hloads.
  destruct (alloc_json_array items (w_heap w)) as (vs & h1 & Halloc & Hlen).
  exists (length h1), vs. eexists.
  split.
  { eapply read_json_whole; try eassumption.
    simpl. rewrite lookup_alloc. reflexivity. }
  split; [apply lookup_alloc | exact Hlen].
Qed.

(** The JSON Lines case, for a file of ASCII text: the content as a whole
    does not decode, and the parser yields one record per line that is not
    blank and decodes. *)
Lemma read_json_lines self file_key w o content :
  s3_fault (w_s3_calls w) = false ->
  List.find (same_object (input_bucket self) file_key) (w_s3 w) = Some o ->
  bytes_decode (s3_body o) = Ok content ->
  is_ascii_text content = true ->
  json_loads content = Raise JSONDecodeError ->
  forallb (line_ok json_loads) (split_lines (strip content)) = true ->
  exists a records w',
    read_json_from_s3 json_loads bytes_decode s3_fault self file_key w
    = (Ok (VRef a), w')
    /\ w_heap w' !! a = Some (OList records)
    /\ length records
       = length (List.filter (decodable json_loads) (split_lines (strip content))).
Proof.
  intros Hfault Hfind Hdec _ Hloads Hlines.
  assert (H : wp (read_json_from_s3 json_loads bytes_decode s3_fault self file_key)
                (fun r w' =>
                   exists a records,
                     r = Ok (VRef a)
                     /\ w_heap w' !! a = Some (OList records)
                     /\ length records
                        = length (List.filter (decodable json_loads)
                                    (split_lines (strip content)))) w).
  { unfold read_json_from_s3. wp_steps.
    eapply wp_get_object; [exact Hfault | exact Hfind |]. simpl.
    wp_steps. rewrite Hdec. simpl. rewrite Hloads. wp_steps.
    match goal with
    | |- wp (for_each _ _ _) _ ?w1 =>
        destruct (parse_lines_count _ Hlines 1%Z [] w1) as (new & w' & Heq & Hlen)
    end.
    eapply wp_run; [exact Heq|]. simpl. wp_steps.
    exists (length (w_heap w')), new. split; [reflexivity|].
    split; [apply lookup_alloc | exact Hlen]. }
  apply wp_elim in H as (r & w' & Heq & a & records & -> & Ha & Hlen).
  eauto 10.
Qed.

(** ** Failures inside a facility *)

(** Whatever the mappings of the list hold (accreditations of any shape),
    the filter returns normally: a failure while a mapping is processed is
    caught and the loop goes on. *)
Lemma filter_never_raises_on_mappings l items w :
  w_heap w !! l = Some (OList items) ->
  Forall (fun x => is_dict (w_heap w) x = true) items ->
  exists out outs w',
    filter_expiring_facilities clock dateutil_parse isoformat (VRef l) w = (Ok out, w')
    /\ heap_get (w_heap w') out = Some (OList outs)
    /\ length outs <= length items.
Proof.
  intros Hl Hall.
  assert (Hloop : forall items acc w0,
             Forall (fun x => is_dict (w_heap w0) x = true) items ->
             wp (for_each (process_facility clock dateutil_parse isoformat) items acc)
                (fun r w' =>
                   extends w0 w'
                   /\ exists acc', r = Ok acc' /\ length acc' <= length acc + length items)
                w0).
  { clear. induction items as [|x items IH]; intros acc w0 Hall; simpl.
    - apply wp_ret. split; [apply extends_refl|]. exists acc. split; [reflexivity | lia].
    - inversion Hall as [|? ? Hx Hrest]; subst.
      apply is_dict_true in Hx as [d Hd].
      destruct (dict_at_allocated _ _ _ Hd) as (a & -> & _).
      apply wp_bind.
      eapply wp_mono; [apply (process_facility_generic a d acc w0 Hd)|].
      intros r w1 (Hext & acc1 & -> & Hacc1).
      eapply wp_mono.
      { apply IH. eapply Forall_impl; [exact Hrest|]. intros y Hy.
        apply is_dict_true in Hy as [dy Hy].
        unfold is_dict. rewrite (dict_at_extends _ _ _ _ Hext Hy). reflexivity. }
      intros r w' (Hext' & acc' & -> & Hlen).
      split; [eapply extends_trans; eassumption|].
      exists acc'. split; [reflexivity|].
      destruct Hacc1 as [-> | (c & m & -> & _)]; [lia|].
      rewrite length_app in Hlen. simpl in Hlen. lia. }
  assert (H : wp (filter_expiring_facilities clock dateutil_parse isoformat (VRef l))
                (fun r w' =>
                   exists out outs,
                     r = Ok out /\ heap_get (w_heap w') out = Some (OList outs)
                     /\ length outs <= length items) w).
  { unfold filter_expiring_facilities. wp_steps. rewrite Hl. simpl. wp_step.
    eapply wp_mono; [apply Hloop, Hall|].
    intros r w1 (Hext & acc' & -> & Hlen). wp_steps.
    rewrite (extends_lookup _ _ _ _ Hext Hl). simpl. wp_steps.
    eexists _, acc'. split; [reflexivity|].
    split; [apply lookup_alloc | simpl in Hlen; lia]. }
  apply wp_elim in H as (r & w' & Heq & out & outs & -> & Hout & Hlen).
  eauto 10.
Qed.

(** The first element that is not a mapping ends the loop with the
    [AttributeError] of the handler's own [facility.get]; what follows it is
    not visited. *)
Lemma filter_loop_aborts_on_non_mapping pre x post :
  forall acc w,
    Forall (fun y => is_dict (w_heap w) y = true) pre ->
    allocated (w_heap w) x ->
    is_dict (w_heap w) x = false ->
    exists w',
      for_each (process_facility clock dateutil_parse isoformat) (pre ++ x :: post) acc w
      = (Raise AttributeError, w').
Proof.
  induction pre as [|y pre IH]; intros acc w Hpre Hx Hnot; simpl.
  - unfold bind. rewrite (process_facility_not_dict x acc w Hnot). eauto.
  - inversion Hpre as [|? ? Hy Hrest]; subst.
    apply is_dict_true in Hy as [d Hd].
    destruct (dict_at_allocated _ _ _ Hd) as (a & -> & _).
    pose proof (process_facility_generic a d acc w Hd) as H. unfold wp in H.
    unfold bind.
    destruct (process_facility clock dateutil_parse isoformat (VRef a) acc w) as [r w1].
    simpl in H. destruct H as (Hext & acc1 & -> & _).
    apply IH.
    + eapply Forall_impl; [exact Hrest|]. intros z Hz.
      apply is_dict_true in Hz as [dz Hz].
      unfold is_dict. rewrite (dict_at_extends _ _ _ _ Hext Hz). reflexivity.
    + destruct x; simpl in *; auto.
      pose proof (extends_length _ _ Hext). lia.
    + unfold is_dict in *. destruct x; simpl in *; auto.
      destruct (lookup_lt_is_Some_2 _ _ Hx) as [o Ho].
      rewrite Ho in Hnot. rewrite (extends_lookup _ _ _ _ Hext Ho). exact Hnot.
Qed.

End Properties.

(** * Further properties of the program *)

Section Behaviour.

Variable clock : nat -> datetime.
Variable dateutil_parse : Z -> string -> result datetime.
Variable isoformat : datetime -> string.
Variable strftime : datetime -> string -> string.
Variable json_loads : string -> result json.
Variable json_dumps : option Z -> bool -> json -> string.
Variable str_encode : string -> result bytes.
Variable bytes_decode : bytes -> result string.
Variable s3_fault : nat -> bool.
Variable credentials : bool.

Lemma wp_elim_eq {A} (m : M A) (P : world -> Prop) r w :
  wp m (fun r' w' => r' = r /\ P w') w ->
  exists w', m w = (r, w') /\ P w'.
Proof.
  unfold wp. destruct (m w) as [r' w']. simpl. intros [-> H]. eauto.
Qed.

(** ** Computations that stay away from the storage service *)

Lemma offline_ret {A} (a : A) : offline (ret a).
Proof. intros w. split; reflexivity. Qed.

Lemma offline_raise {A} e : offline (@raise A e).
Proof. intros w. split; reflexivity. Qed.

Lemma offline_lift {A} (r : result A) : offline (lift r).
Proof. intros w. split; reflexivity. Qed.

Lemma offline_log lvl fmt args : offline (log lvl fmt args).
Proof. intros w. split; reflexivity. Qed.

Lemma offline_py_alloc_json j : offline (py_alloc_json j).
Proof.
  intros w. unfold py_alloc_json. destruct (alloc_json j (w_heap w)). split; reflexivity.
Qed.

Lemma offline_bind {A B} (m : M A) (k : A -> M B) :
  offline m -> (forall a, offline (k a)) -> offline (bind m k).
Proof.
  intros Hm Hk w. unfold bind. specialize (Hm w).
  destruct (m w) as [[a|e] w1]; simpl in *; [|exact Hm].
  destruct (Hk a w1) as [-> ->]. exact Hm.
Qed.

Lemma offline_try {A} (m : M A) (h : exn -> M A) :
  offline m -> (forall e, offline (h e)) -> offline (try_except m h).
Proof.
  intros Hm Hh w. unfold try_except. specialize (Hm w).
  destruct (m w) as [[a|e] w1]; simpl in *; [exact Hm|].
  destruct (Hh e w1) as [-> ->]. exact Hm.
Qed.

Lemma offline_for_each {A S} (body : A -> S -> M S) :
  (forall x s, offline (body x s)) -> forall l s, offline (for_each body l s).
Proof.
  intros Hbody l. induction l as [|x rest IH]; intros s; simpl.
  - apply offline_ret.
  - apply offline_bind; [apply Hbody | intros; apply IH].
Qed.

Lemma offline_extends {A} (m : M A) :
  (forall w, extends w (snd (m w))) -> offline m.
Proof. intros H w. destruct (H w) as (_ & Hs & Hc). split; assumption. Qed.

Ltac offline_step :=
  lazymatch goal with
  | |- offline (ret _) => apply offline_ret
  | |- offline (raise _) => apply offline_raise
  | |- offline (lift _) => apply offline_lift
  | |- offline (log _ _ _) => apply offline_log
  | |- offline (alloc _) => apply offline_extends; intros; apply extends_alloc
  | |- offline (py_iter _) => apply offline_extends; intros; apply extends_refl
  | |- offline (py_len _) => apply offline_extends; intros; apply extends_refl
  | |- offline (py_alloc_json _) => apply offline_py_alloc_json
  | |- offline (bind _ _) => apply offline_bind; [|intros]
  | |- offline (try_except _ _) => apply offline_try; [|intros]
  | |- offline (for_each _ _ _) => apply offline_for_each; intros
  | |- offline (match ?x with _ => _ end) => destruct x
  end.

Ltac offline_steps := repeat offline_step.

Lemma offline_parse_line numbered facilities :
  offline (parse_line json_loads numbered facilities).
Proof.
  unfold parse_line. destruct numbered as [n line].
  destruct (String.eqb (strip line) EmptyString); offline_steps.
Qed.

Lemma offline_filter facilities :
  offline (filter_expiring_facilities clock dateutil_parse isoformat facilities).
Proof.
  unfold filter_expiring_facilities. offline_steps.
  apply offline_extends. intros w.
  apply (process_facility_extends clock dateutil_parse isoformat s3_fault).
Qed.

(** Filtering is a computation on the records alone: whatever it is given
    and however it ends, it sends no request to the storage service and
    changes nothing the service holds. *)
Theorem filter_expiring_facilities_sends_no_request facilities w :
  let w' := snd (filter_expiring_facilities clock dateutil_parse isoformat facilities w) in
  w_s3 w' = w_s3 w /\ w_s3_calls w' = w_s3_calls w.
Proof. exact (offline_filter facilities w). Qed.

(** ** The expiry evaluator *)

(** Whatever value it is given and whatever the threshold, [is_expiring_soon]
    returns a boolean: no exception leaves it, no stored object changes and
    the storage service is not contacted. *)
Theorem is_expiring_soon_never_raises v months w :
  exists b w',
    is_expiring_soon clock dateutil_parse v months w = (Ok b, w')
    /\ w_heap w' = w_heap w /\ w_s3 w' = w_s3 w /\ w_s3_calls w' = w_s3_calls w.
Proof.
  destruct (is_expiring_soon_total clock dateutil_parse v months w)
    as (b & w' & Heq & Hh & Hs & Hc).
  exists b, w'. auto.
Qed.

(** A [valid_until] that is not a string (a number, null, a list, a mapping)
    is refused by the date parser with a [TypeError], which the evaluator
    turns into [False] and one warning. *)
Theorem is_expiring_soon_non_string v months w :
  (forall s, v <> VStr s) ->
  is_expiring_soon clock dateutil_parse v months w
  = (Ok false,
     with_log (with_ticks w (S (w_ticks w)))
       (w_log w ++ [{| lr_level := WARNING;
                       lr_format := "Error parsing date '{}': {}";
                       lr_args := [LVal v; LExn TypeError] |}])).
Proof.
  intros Hv.
  destruct v; try reflexivity.
  exfalso. exact (Hv s eq_refl).
Qed.

(** ** Requests sent by a computation *)

Lemma sends_offline {A} (m : M A) : offline m -> sends 0 m.
Proof. intros H w. exact (H w). Qed.

Lemma sends_bind_offline {A B} n (m : M A) (k : A -> M B) :
  sends n m -> (forall a, offline (k a)) -> sends n (bind m k).
Proof.
  intros Hm Hk w. unfold bind. specialize (Hm w).
  destruct (m w) as [[a|e] w1]; simpl in *; [|exact Hm].
  destruct (Hk a w1) as [-> ->]. exact Hm.
Qed.

Lemma sends_try {A} n (m : M A) (h : exn -> M A) :
  sends n m -> (forall e, offline (h e)) -> sends n (try_except m h).
Proof.
  intros Hm Hh w. unfold try_except. specialize (Hm w).
  destruct (m w) as [[a|e] w1]; simpl in *; [exact Hm|].
  destruct (Hh e w1) as [-> ->]. exact Hm.
Qed.

Lemma sends_after_log {A} n lvl fmt args (k : M A) :
  sends n k -> sends n (log lvl fmt args ;; k).
Proof.
  intros Hk w. unfold bind, log. simpl.
  exact (Hk (with_log w (w_log w ++ [{| lr_level := lvl; lr_format := fmt;
                                       lr_args := args |}]))).
Qed.

Lemma sends_get_object b k : sends 1 (get_object s3_fault b k).
Proof.
  intros w. unfold get_object, bind, s3_request. simpl.
  destruct (s3_fault (w_s3_calls w)); simpl; [split; reflexivity|].
  destruct (List.find (same_object b k) (w_s3 w)); split; reflexivity.
Qed.

(** ** The record parser *)

Lemma read_json_from_s3_sends_one_request_aux self file_key :
  sends 1 (read_json_from_s3 json_loads bytes_decode s3_fault self file_key).
Proof.
  unfold read_json_from_s3. apply sends_try.
  - apply sends_after_log. apply sends_bind_offline; [apply sends_get_object|].
    intros body. offline_steps. apply offline_parse_line.
  - intros e. destruct e; offline_steps.
Qed.

(** Reading a file costs one request, whatever the file holds and however
    the call ends, and never changes what the service stores. *)
Theorem read_json_from_s3_sends_one_request self file_key w :
  let w' := snd (read_json_from_s3 json_loads bytes_decode s3_fault self file_key w) in
  w_s3 w' = w_s3 w /\ w_s3_calls w' = S (w_s3_calls w).
Proof. exact (read_json_from_s3_sends_one_request_aux self file_key w). Qed.

Lemma read_json_from_s3_client_error_aux self file_key w :
  s3_fault (w_s3_calls w) = true
  \/ List.find (same_object (input_bucket self) file_key) (w_s3 w) = None ->
  read_json_from_s3 json_loads bytes_decode s3_fault self file_key w
  = (Raise ClientError,
     with_log (with_s3_calls w (S (w_s3_calls w)))
       (w_log w
        ++ [record INFO "Reading file from s3://{}/{}"
              [LStr (input_bucket self); LStr file_key];
            record ERROR "Error reading from S3: {}" [LExn ClientError]])).
Proof.
  intros H.
  apply wp_eq. unfold read_json_from_s3, record. wp_steps.
  unfold wp, get_object, bind, s3_request. simpl.
  destruct (s3_fault (w_s3_calls w)) eqn:Hf; simpl.
  - rewrite <- app_assoc. reflexivity.
  - destruct H as [H|H]; [discriminate|]. rewrite H. simpl.
    rewrite <- app_assoc. reflexivity.
Qed.

(** A read the service refuses, or a key it holds no object for, ends in
    [ClientError]: the error is logged and raised again, for the caller to
    skip the file. *)
Theorem read_json_from_s3_client_error self file_key w :
  s3_fault (w_s3_calls w) = true
  \/ List.find (same_object (input_bucket self) file_key) (w_s3 w) = None ->
  read_json_from_s3 json_loads bytes_decode s3_fault self file_key w
  = (Raise ClientError,
     with_log (with_s3_calls w (S (w_s3_calls w)))
       (w_log w
        ++ [record INFO "Reading file from s3://{}/{}"
              [LStr (input_bucket self); LStr file_key];
            record ERROR "Error reading from S3: {}" [LExn ClientError]])).
Proof. exact (read_json_from_s3_client_error_aux self file_key w). Qed.

(** A file whose whole content is a JSON number, boolean or [null] decodes,
    so the line fallback is not tried, and the length of the decoded value
    is then asked for: the call ends in [TypeError], logged as unexpected. *)
Theorem read_json_from_s3_scalar_content self file_key w o content j :
  s3_fault (w_s3_calls w) = false ->
  List.find (same_object (input_bucket self) file_key) (w_s3 w) = Some o ->
  bytes_decode (s3_body o) = Ok content ->
  json_loads content = Ok j ->
  is_scalar j = true ->
  read_json_from_s3 json_loads bytes_decode s3_fault self file_key w
  = (Raise TypeError,
     with_log (with_s3_calls w (S (w_s3_calls w)))
       (w_log w
        ++ [record INFO "Reading file from s3://{}/{}"
              [LStr (input_bucket self); LStr file_key];
            record ERROR "Unexpected error reading JSON: {}" [LExn TypeError]])).
Proof.
  intros Hf Ho Hb Hj Hs.
  apply wp_eq. unfold read_json_from_s3, record. wp_steps.
  eapply (wp_get_object s3_fault); [exact Hf | exact Ho |]. simpl.
  wp_steps. rewrite Hb. simpl. rewrite Hj. wp_step.
  destruct j; try discriminate; unfold wp, py_alloc_json; simpl;
    rewrite <- app_assoc; destruct w; reflexivity.
Qed.

(** Bytes that are not valid UTF-8 make the read fail before any decoding of
    JSON: the [UnicodeDecodeError] is logged as unexpected and raised again. *)
Theorem read_json_from_s3_undecodable_bytes self file_key w o :
  s3_fault (w_s3_calls w) = false ->
  List.find (same_object (input_bucket self) file_key) (w_s3 w) = Some o ->
  bytes_decode (s3_body o) = Raise UnicodeError ->
  read_json_from_s3 json_loads bytes_decode s3_fault self file_key w
  = (Raise UnicodeError,
     with_log (with_s3_calls w (S (w_s3_calls w)))
       (w_log w
        ++ [record INFO "Reading file from s3://{}/{}"
              [LStr (input_bucket self); LStr file_key];
            record ERROR "Unexpected error reading JSON: {}" [LExn UnicodeError]])).
Proof.
  intros Hf Ho Hb.
  apply wp_eq. unfold read_json_from_s3, record. wp_steps.
  eapply (wp_get_object s3_fault); [exact Hf | exact Ho |]. simpl.
  wp_steps. rewrite Hb. wp_steps.
  rewrite <- app_assoc. reflexivity.
Qed.

(** ** Listing the input files *)

Lemma insert_by_key_In o x l : In x (insert_by_key o l) <-> x = o \/ In x l.
Proof.
  induction l as [|y r IH]; simpl.
  - split; [intros [<- | []]; auto | intros [-> | []]; auto].
  - destruct (key_leb (s3_key o) (s3_key y)); simpl.
    + split; [intros [<- | H]; auto | intros [-> | H]; auto].
    + rewrite IH. split.
      * intros [<- | [-> | H]]; auto.
      * intros [-> | [<- | H]]; auto.
Qed.

Lemma sort_by_key_In x l : In x (sort_by_key l) <-> In x l.
Proof.
  induction l as [|o r IH]; simpl; [reflexivity|].
  rewrite insert_by_key_In, IH. split; intros [H | H]; auto.
Qed.

Lemma insert_by_key_length o l : length (insert_by_key o l) = S (length l).
Proof.
  induction l as [|y r IH]; simpl; [reflexivity|].
  destruct (key_leb (s3_key o) (s3_key y)); simpl; [reflexivity | rewrite IH; reflexivity].
Qed.

Lemma sort_by_key_length l : length (sort_by_key l) = length l.
Proof.
  induction l as [|o r IH]; simpl; [reflexivity|].
  rewrite insert_by_key_length, IH. reflexivity.
Qed.


(** Every key [list_input_files] returns is the key of an object held under
    the input prefix of the input bucket, ends in [.json] and is not the
    prefix itself; the keys come from a single page of the listing, so there
    are never more than 1000 of them. *)
Theorem list_input_files_sound self w files w' :
  list_input_files s3_fault self w = (Ok files, w') ->
  length files <= 1000
  /\ Forall (fun key =>
               ends_with ".json" key = true
               /\ key <> input_key self
               /\ exists o, In o (w_s3 w) /\ under_input self o = true
                            /\ s3_key o = key) files.
Proof.
  intros Heq.
  assert (H : wp (list_input_files s3_fault self)
                (fun r _ =>
                   match r with
                   | Ok files =>
                       length files <= 1000
                       /\ Forall (fun key =>
                                    ends_with ".json" key = true
                                    /\ key <> input_key self
                                    /\ exists o, In o (w_s3 w)
                                                 /\ under_input self o = true
                                                 /\ s3_key o = key) files
                   | Raise _ => True
                   end) w).
  { unfold list_input_files. wp_steps.
    unfold wp, list_objects_v2, bind, s3_request. simpl.
    destruct (s3_fault (w_s3_calls w)); simpl; [destruct ClientError; exact I|].
    wp_steps.
    set (page := firstn 1000 (sort_by_key (List.filter _ (w_s3 w)))).
    assert (Hpage : Forall (fun o => In o (w_s3 w) /\ under_input self o = true) page).
    { apply List.Forall_forall. intros o Ho.
      assert (Hin : In o (sort_by_key (List.filter (under_input self) (w_s3 w)))).
      { rewrite <- (firstn_skipn 1000). apply in_or_app. left. exact Ho. }
      apply sort_by_key_In, filter_In in Hin. exact Hin. }
    assert (Hlen : length page <= 1000) by apply firstn_le_length.
    clearbody page. split.
    - etransitivity; [apply filter_length_le|]. rewrite length_map. exact Hlen.
    - apply List.Forall_forall. intros key Hkey. apply filter_In in Hkey as [Hin Htest].
      apply andb_true_iff in Htest as [Hjson Hne].
      apply negb_true_iff, String.eqb_neq in Hne.
      apply in_map_iff in Hin as (o & <- & Ho).
      rewrite List.Forall_forall in Hpage. destruct (Hpage o Ho) as [Hin Hunder].
      split; [exact Hjson|]. split; [exact Hne|]. eauto. }
  unfold wp in H. rewrite Heq in H. exact H.
Qed.

(** When the service answers and holds at most 1000 objects under the input
    prefix, no input file is missed: every such object whose key ends in
    [.json] and is not the prefix itself is listed. *)
Theorem list_input_files_complete self w :
  s3_fault (w_s3_calls w) = false ->
  length (List.filter (under_input self) (w_s3 w)) <= 1000 ->
  exists files w',
    list_input_files s3_fault self w = (Ok files, w')
    /\ forall o,
        In o (w_s3 w) -> under_input self o = true ->
        ends_with ".json" (s3_key o) = true -> s3_key o <> input_key self ->
        In (s3_key o) files.
Proof.
  intros Hf Hlen.
  eexists _, _. split.
  { apply wp_eq. unfold list_input_files. wp_steps.
    unfold wp, list_objects_v2, bind, s3_request. simpl. rewrite Hf. simpl.
    reflexivity. }
  intros o Hin Hunder Hjson Hne.
  apply filter_In. split.
  - apply in_map. rewrite firstn_all2 by (rewrite sort_by_key_length; exact Hlen).
    apply sort_by_key_In, filter_In. split; [exact Hin | exact Hunder].
  - rewrite Hjson. simpl. apply negb_true_iff, String.eqb_neq. exact Hne.
Qed.

(** ** The loop over the input files *)

Lemma sends_process_file self file_key acc :
  sends 1 (process_file clock dateutil_parse isoformat json_loads bytes_decode
             s3_fault self file_key acc).
Proof.
  unfold process_file. apply sends_try.
  - apply sends_after_log. apply sends_bind_offline.
    + intros w.
      exact (read_json_from_s3_sends_one_request_aux self file_key w).
    + intros facilities. offline_steps. apply offline_filter.
  - intros e. offline_steps.
Qed.

Lemma process_file_returns self file_key acc w :
  wp (process_file clock dateutil_parse isoformat json_loads bytes_decode
        s3_fault self file_key acc)
     (fun r _ => exists new, r = Ok (acc ++ new)) w.
Proof.
  assert (Hskip : forall e w1,
             wp (log ERROR "Error processing file {}: {}" [LStr file_key; LExn e] ;;
                 ret acc)
                (fun r _ => exists new, r = Ok (acc ++ new)) w1).
  { intros e w1. wp_steps. exists []. rewrite app_nil_r. reflexivity. }
  unfold process_file. wp_steps.
  unfold wp at 1.
  destruct (read_json_from_s3 json_loads bytes_decode s3_fault self file_key _)
    as [[facilities|e] w1]; simpl; [|apply Hskip].
  wp_step. unfold wp at 1.
  destruct (filter_expiring_facilities clock dateutil_parse isoformat facilities w1)
    as [[filtered|e] w2]; simpl; [|apply Hskip].
  wp_steps. destruct (iter_items (w_heap w2) filtered) as [items|e]; [|apply Hskip].
  wp_steps. eauto.
Qed.

(** The error boundary around each input file: whatever the files hold and
    whatever the service answers, the loop over the input files runs to its
    end and keeps the records collected so far; it reads every listed file
    once, one request per file and none again after a failure, and stores
    nothing. *)
Theorem process_files_never_raises self files :
  forall acc w,
  exists new w',
    for_each (process_file clock dateutil_parse isoformat json_loads bytes_decode
                s3_fault self) files acc w = (Ok (acc ++ new), w')
    /\ w_s3 w' = w_s3 w /\ w_s3_calls w' = length files + w_s3_calls w.
Proof.
  induction files as [|f files IH]; intros acc w; simpl.
  - exists [], w. rewrite app_nil_r. auto.
  - pose proof (process_file_returns self f acc w) as Hr.
    pose proof (sends_process_file self f acc w) as Hs.
    unfold wp in Hr. unfold bind.
    destruct (process_file clock dateutil_parse isoformat json_loads bytes_decode
                s3_fault self f acc w) as [r w1].
    simpl in *. destruct Hr as [new1 ->]. destruct Hs as [Hs Hc].
    destruct (IH (acc ++ new1) w1) as (new2 & w' & Heq & Hs' & Hc').
    exists (new1 ++ new2), w'. rewrite Heq, app_assoc.
    split; [reflexivity|]. split; [congruence|]. rewrite Hc', Hc. lia.
Qed.

(** A file that cannot be read contributes nothing: the records collected so
    far are returned as they are, and the failure is logged with the key of
    the file. *)
Theorem process_file_skips_unreadable self file_key acc w :
  s3_fault (w_s3_calls w) = true
  \/ List.find (same_object (input_bucket self) file_key) (w_s3 w) = None ->
  process_file clock dateutil_parse isoformat json_loads bytes_decode
    s3_fault self file_key acc w
  = (Ok acc,
     with_log (with_s3_calls w (S (w_s3_calls w)))
       (w_log w
        ++ [record INFO "Processing file: {}" [LStr file_key];
            record INFO "Reading file from s3://{}/{}"
              [LStr (input_bucket self); LStr file_key];
            record ERROR "Error reading from S3: {}" [LExn ClientError];
            record ERROR "Error processing file {}: {}"
              [LStr file_key; LExn ClientError]])).
Proof.
  intros H.
  apply wp_eq. unfold process_file. wp_steps.
  eapply wp_run.
  { apply read_json_from_s3_client_error_aux. exact H. }
  simpl. wp_steps. unfold record. rewrite <- !app_assoc. reflexivity.
Qed.

(** ** A run that finds nothing to read *)

Lemma no_input_file_listed self (objects : list s3_object) :
  Forall (fun o => is_input_file self o = false) objects ->
  List.filter
    (fun key => ends_with ".json" key && negb (String.eqb key (input_key self)))
    (map s3_key (firstn 1000 (sort_by_key (List.filter (under_input self) objects))))
  = [].
Proof.
  intros Hall.
  assert (H : Forall (fun o => ends_with ".json" (s3_key o)
                               && negb (String.eqb (s3_key o) (input_key self)) = false)
                (firstn 1000 (sort_by_key (List.filter (under_input self) objects)))).
  { apply List.Forall_forall. intros o Ho.
    assert (Hin : In o (sort_by_key (List.filter (under_input self) objects))).
    { rewrite <- (firstn_skipn 1000). apply in_or_app. left. exact Ho. }
    apply sort_by_key_In, filter_In in Hin as [Hin Hunder].
    rewrite List.Forall_forall in Hall. specialize (Hall o Hin).
    unfold is_input_file in Hall. rewrite Hunder, <- andb_assoc in Hall. exact Hall. }
  induction H as [|o rest Ho _ IH]; simpl; [reflexivity|].
  rewrite Ho. exact IH.
Qed.

Lemma wp_list_objects_v2 b pre (Q : result (list string) -> world -> Prop) w :
  Q (if s3_fault (w_s3_calls w) then Raise ClientError
     else Ok (map s3_key
                (firstn 1000
                   (sort_by_key
                      (List.filter
                         (fun o => String.eqb (s3_bucket o) b
                                   && String.prefix pre (s3_key o))
                         (w_s3 w))))))
    (with_s3_calls w (S (w_s3_calls w))) ->
  wp (list_objects_v2 s3_fault b pre) Q w.
Proof.
  unfold wp, list_objects_v2, bind, s3_request. simpl.
  destruct (s3_fault (w_s3_calls w)); simpl; auto.
Qed.

Lemma process_all_files_no_input_files_aux self w :
  s3_fault (w_s3_calls w) = false ->
  Forall (fun o => is_input_file self o = false) (w_s3 w) ->
  process_all_files clock dateutil_parse isoformat strftime json_loads json_dumps
    str_encode bytes_decode s3_fault self w
  = (Ok tt,
     with_log (with_s3_calls w (S (w_s3_calls w)))
       (w_log w
        ++ [record INFO "Starting healthcare facility processing" [];
            record INFO "Found {} JSON files in input location" [LInt 0];
            record WARNING "No JSON files found in input location" []])).
Proof.
  intros Hf Hnone.
  apply wp_eq. unfold process_all_files. wp_steps.
  unfold list_input_files. wp_steps.
  apply wp_list_objects_v2. simpl. rewrite Hf.
  wp_steps.
  change (fun o : s3_object => String.eqb (s3_bucket o) (input_bucket self)
                               && String.prefix (input_key self) (s3_key o))
    with (under_input self).
  rewrite (no_input_file_listed self (w_s3 w) Hnone). simpl.
  wp_steps. unfold record. rewrite <- !app_assoc. reflexivity.
Qed.

(** When the service holds no input file, the run ends normally after the
    listing: one request, a warning, nothing read and nothing written. *)
Theorem process_all_files_no_input_files self w :
  s3_fault (w_s3_calls w) = false ->
  Forall (fun o => is_input_file self o = false) (w_s3 w) ->
  process_all_files clock dateutil_parse isoformat strftime json_loads json_dumps
    str_encode bytes_decode s3_fault self w
  = (Ok tt,
     with_log (with_s3_calls w (S (w_s3_calls w)))
       (w_log w
        ++ [record INFO "Starting healthcare facility processing" [];
            record INFO "Found {} JSON files in input location" [LInt 0];
            record WARNING "No JSON files found in input location" []])).
Proof. exact (process_all_files_no_input_files_aux self w). Qed.

(** A listing the service refuses is fatal for the run: the error is logged
    by the listing and by the run, raised to the caller, and nothing is read
    or written. *)
Theorem process_all_files_listing_refused self w :
  s3_fault (w_s3_calls w) = true ->
  process_all_files clock dateutil_parse isoformat strftime json_loads json_dumps
    str_encode bytes_decode s3_fault self w
  = (Raise ClientError,
     with_log (with_s3_calls w (S (w_s3_calls w)))
       (w_log w
        ++ [record INFO "Starting healthcare facility processing" [];
            record ERROR "Error listing files: {}" [LExn ClientError];
            record ERROR "Fatal error in processing: {}" [LExn ClientError]])).
Proof.
  intros Hf.
  apply wp_eq. unfold process_all_files. wp_steps.
  unfold list_input_files. wp_steps.
  apply wp_list_objects_v2. simpl. rewrite Hf.
  wp_steps. unfold record. rewrite <- !app_assoc. reflexivity.
Qed.

(** ** The report writer *)

Lemma reify_immediate fuel (h : heap) v j : json_of v = Some j -> reify fuel h v = Some j.
Proof. destruct fuel, v; simpl; congruence. Qed.

Lemma len_of_prefix (h h' : heap) v n :
  h `prefix_of` h' -> len_of h v = Ok n -> len_of h' v = Ok n.
Proof.
  intros Hp. destruct v; simpl; auto.
  destruct (h !! a) as [o|] eqn:Ha; [|discriminate].
  rewrite (prefix_lookup_Some _ _ _ _ Ha Hp). auto.
Qed.

Lemma expiring_count_extends w w' d count :
  extends w w' -> expiring_count (w_heap w) d count -> expiring_count (w_heap w') d count.
Proof.
  intros Hext. unfold expiring_count.
  destruct (dict_lookup d metadata_key) as [mv|]; [|auto].
  intros (m & Hm & Hcount). exists m.
  split; [eapply dict_at_extends; eassumption|].
  destruct (dict_lookup m "expiring_accreditations"); [|exact Hcount].
  eapply len_of_prefix; [apply Hext | exact Hcount].
Qed.

Lemma summarised_extends w w' x row :
  extends w w' -> summarised (w_heap w) x row -> summarised (w_heap w') x row.
Proof.
  intros Hext (d & fid & fname & Hd & Hid & Hjid & Hname & Hjname & Hcount).
  exists d, fid, fname.
  split; [eapply dict_at_extends; eassumption|].
  repeat (split; [assumption|]).
  eapply expiring_count_extends; eassumption.
Qed.

Lemma entry_for_extends w w' e row :
  extends w w' -> entry_for (w_heap w) e row -> entry_for (w_heap w') e row.
Proof.
  intros Hext (fid & fname & He & Hid & Hname). exists fid, fname.
  split; [|auto]. eapply heap_get_prefix; [apply Hext | exact He].
Qed.

Lemma wp_py_getitem_dict obj d key v (Q : result pyval -> world -> Prop) w :
  dict_at (w_heap w) obj d ->
  dict_lookup d key = Some v ->
  Q (Ok v) w ->
  wp (py_getitem obj key) Q w.
Proof.
  unfold dict_at, wp, py_getitem, dict_of, bind, ret. intros -> ->. auto.
Qed.

(** One element of the comprehension, on a record the summary can be built
    for: a new entry is stored, with the count the metadata gives. *)
Lemma summary_entry_step x row entries w :
  summarised (w_heap w) x row ->
  exists c w',
    summary_entry x entries w = (Ok (entries ++ [VRef c]), w')
    /\ extends w w' /\ w_ticks w' = w_ticks w
    /\ entry_for (w_heap w') (VRef c) row.
Proof.
  intros (d & fid & fname & Hd & Hid & Hjid & Hname & Hjname & Hcount).
  assert (H : wp (summary_entry x entries)
                (fun r w' =>
                   exists c, r = Ok (entries ++ [VRef c]) /\ extends w w'
                             /\ w_ticks w' = w_ticks w
                             /\ entry_for (w_heap w') (VRef c) row) w).
  { unfold summary_entry. wp_step.
    eapply wp_py_getitem_dict; [exact Hd | exact Hid |]. wp_step.
    eapply wp_py_getitem_dict; [exact Hd | exact Hname |]. wp_step.
    eapply wp_py_get_dict; [exact Hd|]. wp_step. wp_step.
    set (w1 := with_heap w (w_heap w ++ [ODict []])).
    assert (H1 : extends w w1) by apply extends_alloc.
    assert (Hfinish : forall ev w2,
               extends w w2 -> w_ticks w2 = w_ticks w ->
               len_of (w_heap w2) ev = Ok (snd row) ->
               wp (expiring_count <- py_len ev ;;
                   entry <- alloc (ODict [("facility_id", fid);
                                          ("facility_name", fname);
                                          ("expiring_count", VInt expiring_count)]) ;;
                   ret (entries ++ [entry]))
                  (fun r w' =>
                     exists c, r = Ok (entries ++ [VRef c]) /\ extends w w'
                               /\ w_ticks w' = w_ticks w
                               /\ entry_for (w_heap w') (VRef c) row) w2).
    { intros ev w2 H2 Ht Hlen. wp_steps. rewrite Hlen. wp_steps.
      eexists. split; [reflexivity|].
      split; [eapply extends_trans; [exact H2 | apply extends_alloc]|].
      split; [exact Ht|].
      exists fid, fname. split; [apply lookup_alloc | auto]. }
    unfold expiring_count in Hcount. fold metadata_key.
    destruct (dict_lookup d metadata_key) as [mv|]; simpl.
    - destruct Hcount as (m & Hm & Hcount).
      eapply wp_py_get_dict; [eapply dict_at_extends; [exact H1 | exact Hm]|].
      wp_step.
      assert (H2 : extends w (with_heap w1 (w_heap w1 ++ [OList []]))).
      { eapply extends_trans; [exact H1 | apply extends_alloc]. }
      destruct (dict_lookup m "expiring_accreditations") as [ev|]; simpl.
      + apply Hfinish; [exact H2 | reflexivity |].
        eapply len_of_prefix; [apply H2 | exact Hcount].
      + apply Hfinish; [exact H2 | reflexivity |]. rewrite Hcount. simpl.
        rewrite lookup_alloc. reflexivity.
    - eapply wp_py_get_dict; [apply lookup_alloc|]. wp_step.
      apply Hfinish.
      + eapply extends_trans; [exact H1 | apply extends_alloc].
      + reflexivity.
      + rewrite Hcount. simpl. rewrite lookup_alloc. reflexivity. }
  unfold wp in H. destruct (summary_entry x entries w) as [r w']. simpl in H.
  destruct H as (c & -> & Hext & Ht & He). eauto 6.
Qed.

Lemma summary_entries_ok items rows :
  Forall2 (fun x row => True) items rows ->
  forall entries w,
    Forall2 (summarised (w_heap w)) items rows ->
    exists new w',
      for_each summary_entry items entries w = (Ok (entries ++ new), w')
      /\ extends w w' /\ w_ticks w' = w_ticks w
      /\ Forall2 (entry_for (w_heap w')) new rows.
Proof.
  induction 1 as [|x row items rows _ _ IH]; intros entries w Hall; simpl.
  - exists [], w. rewrite app_nil_r.
    split; [reflexivity|]. split; [apply extends_refl|]. split; [reflexivity | constructor].
  - inversion Hall as [|? ? ? ? Hx Hrest]; subst.
    destruct (summary_entry_step x row entries w Hx)
      as (c & w1 & Heq & Hext & Ht & He).
    unfold bind. rewrite Heq.
    assert (Hrest1 : Forall2 (summarised (w_heap w1)) items rows).
    { eapply Forall2_impl; [exact Hrest|]. intros y r.
      apply summarised_extends, Hext. }
    destruct (IH (entries ++ [VRef c]) w1 Hrest1)
      as (new & w' & Heq' & Hext' & Ht' & Hnew).
    exists (VRef c :: new), w'. rewrite Heq', <- app_assoc.
    split; [reflexivity|]. split; [eapply extends_trans; eassumption|].
    split; [congruence|].
    constructor; [eapply entry_for_extends; eassumption | exact Hnew].
Qed.

(** *** Serializing the summary *)

Lemma reify_list fuel (h : heap) l vs js :
  h !! l = Some (OList vs) ->
  Forall2 (fun v j => reify fuel h v = Some j) vs js ->
  reify (S fuel) h (VRef l) = Some (JArr js).
Proof.
  intros Hl Hall. simpl. rewrite Hl. clear Hl.
  match goal with
  | |- option_map JArr ?g = _ => assert (H : g = Some js)
  end.
  { induction Hall as [|v j vs js Hv _ IH]; [reflexivity|].
    cbn iota beta. rewrite Hv, IH. reflexivity. }
  rewrite H. reflexivity.
Qed.

Lemma reify_entry fuel (h : heap) e row :
  entry_for h e row -> reify (S fuel) h e = Some (row_json row).
Proof.
  intros (fid & fname & He & Hid & Hname).
  destruct e; try discriminate. simpl in *. rewrite He. simpl.
  rewrite (reify_immediate fuel h fid _ Hid), (reify_immediate fuel h fname _ Hname).
  destruct fuel; reflexivity.
Qed.

Lemma reify_summary fuel (h : heap) s ls stamp total location criteria entries rows :
  h !! s = Some (ODict [("processing_date", VStr stamp);
                        ("total_facilities_processed", VInt total);
                        ("output_location", VStr location);
                        ("filter_criteria", VStr criteria);
                        ("facilities_summary", VRef ls)]) ->
  h !! ls = Some (OList entries) ->
  Forall2 (entry_for h) entries rows ->
  reify (S (S (S fuel))) h (VRef s)
  = Some (JObj [("processing_date", JStr stamp);
                ("total_facilities_processed", JInt total);
                ("output_location", JStr location);
                ("filter_criteria", JStr criteria);
                ("facilities_summary", JArr (map row_json rows))]).
Proof.
  intros Hs Hls Hall.
  assert (Hlist : reify (S (S fuel)) h (VRef ls) = Some (JArr (map row_json rows))).
  { apply (reify_list _ _ _ entries); [exact Hls|].
    clear Hls. induction Hall as [|e row entries rows He _ IH]; simpl; constructor.
    - apply reify_entry. exact He.
    - exact IH. }
  change (reify (S (S (S fuel))) h (VRef s))
    with (match h !! s with
          | Some (OList l) =>
              option_map JArr
                ((fix go (l : list pyval) : option (list json) :=
                    match l with
                    | [] => Some []
                    | x :: r =>
                        match reify (S (S fuel)) h x, go r with
                        | Some j, Some js => Some (j :: js)
                        | _, _ => None
                        end
                    end) l)
          | Some (ODict d) =>
              option_map JObj
                ((fix go (l : list (string * pyval)) : option (list (string * json)) :=
                    match l with
                    | [] => Some []
                    | (k, x) :: r =>
                        match reify (S (S fuel)) h x, go r with
                        | Some j, Some js => Some ((k, j) :: js)
                        | _, _ => None
                        end
                    end) d)
          | None => None
          end).
  rewrite Hs.
  cbv beta iota.
  rewrite Hlist. reflexivity.
Qed.

(** *** A write of records the summary can be built for *)

Lemma write_json_to_s3_run self l items rows output_filename j body sbody w :
  w_heap w !! l = Some (OList items) ->
  Forall2 (summarised (w_heap w)) items rows ->
  reify (S (length (w_heap w))) (w_heap w) (VRef l) = Some j ->
  str_encode (json_dumps (Some 2%Z) false j) = Ok body ->
  str_encode (json_dumps (Some 2%Z) true
                (summary_json (isoformat (clock (w_ticks w)))
                   (output_location self output_filename) rows)) = Ok sbody ->
  s3_fault (w_s3_calls w) = false ->
  wp (write_json_to_s3 clock isoformat strftime json_dumps str_encode s3_fault
        self (VRef l) output_filename)
     (fun r w' =>
        w_s3_calls w' = S (S (w_s3_calls w))
        /\ if s3_fault (S (w_s3_calls w))
           then r = Raise ClientError
                /\ w_s3 w' = store_put (payload_object self output_filename body) (w_s3 w)
           else r = Ok tt
                /\ w_s3 w'
                   = store_put
                       (summary_object self
                          (strftime (clock (S (w_ticks w))) "%Y%m%d_%H%M%S") sbody)
                       (store_put (payload_object self output_filename body) (w_s3 w)))
     w.
Proof.
  intros Hl Hrows Hreify Henc Hsenc Hfault.
  unfold write_json_to_s3. wp_step. wp_step.
  eapply (wp_py_json_dumps json_dumps); [exact Hreify|].
  wp_step. rewrite Henc. wp_step. wp_step.
  apply (wp_put_object s3_fault); [exact Hfault|]. simpl.
  wp_steps. rewrite Hl. simpl. wp_steps. rewrite Hl. simpl.
  wp_steps. rewrite Hl. simpl. wp_step.
  match goal with
  | |- wp _ _ ?w1 =>
      destruct (summary_entries_ok items rows
                  (Forall2_impl _ _ _ _ Hrows (fun _ _ _ => I)) [] w1 Hrows)
        as (entries & w2 & Heq & Hext & Ht2 & Hentries)
  end.
  eapply wp_run; [exact Heq|]. simpl.
  wp_steps.
  destruct Hext as (Hpre & Hs2 & Hc2). simpl in Hs2, Hc2.
  eapply (wp_py_json_dumps json_dumps).
  { simpl. rewrite !length_app. simpl.
    replace (length (w_heap w2) + 1 + 1) with (S (S (length (w_heap w2)))) by lia.
    rewrite <- app_assoc. simpl.
    eapply reify_summary with (ls := length (w_heap w2)) (entries := entries).
    - replace (S (length (w_heap w2))) with (length (w_heap w2) + 1) by lia.
      rewrite lookup_tail. reflexivity.
    - replace (length (w_heap w2)) with (length (w_heap w2) + 0) at 1 by lia.
      rewrite lookup_tail. reflexivity.
    - eapply Forall2_impl; [exact Hentries|]. intros e row (fid & fname & He & Hj).
      exists fid, fname. split; [|exact Hj].
      eapply heap_get_prefix; [|exact He]. apply prefix_app_r. reflexivity. }
  rewrite (Forall2_length _ _ _ Hrows).
  unfold summary_json, output_location in Hsenc.
  wp_step. rewrite Hsenc. wp_step.
  simpl in Ht2. rewrite Ht2.
  unfold wp at 1, put_object, bind, s3_request. simpl. rewrite Hc2.
  destruct (s3_fault (S (w_s3_calls w))); simpl.
  - unfold wp. simpl. rewrite Hs2. auto.
  - rewrite Hs2. auto.
Qed.

(** When every record is a mapping with a plain [facility_id] and
    [facility_name] and the service accepts both requests,
    [write_json_to_s3] returns normally after two writes: the payload under
    the given name, then the summary, which lists the id, the name and the
    number of expiring accreditations of each record and is named after the
    time of the write. *)
Theorem write_json_to_s3_stores_both self l items rows output_filename j body sbody w :
  w_heap w !! l = Some (OList items) ->
  Forall2 (summarised (w_heap w)) items rows ->
  reify (S (length (w_heap w))) (w_heap w) (VRef l) = Some j ->
  str_encode (json_dumps (Some 2%Z) false j) = Ok body ->
  str_encode (json_dumps (Some 2%Z) true
                (summary_json (isoformat (clock (w_ticks w)))
                   (output_location self output_filename) rows)) = Ok sbody ->
  s3_fault (w_s3_calls w) = false ->
  s3_fault (S (w_s3_calls w)) = false ->
  exists w',
    write_json_to_s3 clock isoformat strftime json_dumps str_encode s3_fault
      self (VRef l) output_filename w = (Ok tt, w')
    /\ w_s3 w'
       = store_put
           (summary_object self (strftime (clock (S (w_ticks w))) "%Y%m%d_%H%M%S") sbody)
           (store_put (payload_object self output_filename body) (w_s3 w))
    /\ w_s3_calls w' = S (S (w_s3_calls w)).
Proof.
  intros Hl Hrows Hreify Henc Hsenc Hf1 Hf2.
  pose proof (write_json_to_s3_run self l items rows output_filename j body sbody w
                Hl Hrows Hreify Henc Hsenc Hf1) as H.
  unfold wp in H. rewrite Hf2 in H.
  destruct (write_json_to_s3 clock isoformat strftime json_dumps str_encode s3_fault
              self (VRef l) output_filename w) as [r w'].
  simpl in H. destruct H as (Hc & -> & Hs). exists w'. auto.
Qed.

(** When the service accepts the payload and refuses the summary, the call
    ends in [ClientError] with the payload stored and no summary beside it. *)
Theorem write_json_to_s3_summary_refused self l items rows output_filename j body sbody w :
  w_heap w !! l = Some (OList items) ->
  Forall2 (summarised (w_heap w)) items rows ->
  reify (S (length (w_heap w))) (w_heap w) (VRef l) = Some j ->
  str_encode (json_dumps (Some 2%Z) false j) = Ok body ->
  str_encode (json_dumps (Some 2%Z) true
                (summary_json (isoformat (clock (w_ticks w)))
                   (output_location self output_filename) rows)) = Ok sbody ->
  s3_fault (w_s3_calls w) = false ->
  s3_fault (S (w_s3_calls w)) = true ->
  exists w',
    write_json_to_s3 clock isoformat strftime json_dumps str_encode s3_fault
      self (VRef l) output_filename w = (Raise ClientError, w')
    /\ w_s3 w' = store_put (payload_object self output_filename body) (w_s3 w)
    /\ w_s3_calls w' = S (S (w_s3_calls w)).
Proof.
  intros Hl Hrows Hreify Henc Hsenc Hf1 Hf2.
  pose proof (write_json_to_s3_run self l items rows output_filename j body sbody w
                Hl Hrows Hreify Henc Hsenc Hf1) as H.
  unfold wp in H. rewrite Hf2 in H.
  destruct (write_json_to_s3 clock isoformat strftime json_dumps str_encode s3_fault
              self (VRef l) output_filename w) as [r w'].
  simpl in H. destruct H as (Hc & -> & Hs). exists w'. auto.
Qed.

(** When the service refuses the payload, the call ends in [ClientError]
    after that one request: the error is logged, nothing is stored and no
    summary is built. *)
Theorem write_json_to_s3_payload_refused self data output_filename j body w :
  reify (S (length (w_heap w))) (w_heap w) data = Some j ->
  str_encode (json_dumps (Some 2%Z) false j) = Ok body ->
  s3_fault (w_s3_calls w) = true ->
  write_json_to_s3 clock isoformat strftime json_dumps str_encode s3_fault
    self data output_filename w
  = (Raise ClientError,
     with_log (with_s3_calls w (S (w_s3_calls w)))
       (w_log w ++ [record ERROR "Error writing to S3: {}" [LExn ClientError]])).
Proof.
  intros Hreify Henc Hf.
  apply wp_eq. unfold write_json_to_s3. wp_step. wp_step.
  eapply (wp_py_json_dumps json_dumps); [exact Hreify|].
  wp_step. rewrite Henc. wp_step. wp_step.
  unfold wp at 1, put_object, bind, s3_request. simpl. rewrite Hf. simpl.
  reflexivity.
Qed.

(** ** A run in which nothing qualifies *)

Lemma write_json_to_s3_first_without_id self l a post d output_filename j body w :
  w_heap w !! l = Some (OList (VRef a :: post)) ->
  w_heap w !! a = Some (ODict d) ->
  dict_lookup d "facility_id" = None ->
  reify (S (length (w_heap w))) (w_heap w) (VRef l) = Some j ->
  str_encode (json_dumps (Some 2%Z) false j) = Ok body ->
  s3_fault (w_s3_calls w) = false ->
  wp (write_json_to_s3 clock isoformat strftime json_dumps str_encode s3_fault
        self (VRef l) output_filename)
     (fun r w' =>
        r = Raise (KeyError "facility_id")
        /\ w_s3 w' = store_put (payload_object self output_filename body) (w_s3 w)
        /\ w_s3_calls w' = S (w_s3_calls w)
        /\ exists earlier,
            w_log w' = earlier ++ [record ERROR "Unexpected error writing JSON: {}"
                                     [LExn (KeyError "facility_id")]]) w.
Proof.
  intros Hl Ha Hmiss Hreify Henc Hfault.
  unfold write_json_to_s3. wp_step. wp_step.
  eapply (wp_py_json_dumps json_dumps); [exact Hreify|].
  wp_step. rewrite Henc. wp_step. wp_step.
  apply (wp_put_object s3_fault); [exact Hfault|]. simpl.
  wp_steps. rewrite Hl. simpl. wp_steps. rewrite Hl. simpl.
  wp_steps. rewrite Hl. simpl. wp_step.
  cbn [for_each]. wp_step.
  unfold summary_entry. wp_step.
  unfold wp at 1, py_getitem, dict_of, bind, raise. simpl. rewrite Ha. simpl.
  rewrite Hmiss. simpl. wp_steps.
  repeat (split; [reflexivity|]). eexists. reflexivity.
Qed.

Lemma process_all_files_empty_batch_raises_aux self w files w1 w2 body :
  list_input_files s3_fault self (started w) = (Ok files, w1) ->
  files <> [] ->
  for_each (process_file clock dateutil_parse isoformat json_loads bytes_decode
              s3_fault self) files [] w1 = (Ok [], w2) ->
  s3_fault (w_s3_calls w2) = false ->
  str_encode (json_dumps (Some 2%Z) false
                (no_results_payload (isoformat (clock (w_ticks w2))))) = Ok body ->
  exists w',
    process_all_files clock dateutil_parse isoformat strftime json_loads json_dumps
      str_encode bytes_decode s3_fault self w = (Raise (KeyError "facility_id"), w')
    /\ w_s3 w'
       = store_put
           (payload_object self
              ("no_expiring_facilities_"
               +:+ strftime (clock (S (w_ticks w2))) "%Y%m%d_%H%M%S" +:+ ".json")
              body) (w_s3 w)
    /\ exists earlier,
        w_log w'
        = earlier
          ++ [record ERROR "Unexpected error writing JSON: {}"
                [LExn (KeyError "facility_id")];
              record ERROR "Fatal error in processing: {}"
                [LExn (KeyError "facility_id")]].
Proof.
  intros Hlist Hne Hloop Hfault Henc.
  assert (Hs1 : w_s3 w1 = w_s3 w).
  { pose proof (reads_only_list_input_files s3_fault self (started w)) as H.
    rewrite Hlist in H. exact H. }
  assert (Hs2 : w_s3 w2 = w_s3 w).
  { pose proof (reads_only_for_each _
                  (reads_only_process_file clock dateutil_parse isoformat json_loads
                     bytes_decode s3_fault self) files [] w1) as H.
    rewrite Hloop in H. unfold s3_unchanged in H. simpl in H. congruence. }
  apply wp_elim_eq.
  unfold process_all_files. wp_step. wp_step. wp_step. wp_step.
  eapply wp_run; [exact Hlist|]. simpl.
  destruct files as [|f files]; [congruence|].
  wp_step. eapply wp_run; [exact Hloop|]. simpl.
  wp_steps.
  rewrite <- !app_assoc, !length_app. simpl.
  eapply wp_mono.
  { eapply (write_json_to_s3_first_without_id self (length (w_heap w2) + 2)
              (length (w_heap w2) + 1) []); simpl.
    - rewrite lookup_tail. reflexivity.
    - rewrite lookup_tail. reflexivity.
    - reflexivity.
    - apply reify_no_results.
    - exact Henc.
    - exact Hfault. }
  intros r w' (-> & Hs & Hc & earlier & Hlog). simpl in *. wp_steps.
  split; [reflexivity|]. split; [rewrite Hs, Hs2; reflexivity|].
  exists earlier. rewrite Hlog, <- app_assoc. reflexivity.
Qed.

(** In a run that finds input files of which no facility qualifies, the
    placeholder is stored and the writer then fails to build a summary of
    it, the placeholder record having no [facility_id]: the run ends in
    [KeyError], logged by the writer and by the run as a fatal error. *)
Theorem process_all_files_empty_batch_raises self w files w1 w2 body :
  list_input_files s3_fault self (started w) = (Ok files, w1) ->
  files <> [] ->
  for_each (process_file clock dateutil_parse isoformat json_loads bytes_decode
              s3_fault self) files [] w1 = (Ok [], w2) ->
  s3_fault (w_s3_calls w2) = false ->
  str_encode (json_dumps (Some 2%Z) false
                (no_results_payload (isoformat (clock (w_ticks w2))))) = Ok body ->
  exists w',
    process_all_files clock dateutil_parse isoformat strftime json_loads json_dumps
      str_encode bytes_decode s3_fault self w = (Raise (KeyError "facility_id"), w')
    /\ w_s3 w'
       = store_put
           (payload_object self
              ("no_expiring_facilities_"
               +:+ strftime (clock (S (w_ticks w2))) "%Y%m%d_%H%M%S" +:+ ".json")
              body) (w_s3 w)
    /\ exists earlier,
        w_log w'
        = earlier
          ++ [record ERROR "Unexpected error writing JSON: {}"
                [LExn (KeyError "facility_id")];
              record ERROR "Fatal error in processing: {}"
                [LExn (KeyError "facility_id")]].
Proof. exact (process_all_files_empty_batch_raises_aux self w files w1 w2 body). Qed.

(** ** A run that finds expiring accreditations *)

Lemma reify_prefix fuel :
  forall (h h' : heap) v j,
    h `prefix_of` h' -> reify fuel h v = Some j -> reify fuel h' v = Some j.
Proof.
  induction fuel as [|fuel IH]; intros h h' v j Hp; destruct v; simpl; auto.
  destruct (h !! a) as [o|] eqn:Ha; [|discriminate].
  rewrite (prefix_lookup_Some _ _ _ _ Ha Hp).
  destruct o as [l|d].
  - assert (H : forall l js,
               (fix go (l : list pyval) : option (list json) :=
                  match l with
                  | [] => Some []
                  | x :: r =>
                      match reify fuel h x, go r with
                      | Some j, Some js => Some (j :: js)
                      | _, _ => None
                      end
                  end) l = Some js ->
               (fix go (l : list pyval) : option (list json) :=
                  match l with
                  | [] => Some []
                  | x :: r =>
                      match reify fuel h' x, go r with
                      | Some j, Some js => Some (j :: js)
                      | _, _ => None
                      end
                  end) l = Some js).
    { induction l0 as [|x r IHl]; intros js; [auto|].
      cbn iota beta.
      destruct (reify fuel h x) as [jx|] eqn:Hx; [|discriminate].
      rewrite (IH h h' x jx Hp Hx).
      match goal with
      | |- match ?g with _ => _ end = _ -> _ => destruct g as [js'|]; [|discriminate]
      end.
      rewrite (IHl js' eq_refl). auto. }
    match goal with
    | |- option_map _ ?g = _ -> _ => destruct g as [js|] eqn:Hg; [|discriminate]
    end.
    rewrite (H l js Hg). auto.
  - assert (H : forall l js,
               (fix go (l : list (string * pyval)) : option (list (string * json)) :=
                  match l with
                  | [] => Some []
                  | (k, x) :: r =>
                      match reify fuel h x, go r with
                      | Some j, Some js => Some ((k, j) :: js)
                      | _, _ => None
                      end
                  end) l = Some js ->
               (fix go (l : list (string * pyval)) : option (list (string * json)) :=
                  match l with
                  | [] => Some []
                  | (k, x) :: r =>
                      match reify fuel h' x, go r with
                      | Some j, Some js => Some ((k, j) :: js)
                      | _, _ => None
                      end
                  end) l = Some js).
    { induction l as [|[k x] r IHl]; intros js; [auto|].
      cbn iota beta.
      destruct (reify fuel h x) as [jx|] eqn:Hx; [|discriminate].
      rewrite (IH h h' x jx Hp Hx).
      match goal with
      | |- match ?g with _ => _ end = _ -> _ => destruct g as [js'|]; [|discriminate]
      end.
      rewrite (IHl js' eq_refl). auto. }
    match goal with
    | |- option_map _ ?g = _ -> _ => destruct g as [js|] eqn:Hg; [|discriminate]
    end.
    rewrite (H d js Hg). auto.
Qed.

(** When the loop over the input files has collected at least one record,
    every record serializes and has a plain [facility_id] and
    [facility_name], and the service accepts both writes, the run ends
    normally after two writes: the array of the records under an
    [expiring_facilities_] key, then the summary of these records. *)
Theorem process_all_files_writes_report self w files w1 w2 x xs js rows body sbody :
  list_input_files s3_fault self (started w) = (Ok files, w1) ->
  for_each (process_file clock dateutil_parse isoformat json_loads bytes_decode
              s3_fault self) files [] w1 = (Ok (x :: xs), w2) ->
  Forall2 (fun v j => reify (S (length (w_heap w2))) (w_heap w2) v = Some j)
    (x :: xs) js ->
  Forall2 (summarised (w_heap w2)) (x :: xs) rows ->
  let output_filename :=
    "expiring_facilities_" +:+ strftime (clock (w_ticks w2)) "%Y%m%d_%H%M%S" +:+ ".json" in
  str_encode (json_dumps (Some 2%Z) false (JArr js)) = Ok body ->
  str_encode (json_dumps (Some 2%Z) true
                (summary_json (isoformat (clock (S (w_ticks w2))))
                   (output_location self output_filename) rows)) = Ok sbody ->
  s3_fault (w_s3_calls w2) = false ->
  s3_fault (S (w_s3_calls w2)) = false ->
  exists w',
    process_all_files clock dateutil_parse isoformat strftime json_loads json_dumps
      str_encode bytes_decode s3_fault self w = (Ok tt, w')
    /\ w_s3 w'
       = store_put
           (summary_object self
              (strftime (clock (S (S (w_ticks w2)))) "%Y%m%d_%H%M%S") sbody)
           (store_put (payload_object self output_filename body) (w_s3 w))
    /\ w_s3_calls w' = S (S (w_s3_calls w2)).
Proof.
  intros Hlist Hloop Hjs Hrows output_filename Henc Hsenc Hf1 Hf2.
  assert (Hs1 : w_s3 w1 = w_s3 w).
  { pose proof (reads_only_list_input_files s3_fault self (started w)) as H.
    rewrite Hlist in H. exact H. }
  assert (Hs2 : w_s3 w2 = w_s3 w).
  { pose proof (reads_only_for_each _
                  (reads_only_process_file clock dateutil_parse isoformat json_loads
                     bytes_decode s3_fault self) files [] w1) as H.
    rewrite Hloop in H. unfold s3_unchanged in H. simpl in H. congruence. }
  apply wp_elim_eq.
  unfold process_all_files. wp_step. wp_step. wp_step. wp_step.
  eapply wp_run; [exact Hlist|]. simpl.
  destruct files as [|f files]; [simpl in Hloop; discriminate|].
  wp_step. eapply wp_run; [exact Hloop|]. simpl.
  wp_steps.
  set (w3 := with_heap (with_ticks w2 (S (w_ticks w2)))
               (w_heap w2 ++ [OList (x :: xs)])).
  assert (Hext : extends w2 w3).
  { split; [apply prefix_app_r; reflexivity | split; reflexivity]. }
  eapply wp_mono.
  { eapply (write_json_to_s3_run self (length (w_heap w2)) (x :: xs) rows
              output_filename (JArr js) body sbody w3).
    - apply lookup_alloc.
    - eapply Forall2_impl; [exact Hrows|]. intros y r.
      apply summarised_extends, Hext.
    - simpl. rewrite length_app. simpl.
      replace (length (w_heap w2) + 1) with (S (length (w_heap w2))) by lia.
      apply (reify_list _ _ _ (x :: xs)); [apply lookup_alloc|].
      eapply Forall2_impl; [exact Hjs|]. intros v j.
      apply reify_prefix, prefix_app_r. reflexivity.
    - exact Henc.
    - exact Hsenc.
    - exact Hf1. }
  intros r w' (Hc & H). simpl in Hc, H. rewrite Hf2 in H. destruct H as (-> & Hs).
  wp_steps. split; [reflexivity|]. simpl. rewrite Hs, Hc, Hs2. auto.
Qed.

(** ** What is not a list of mappings *)

Lemma filter_raises_on_non_mapping_aux facilities pre x post w :
  iter_items (w_heap w) facilities = Ok (pre ++ x :: post) ->
  Forall (fun y => is_dict (w_heap w) y = true) pre ->
  allocated (w_heap w) x ->
  is_dict (w_heap w) x = false ->
  exists w',
    filter_expiring_facilities clock dateutil_parse isoformat facilities w
    = (Raise AttributeError, w').
Proof.
  intros Hiter Hpre Hx Hnot.
  destruct (filter_loop_aborts_on_non_mapping clock dateutil_parse isoformat
              pre x post [] w Hpre Hx Hnot) as (w' & Heq).
  exists w'. unfold filter_expiring_facilities, bind, py_iter. simpl.
  rewrite Hiter, Heq. reflexivity.
Qed.

(** The error boundary of the filter does not hold for an element that is
    not a mapping: the handler asks the element for its [facility_id], which
    raises again, so the filter ends in [AttributeError] at the first such
    element. The elements may be those of a list, the keys of a mapping or
    the characters of a string given as [facilities]. *)
Theorem filter_raises_on_non_mapping facilities pre x post w :
  iter_items (w_heap w) facilities = Ok (pre ++ x :: post) ->
  Forall (fun y => is_dict (w_heap w) y = true) pre ->
  allocated (w_heap w) x ->
  is_dict (w_heap w) x = false ->
  exists w',
    filter_expiring_facilities clock dateutil_parse isoformat facilities w
    = (Raise AttributeError, w').
Proof. exact (filter_raises_on_non_mapping_aux facilities pre x post w). Qed.

Lemma dict_set_nonempty d k v : dict_set d k v <> [].
Proof. destruct d as [|[k' v'] rest]; simpl; [|destruct (String.eqb k' k)]; discriminate. Qed.

Lemma alloc_json_object_nonempty k x members h :
  exists d h1,
    alloc_json (JObj ((k, x) :: members)) h = (VRef (length h1), h1 ++ [ODict d])
    /\ d <> [].
Proof.
  simpl. destruct (alloc_json x h) as [v h0].
  assert (H : forall l d0 h0,
             d0 <> [] ->
             fst ((fix go (l : list (string * json)) (d : list (string * pyval)) (h : heap)
                    : list (string * pyval) * heap :=
                    match l with
                    | [] => (d, h)
                    | (k, x) :: r =>
                        let '(v, h1) := alloc_json x h in go r (dict_set d k v) h1
                    end) l d0 h0) <> []).
  { induction l as [|[k1 x1] r IH]; intros d0 h' Hd0; simpl; [exact Hd0|].
    destruct (alloc_json x1 h') as [v1 h1]. apply IH, dict_set_nonempty. }
  specialize (H members [(k, v)] h0).
  destruct ((fix go (l : list (string * json)) (d : list (string * pyval)) (h : heap)
               : list (string * pyval) * heap :=
               match l with
               | [] => (d, h)
               | (k, x) :: r => let '(v, h1) := alloc_json x h in go r (dict_set d k v) h1
               end) members [(k, v)] h0) as [d h1].
  exists d, h1. split; [reflexivity|]. apply H. discriminate.
Qed.

(** A file whose whole content is one JSON object with at least one member
    (a JSON Lines file of a single record is one) yields no record: the
    parser returns the mapping, the filter fails on its first key, and the
    file is skipped with an [AttributeError] logged. *)
Theorem process_file_skips_single_object self file_key acc w o content k x members :
  s3_fault (w_s3_calls w) = false ->
  List.find (same_object (input_bucket self) file_key) (w_s3 w) = Some o ->
  bytes_decode (s3_body o) = Ok content ->
  json_loads content = Ok (JObj ((k, x) :: members)) ->
  exists w',
    process_file clock dateutil_parse isoformat json_loads bytes_decode
      s3_fault self file_key acc w = (Ok acc, w')
    /\ exists earlier,
        w_log w' = earlier ++ [record ERROR "Error processing file {}: {}"
                                 [LStr file_key; LExn AttributeError]].
Proof.
  intros Hf Ho Hb Hj.
  destruct (alloc_json_object_nonempty k x members (w_heap w)) as (d & h1 & Halloc & Hd).
  assert (Hlen : len_of (h1 ++ [ODict d]) (VRef (length h1)) = Ok (Z.of_nat (length d))).
  { simpl. rewrite lookup_alloc. reflexivity. }
  pose proof (read_json_whole json_loads bytes_decode s3_fault self file_key
                (with_log w (w_log w ++ [record INFO "Processing file: {}"
                                           [LStr file_key]]))
                o content _ _ _ _ Hf Ho Hb Hj Halloc Hlen) as Hread.
  destruct d as [|[k0 v0] d]; [congruence|].
  apply wp_elim_eq.
  unfold process_file. wp_steps.
  eapply wp_run; [exact Hread|]. simpl. wp_step.
  match goal with
  | |- wp (filter_expiring_facilities _ _ _ ?v) _ ?w1 =>
      destruct (filter_raises_on_non_mapping_aux v []
                  (VStr k0) (map (fun kv => VStr (fst kv)) d) w1)
        as (w2 & Hfilter)
  end.
  { simpl. rewrite lookup_alloc. reflexivity. }
  { constructor. }
  { exact I. }
  { reflexivity. }
  eapply wp_run; [exact Hfilter|]. simpl. wp_steps.
  split; [reflexivity|]. eexists. reflexivity.
Qed.

(** ** The application *)

Lemma wp_init (Q : result processor -> world -> Prop) w :
  credentials = true ->
  s3_fault (w_s3_calls w) = false ->
  Q (Ok main_processor) (connected w) ->
  wp (__init__ s3_fault credentials "healthcare-facility-data"
        "healthcare-facility-data" "input/" "filtered/") Q w.
Proof.
  intros Hc Hf HQ.
  unfold __init__, head_bucket. rewrite Hc. wp_steps.
  unfold wp at 1, s3_request. simpl. rewrite Hf. simpl. wp_steps. exact HQ.
Qed.

(** No exception other than [SystemExit(1)] leaves [main]: whatever happens
    during start-up or processing, it returns normally or exits with
    status 1. *)
Theorem main_returns_or_exits w :
  let r := fst (main clock dateutil_parse isoformat strftime json_loads json_dumps
                  str_encode bytes_decode s3_fault credentials w) in
  r = Ok tt \/ r = Raise (SystemExit 1).
Proof.
  assert (H : wp (main clock dateutil_parse isoformat strftime json_loads json_dumps
                    str_encode bytes_decode s3_fault credentials)
                (fun r _ => r = Ok tt \/ r = Raise (SystemExit 1)) w).
  { unfold main. wp_step. unfold wp at 1.
    match goal with
    | |- match fst (?m w) with _ => _ end => destruct (m w) as [[[]|e] w']
    end; simpl.
    - left. reflexivity.
    - unfold sys_exit. wp_steps. right. reflexivity. }
  exact H.
Qed.

(** A failed start-up check ends the application before any processing:
    without credentials no request is sent at all, with a bucket the service
    refuses one request is; either way the failure is logged twice, nothing
    is listed, read or written, and [main] exits with status 1. *)
Theorem main_startup_failure w :
  credentials = false \/ s3_fault (w_s3_calls w) = true ->
  main clock dateutil_parse isoformat strftime json_loads json_dumps
    str_encode bytes_decode s3_fault credentials w
  = (Raise (SystemExit 1),
     if credentials
     then with_log (with_s3_calls w (S (w_s3_calls w)))
            (w_log w
             ++ [record ERROR "Error connecting to S3: {}" [LExn ClientError];
                 record ERROR "Application failed: {}" [LExn ClientError]])
     else with_log w
            (w_log w
             ++ [record ERROR
                   "AWS credentials not found. Please configure your credentials." [];
                 record ERROR "Application failed: {}" [LExn NoCredentialsError]])).
Proof.
  intros H. apply wp_eq.
  unfold main, __init__, head_bucket, sys_exit, record.
  destruct credentials.
  - destruct H as [H|H]; [discriminate|].
    wp_steps. unfold wp at 1, s3_request. simpl. rewrite H. simpl.
    wp_steps. rewrite <- app_assoc. reflexivity.
  - wp_steps. rewrite <- app_assoc. reflexivity.
Qed.

(** With nothing to read, the application ends normally: two requests (the
    start-up check and the listing), nothing written, and the success
    message logged after the warning. *)
Theorem main_no_input_files w :
  credentials = true ->
  s3_fault (w_s3_calls w) = false ->
  s3_fault (S (w_s3_calls w)) = false ->
  Forall (fun o => is_input_file main_processor o = false) (w_s3 w) ->
  main clock dateutil_parse isoformat strftime json_loads json_dumps
    str_encode bytes_decode s3_fault credentials w
  = (Ok tt,
     with_log (with_s3_calls w (S (S (w_s3_calls w))))
       (w_log w
        ++ [record INFO "Successfully connected to AWS S3" [];
            record INFO "Starting healthcare facility processing" [];
            record INFO "Found {} JSON files in input location" [LInt 0];
            record WARNING "No JSON files found in input location" [];
            record INFO "Healthcare facility processing completed successfully" []])).
Proof.
  intros Hc Hf1 Hf2 Hnone. apply wp_eq.
  unfold main. wp_step. wp_step.
  apply wp_init; [exact Hc | exact Hf1 |].
  wp_step.
  eapply wp_run.
  { apply process_all_files_no_input_files_aux; [exact Hf2 | exact Hnone]. }
  simpl. wp_steps. unfold record. rewrite <- !app_assoc. reflexivity.
Qed.

(** When input files are found and no facility qualifies, the application
    exits with status 1 although the placeholder has been stored: the
    failure of the writer on the placeholder record is fatal for the run. *)
Theorem main_empty_batch_exits_with_failure w files w1 w2 body :
  credentials = true ->
  s3_fault (w_s3_calls w) = false ->
  list_input_files s3_fault main_processor (started (connected w)) = (Ok files, w1) ->
  files <> [] ->
  for_each (process_file clock dateutil_parse isoformat json_loads bytes_decode
              s3_fault main_processor) files [] w1 = (Ok [], w2) ->
  s3_fault (w_s3_calls w2) = false ->
  str_encode (json_dumps (Some 2%Z) false
                (no_results_payload (isoformat (clock (w_ticks w2))))) = Ok body ->
  exists w',
    main clock dateutil_parse isoformat strftime json_loads json_dumps
      str_encode bytes_decode s3_fault credentials w = (Raise (SystemExit 1), w')
    /\ w_s3 w'
       = store_put
           (payload_object main_processor
              ("no_expiring_facilities_"
               +:+ strftime (clock (S (w_ticks w2))) "%Y%m%d_%H%M%S" +:+ ".json")
              body) (w_s3 w).
Proof.
  intros Hc Hf Hlist Hne Hloop Hfault Henc.
  destruct (process_all_files_empty_batch_raises_aux main_processor (connected w)
              files w1 w2 body Hlist Hne Hloop Hfault Henc)
    as (w' & Hrun & Hs & _).
  apply wp_elim_eq.
  unfold main. wp_step. wp_step.
  apply wp_init; [exact Hc | exact Hf |].
  wp_step. eapply wp_run; [exact Hrun|]. simpl.
  unfold sys_exit. wp_steps. split; [reflexivity|]. exact Hs.
Qed.

(** ** The filter on well-formed facilities *)

Section OneDay.

(** The clock stays on one day for the whole computation. *)
Variable today : Z.
Hypothesis today_valid : valid_day today.
Hypothesis clock_today : forall n, dt_day (clock n) = today.

Local Abbreviation qualifies := (qualifying dateutil_parse today).

(** With a negative threshold the window is empty: nothing is expiring
    soon, whatever the date. *)
Theorem is_expiring_soon_negative_threshold v months w :
  (months < 0)%Z ->
  exists w',
    is_expiring_soon clock dateutil_parse v months w = (Ok false, w').
Proof.
  intros Hneg.
  destruct (is_expiring_soon_same_day clock dateutil_parse today today_valid clock_today
              v months w) as (w' & Heq & _).
  exists w'. rewrite Heq. f_equal. f_equal.
  destruct v; try reflexivity. simpl.
  destruct (dateutil_parse today s) as [dt|e]; [|reflexivity].
  unfold in_window.
  destruct (today <=? dt_day dt)%Z eqn:H1; [|reflexivity].
  destruct (dt_day dt <=? today + months * 30)%Z eqn:H2; [|reflexivity].
  apply Z.leb_le in H1, H2. lia.
Qed.

Lemma facility_record_extends w w' d accs ds :
  extends w w' ->
  facility_record (w_heap w) d accs ds -> facility_record (w_heap w') d accs ds.
Proof.
  intros Hext (la & Hla & Hlist & Hds). exists la.
  split; [exact Hla|]. split; [eapply extends_lookup; eassumption|].
  eapply Forall2_impl; [exact Hds|]. intros z dz. apply dict_at_extends, Hext.
Qed.

Lemma facility_view_extends w w' x view :
  extends w w' -> facility_view (w_heap w) x view -> facility_view (w_heap w') x view.
Proof.
  intros Hext (Hd & Hacc). split; [eapply dict_at_extends; eassumption|].
  destruct Hacc as [Hnone | (accs & Hrec)]; [left; exact Hnone|].
  right. exists accs. eapply facility_record_extends; eassumption.
Qed.

(** One iteration on a well-formed facility: the annotated copy is appended
    when an accreditation qualifies, and nothing is when none does. *)
Lemma process_facility_view x view acc w :
  facility_view (w_heap w) x view ->
  exists new w',
    process_facility clock dateutil_parse isoformat x acc w = (Ok (acc ++ new), w')
    /\ extends w w'
    /\ if has_qualifying dateutil_parse today view
       then exists o, new = [o] /\ selected dateutil_parse today (w_heap w') o view
       else new = [].
Proof.
  destruct view as [d ds]. intros (Hd & Hacc). simpl in Hd, Hacc.
  unfold has_qualifying, selected. simpl.
  destruct (process_facility_step clock dateutil_parse isoformat today today_valid
              clock_today x d acc w Hd) as (new & w' & Heq & Hext & Hnew).
  exists new, w'. split; [exact Heq|]. split; [exact Hext|].
  destruct (existsb qualifies ds) eqn:Hq.
  - destruct Hacc as [[_ ->] | (accs & Hrec)]; [discriminate|].
    destruct (Hnew accs ds Hrec Hq) as (c & -> & Hann).
    exists (VRef c). split; [reflexivity|]. exists c. split; [reflexivity|].
    destruct Hrec as (la & _ & _ & Hds). rewrite <- (Forall2_length _ _ _ Hds).
    exact Hann.
  - pose proof (process_facility_dict clock dateutil_parse isoformat x d acc w Hd)
      as Hcases.
    unfold wp in Hcases. rewrite Heq in Hcases. simpl in Hcases.
    destruct Hcases as (acc' & [= <-] & _ & _ & Hcases).
    assert (Hsame : acc ++ new = acc -> new = []).
    { intros H. apply (f_equal (@length pyval)) in H. rewrite length_app in H.
      destruct new; [reflexivity | simpl in H; lia]. }
    apply Hsame.
    destruct Hacc as [[Hnone ->] | (accs & la & Hla & Hlist & Hds)].
    + rewrite Hnone in Hcases. simpl in Hcases. rewrite lookup_alloc in Hcases.
      simpl in Hcases. apply Hcases.
    + rewrite Hla in Hcases. simpl in Hcases.
      rewrite (lookup_app_l_Some _ [OList []] _ _ Hlist) in Hcases.
      destruct (Nat.eqb (length accs) 0) eqn:Hn; simpl in Hcases; [apply Hcases|].
      assert (Hds1 : Forall2 (dict_at (w_heap (with_heap w (w_heap w ++ [OList []]))))
                       accs ds).
      { eapply Forall2_impl; [exact Hds|]. intros y dy.
        apply dict_at_extends, extends_alloc. }
      destruct (check_accreditations_dicts clock dateutil_parse today today_valid
                  clock_today accs ds false [] _ Hds1) as (es & w2 & Heq2 & _ & _).
      rewrite Heq2, Hq in Hcases. simpl in Hcases. apply Hcases.
Qed.

Lemma filter_loop_views items views :
  Forall2 (fun _ _ => True) items views ->
  forall acc w,
    Forall2 (facility_view (w_heap w)) items views ->
    exists new w',
      for_each (process_facility clock dateutil_parse isoformat) items acc w
      = (Ok (acc ++ new), w')
      /\ extends w w'
      /\ Forall2 (selected dateutil_parse today (w_heap w')) new
           (List.filter (has_qualifying dateutil_parse today) views).
Proof.
  induction 1 as [|x view items views _ _ IH]; intros acc w Hall; simpl.
  - exists [], w. rewrite app_nil_r.
    split; [reflexivity|]. split; [apply extends_refl | constructor].
  - inversion Hall as [|? ? ? ? Hx Hrest]; subst.
    destruct (process_facility_view x view acc w Hx) as (new1 & w1 & Heq1 & Hext1 & Hnew1).
    unfold bind. rewrite Heq1.
    assert (Hrest1 : Forall2 (facility_view (w_heap w1)) items views).
    { eapply Forall2_impl; [exact Hrest|]. intros y v.
      apply facility_view_extends, Hext1. }
    destruct (IH (acc ++ new1) w1 Hrest1) as (new2 & w' & Heq2 & Hext2 & Hnew2).
    exists (new1 ++ new2), w'. rewrite Heq2, app_assoc.
    split; [reflexivity|]. split; [eapply extends_trans; eassumption|].
    destruct (has_qualifying dateutil_parse today view).
    + destruct Hnew1 as (o & -> & c & -> & Hann). simpl.
      constructor; [|exact Hnew2].
      exists c. split; [reflexivity|]. eapply annotated_extends; eassumption.
    + subst new1. exact Hnew2.
Qed.

(** The clock staying on one day, the filter applied to a list of
    well-formed facilities returns exactly the facilities with at least one
    qualifying accreditation, in the order of the input, each as its annotated
    copy; a facility none of whose accreditations qualifies is left out. *)
Theorem filter_selects_exactly l items views w :
  w_heap w !! l = Some (OList items) ->
  Forall2 (facility_view (w_heap w)) items views ->
  exists out outs w',
    filter_expiring_facilities clock dateutil_parse isoformat (VRef l) w = (Ok out, w')
    /\ heap_get (w_heap w') out = Some (OList outs)
    /\ Forall2 (selected dateutil_parse today (w_heap w')) outs
         (List.filter (has_qualifying dateutil_parse today) views).
Proof.
  intros Hl Hall.
  destruct (filter_loop_views items views
              (Forall2_impl _ _ _ _ Hall (fun _ _ _ => I)) [] w Hall)
    as (new & w1 & Heq & Hext & Hnew).
  unfold filter_expiring_facilities, bind, py_iter, py_len, log, alloc. simpl.
  rewrite Hl, Heq. simpl.
  rewrite (extends_lookup _ _ _ _ Hext Hl). simpl.
  eexists _, new, _. split; [reflexivity|]. simpl.
  split; [apply lookup_alloc|].
  eapply Forall2_impl; [exact Hnew|]. intros o view (c & -> & Hann).
  exists c. split; [reflexivity|].
  apply (annotated_extends w1 (with_heap w1 (w_heap w1 ++ [OList new])));
    [apply extends_alloc | exact Hann].
Qed.

End OneDay.

End Behaviour.

(** * The theorems at concrete inputs *)

Import Scenario.

Lemma scenario_today_valid : valid_day today.
Proof. unfold valid_day, today, max_ordinal. lia. Qed.

Lemma scenario_clock_today : forall n, dt_day (clock n) = today.
Proof. reflexivity. Qed.

(** C1, witness: on 2026-11-03 the date 2026-12-03 is asked about with the
    default threshold. *)
Lemma is_expiring_soon_window_witness :
  exists b w',
    is_expiring_soon clock iso_parse (VStr "2026-12-03") 6 (world_of [] []) = (Ok b, w')
    /\ (b = true <->
        (today <= 739953 <= today + 6 * 30 /\ today + 6 * 30 <= max_ordinal)%Z).
Proof.
  apply (is_expiring_soon_window clock iso_parse "2026-12-03" 6 (world_of [] []) today
           {| dt_day := 739953; dt_usec := 0 |}).
  - exact scenario_today_valid.
  - reflexivity.
  - reflexivity.
  - reflexivity.
  - vm_compute. reflexivity.
Defined.

(** C1 as stated fails: with a threshold of 200000 months, today's own date
    lies between today and today + 200000 * 30 days, and the answer is
    [False], because that bound is past the last date of the calendar. *)
Lemma is_expiring_soon_window_overflow :
  iso_parse today "2026-11-03" = Ok {| dt_day := today; dt_usec := 0 |}
  /\ (today <= today <= today + 200000 * 30)%Z
  /\ fst (is_expiring_soon clock iso_parse (VStr "2026-11-03") 200000 (world_of [] []))
     = Ok false.
Proof.
  split; [vm_compute; reflexivity|]. split; [unfold today; lia|].
  vm_compute. reflexivity.
Qed.

(** C2, witness: the two facilities of the repository's test. *)
Lemma filter_includes_qualifying_witness :
  exists out outs w',
    filter_expiring_facilities clock iso_parse isoformat (VRef 6)
      (world_of sample_facilities []) = (Ok out, w')
    /\ heap_get (w_heap w') out = Some (OList outs)
    /\ exists c,
        In (VRef c) outs
        /\ annotated (w_heap w')
             [("facility_id", VStr "FAC001"); ("facility_name", VStr "Test Hospital");
              ("employee_count", VInt 100); ("accreditations", VRef 1)]
             1
             [[("accreditation_body", VStr "Joint Commission");
               ("valid_until", VStr "2026-12-03")]]
             c.
Proof.
  apply (filter_includes_qualifying clock iso_parse isoformat today scenario_today_valid scenario_clock_today
           6 [VRef 2; VRef 5] (VRef 2)
           [("facility_id", VStr "FAC001"); ("facility_name", VStr "Test Hospital");
            ("employee_count", VInt 100); ("accreditations", VRef 1)]
           [VRef 0]
           [[("accreditation_body", VStr "Joint Commission");
             ("valid_until", VStr "2026-12-03")]]
           (world_of sample_facilities [])).
  - reflexivity.
  - repeat constructor.
  - left. reflexivity.
  - reflexivity.
  - exists 1. split; [reflexivity|]. split; [reflexivity|].
    repeat constructor.
  - vm_compute. discriminate.
Defined.

(** C6, witness: the empty string, which the filter passes for a missing
    [valid_until]. *)
Lemma is_expiring_soon_unparseable_witness :
  exists w',
    is_expiring_soon clock iso_parse (VStr EmptyString) 6 (world_of [] []) = (Ok false, w')
    /\ same_store (world_of [] []) w'
    /\ w_ticks w' = 1
    /\ w_log w'
       = [{| lr_level := WARNING;
             lr_format := "Error parsing date '{}': {}";
             lr_args := [LVal (VStr EmptyString); LExn ValueError] |}].
Proof.
  apply (is_expiring_soon_unparseable clock iso_parse EmptyString 6 (world_of [] [])
           ValueError).
  reflexivity.
Defined.

(** C7, witness: FAC001 with FAC003 (empty list) and FAC004 (no entry). *)
Lemma filter_excludes_without_accreditations_witness :
  let w := world_of with_empty_accreditations [] in
  let w' := snd (filter_expiring_facilities clock iso_parse isoformat (VRef 10) w) in
  exists outs,
    heap_get (w_heap w') (VRef 18) = Some (OList outs)
    /\ Forall
         (fun o =>
            exists c a d d' v,
              o = VRef c
              /\ In (VRef a) [VRef 2; VRef 8; VRef 9] /\ w_heap w !! a = Some (ODict d)
              /\ dict_lookup d "accreditations" = Some v /\ truthy (w_heap w) v = true
              /\ w_heap w' !! c = Some (ODict d')
              /\ dict_lookup d' "accreditations" = Some v)
         outs.
Proof.
  intros w w'.
  apply (filter_excludes_without_accreditations clock iso_parse isoformat (VRef 10)
           [VRef 2; VRef 8; VRef 9] w (VRef 18) w').
  - reflexivity.
  - repeat constructor; simpl; lia.
  - vm_compute. reflexivity.
Defined.

(** C8, witness: the same run. *)
Lemma filter_copies_leave_input_unchanged_witness :
  let w := world_of with_empty_accreditations [] in
  let w' := snd (filter_expiring_facilities clock iso_parse isoformat (VRef 10) w) in
  (forall a o, w_heap w !! a = Some o -> w_heap w' !! a = Some o)
  /\ exists outs,
      heap_get (w_heap w') (VRef 18) = Some (OList outs)
      /\ Forall
           (fun o =>
              exists c a d d' m,
                o = VRef c /\ length (w_heap w) <= c
                /\ In (VRef a) [VRef 2; VRef 8; VRef 9] /\ w_heap w !! a = Some (ODict d)
                /\ w_heap w' !! c = Some (ODict d')
                /\ d' = dict_set d metadata_key (VRef m)
                /\ (forall k, k <> metadata_key -> dict_lookup d' k = dict_lookup d k)
                /\ dict_lookup d' metadata_key = Some (VRef m)
                /\ length (w_heap w) <= m
                /\ metadata_block (w_heap w') m
                /\ map fst d'
                   = match dict_lookup d metadata_key with
                     | Some _ => map fst d
                     | None => map fst d ++ [metadata_key]
                     end)
           outs.
Proof.
  intros w w'.
  apply (filter_copies_leave_input_unchanged clock iso_parse isoformat (VRef 10)
           [VRef 2; VRef 8; VRef 9] w (VRef 18) w').
  - reflexivity.
  - repeat constructor; simpl; lia.
  - vm_compute. reflexivity.
Defined.

(** C8 as stated fails: a facility that already has a [_processing_metadata]
    field does not keep it; the copy in the output holds the new block under
    that key, while the stored original still holds the old value. *)
Lemma filter_replaces_existing_metadata :
  let w := world_of reprocessed [] in
  let run := filter_expiring_facilities clock iso_parse isoformat (VRef 3) w in
  exists d d',
    fst run = Ok (VRef 9)
    /\ w_heap (snd run) !! 9 = Some (OList [VRef 6])
    /\ w_heap w !! 2 = Some (ODict d)
    /\ w_heap (snd run) !! 6 = Some (ODict d')
    /\ dict_lookup d metadata_key = Some (VStr "set by an earlier run")
    /\ dict_lookup d' metadata_key = Some (VRef 8)
    /\ w_heap (snd run) !! 2 = Some (ODict d).
Proof.
  eexists _, _. vm_compute. repeat split; reflexivity.
Qed.

(** C3, witness: one input file, whose only facility expires in a year. *)
Lemma process_all_files_writes_placeholder_only_witness :
  let w := world_of [] [input_file "input/facilities.json" not_expiring_file] in
  let w' := snd (process_all_files clock iso_parse isoformat strftime json_loads
                   json_dumps str_encode bytes_decode no_fault self w) in
  w_s3 w'
  = [ input_file "input/facilities.json" not_expiring_file;
      {| s3_bucket := "healthcare-facility-data";
         s3_key := "filtered/no_expiring_facilities_20261103_090000.json";
         s3_body := list_byte_of_string
                      (render (no_results_payload "2026-11-03T09:00:00"));
         s3_content_type := "application/json" |} ]
  /\ w_s3_calls w' = 3.
Proof.
  intros w w'.
  pose (w1 := snd (list_input_files no_fault self (started w))).
  pose (w2 := snd (for_each (process_file clock iso_parse isoformat json_loads
                               bytes_decode no_fault self)
                     ["input/facilities.json"] [] w1)).
  apply (process_all_files_writes_placeholder_only clock iso_parse isoformat strftime
           json_loads json_dumps str_encode bytes_decode no_fault self w
           ["input/facilities.json"] w1 w2
           (list_byte_of_string (render (no_results_payload "2026-11-03T09:00:00")))).
  - vm_compute. reflexivity.
  - discriminate.
  - vm_compute. reflexivity.
  - reflexivity.
  - reflexivity.
Defined.

(** The run that finds no input file never reaches the writer: it ends
    after the listing without writing anything. *)
Example process_all_files_no_input_writes_nothing :
  let w := world_of [] [] in
  let run := process_all_files clock iso_parse isoformat strftime json_loads
               json_dumps str_encode bytes_decode no_fault self w in
  fst (list_input_files no_fault self (started w)) = Ok []
  /\ fst run = Ok tt
  /\ w_s3 (snd run) = []
  /\ w_s3_calls (snd run) = 1.
Proof. vm_compute. repeat split; reflexivity. Qed.

(** C9, witness: a file that holds one JSON object on one line. *)
Lemma read_json_returns_decoded_object_witness :
  let w := world_of [] [input_file "input/one.json" one_record_line] in
  exists a d w',
    read_json_from_s3 json_loads bytes_decode no_fault self "input/one.json" w
    = (Ok (VRef a), w')
    /\ alloc_json
         (JObj [("facility_id", JStr "FAC001"); ("facility_name", JStr "Test Hospital");
                ("accreditations",
                 JArr [JObj [("accreditation_body", JStr "Joint Commission");
                             ("valid_until", JStr "2026-12-03")]])])
         (w_heap w) = (VRef a, w_heap w')
    /\ w_heap w' !! a = Some (ODict d)
    /\ w_log w'
       = w_log w
           ++ [{| lr_level := INFO; lr_format := "Reading file from s3://{}/{}";
                  lr_args := [LStr (input_bucket self); LStr "input/one.json"] |};
               {| lr_level := INFO;
                  lr_format := "Successfully parsed JSON array with {} facilities";
                  lr_args := [LInt (Z.of_nat (length d))] |}].
Proof.
  intros w.
  apply (read_json_returns_decoded_object json_loads bytes_decode no_fault self
           "input/one.json" w (input_file "input/one.json" one_record_line)
           one_record_line).
  - reflexivity.
  - reflexivity.
  - vm_compute. reflexivity.
  - vm_compute. reflexivity.
Defined.

(** C10, witness: the placeholder record, which has neither key. *)
Lemma write_json_to_s3_not_atomic_witness :
  let w := world_of placeholder_data [] in
  exists e w',
    write_json_to_s3 clock isoformat strftime json_dumps str_encode no_fault
      self (VRef 2) "no_expiring_facilities_20261103_090000.json" w = (Raise e, w')
    /\ w_s3 w'
       = store_put
           {| s3_bucket := output_bucket self;
              s3_key := output_key self +:+ "no_expiring_facilities_20261103_090000.json";
              s3_body := list_byte_of_string
                           (render (no_results_payload "2026-11-03T09:00:00"));
              s3_content_type := "application/json" |} (w_s3 w)
    /\ w_s3_calls w' = S (w_s3_calls w).
Proof.
  intros w.
  apply (write_json_to_s3_not_atomic clock isoformat strftime json_dumps str_encode
           no_fault self 2 [] 1
           [("message", VStr "No facilities with expiring accreditations found");
            ("processing_date", VStr "2026-11-03T09:00:00");
            ("facilities", VRef 0)]
           [] "no_expiring_facilities_20261103_090000.json"
           (no_results_payload "2026-11-03T09:00:00")).
  - reflexivity.
  - reflexivity.
  - left. reflexivity.
  - reflexivity.
  - reflexivity.
  - reflexivity.
Defined.

(** C4, the failing input: a JSON Lines file with one record.  Its content
    decodes as a whole, so the parser returns the record itself, a mapping
    with three keys, where one record in a list was promised; the filter then
    iterates over the keys and raises. *)
Theorem single_json_line_is_read_as_a_mapping :
  let w := world_of [] [input_file "input/one.json" one_record_line] in
  let run := read_json_from_s3 json_loads bytes_decode no_fault self "input/one.json" w in
  fst run = Ok (VRef 2)
  /\ w_heap (snd run) !! 2
     = Some (ODict [("facility_id", VStr "FAC001");
                    ("facility_name", VStr "Test Hospital");
                    ("accreditations", VRef 1)])
  /\ fst (filter_expiring_facilities clock iso_parse isoformat (VRef 2) (snd run))
     = Raise AttributeError.
Proof. vm_compute. repeat split; reflexivity. Qed.

(** C5, the failing input: the list [[None, FAC001]].  The first element has
    no [get]; the handler that should log the failure calls [get] on it again,
    and the exception leaves the function: FAC001 is never looked at. *)
Theorem filter_aborts_on_non_mapping_facility :
  let run := filter_expiring_facilities clock iso_parse isoformat (VRef 7)
               (world_of with_null_record []) in
  fst run = Raise AttributeError
  /\ w_heap (snd run) = with_null_record
  /\ w_log (snd run) = [].
Proof. vm_compute. repeat split; reflexivity. Qed.

(** ** The parser and the filter on well-formed input *)

(** A JSON array of one facility is read as one record. *)
Lemma read_json_array_witness :
  let w := world_of [] [input_file "input/facilities.json" not_expiring_file] in
  exists a records w',
    read_json_from_s3 json_loads bytes_decode no_fault self "input/facilities.json" w
    = (Ok (VRef a), w')
    /\ w_heap w' !! a = Some (OList records)
    /\ length records = 1.
Proof.
  intros w.
  apply (read_json_array json_loads bytes_decode no_fault self "input/facilities.json" w
           (input_file "input/facilities.json" not_expiring_file) not_expiring_file
           [JObj [("facility_id", JStr "FAC002"); ("facility_name", JStr "Safe Clinic");
                  ("accreditations",
                   JArr [JObj [("accreditation_body", JStr "NCQA");
                               ("valid_until", JStr "2027-11-03")]])]]).
  - reflexivity.
  - reflexivity.
  - vm_compute. reflexivity.
  - vm_compute. reflexivity.
Defined.

(** Two records around a truncated line are read as two records. *)
Lemma read_json_lines_witness :
  let w := world_of [] [input_file "input/lines.json" three_lines] in
  exists a records w',
    read_json_from_s3 json_loads bytes_decode no_fault self "input/lines.json" w
    = (Ok (VRef a), w')
    /\ w_heap w' !! a = Some (OList records)
    /\ length records
       = length (List.filter (decodable json_loads) (split_lines (strip three_lines))).
Proof.
  intros w.
  apply (read_json_lines json_loads bytes_decode no_fault self "input/lines.json" w
           (input_file "input/lines.json" three_lines) three_lines).
  - reflexivity.
  - reflexivity.
  - vm_compute. reflexivity.
  - vm_compute. reflexivity.
  - vm_compute. reflexivity.
  - vm_compute. reflexivity.
Defined.

Example three_lines_two_records :
  length (List.filter (decodable json_loads) (split_lines (strip three_lines))) = 2.
Proof. vm_compute. reflexivity. Qed.

(** A no-break space before the first record is removed with the other
    whitespace at the ends of the content, so both lines are read. *)
Example nbsp_led_lines_two_records :
  let content := String "160"%char (json_text "{'facility_id': 'FAC001'}
{'facility_id': 'FAC002'}
") in
  let run := read_json_from_s3 json_loads bytes_decode no_fault self "input/lines.json"
               (world_of [] [input_file "input/lines.json" content]) in
  json_loads content = Raise JSONDecodeError
  /\ fst run = Ok (VRef 2)
  /\ w_heap (snd run) !! 2 = Some (OList [VRef 0; VRef 1]).
Proof. vm_compute. repeat split; reflexivity. Qed.

(** FAC005, whose accreditations list holds a number, fails inside the loop
    and is passed over; FAC001 after it is still processed. *)
Lemma filter_never_raises_on_mappings_witness :
  exists out outs w',
    filter_expiring_facilities clock iso_parse isoformat (VRef 9)
      (world_of with_malformed_accreditations []) = (Ok out, w')
    /\ heap_get (w_heap w') out = Some (OList outs)
    /\ length outs <= 2.
Proof.
  apply (filter_never_raises_on_mappings clock iso_parse isoformat 9 [VRef 8; VRef 2]
           (world_of with_malformed_accreditations [])).
  - reflexivity.
  - repeat constructor.
Defined.

(** The repository's own tests, run on 2026-11-03: a date 30 days ahead is
    expiring soon and a date a year ahead is not; of the two sample
    facilities only FAC001 is returned, with one expiring accreditation. *)
Theorem test_expiry_check :
  fst (is_expiring_soon clock iso_parse (VStr "2026-12-03") 6 (world_of [] [])) = Ok true
  /\ fst (is_expiring_soon clock iso_parse (VStr "2027-11-03") 6 (world_of [] []))
     = Ok false.
Proof. vm_compute. split; reflexivity. Qed.

Theorem test_filter_facilities :
  let run := filter_expiring_facilities clock iso_parse isoformat (VRef 6)
               (world_of sample_facilities []) in
  exists filtered record,
    fst run = Ok filtered
    /\ heap_get (w_heap (snd run)) filtered = Some (OList [record])
    /\ fst (py_get record "facility_id" (ret VNone) (snd run)) = Ok (VStr "FAC001")
    /\ fst (py_get record "_processing_metadata" (ret VNone) (snd run)) = Ok (VRef 11)
    /\ w_heap (snd run) !! 11
       = Some (ODict [("processed_date", VStr "2026-11-03T09:00:00");
                      ("expiring_accreditations", VRef 10);
                      ("total_accreditations", VInt 1)])
    /\ w_heap (snd run) !! 10 = Some (OList [VRef 8])
    /\ w_heap (snd run) !! 8
       = Some (ODict [("body", VStr "Joint Commission"); ("expiry", VStr "2026-12-03")]).
Proof. eexists _, _. vm_compute. repeat split; reflexivity. Qed.

(** * The further properties at concrete inputs *)

(** A [valid_until] that is [null]. *)
Lemma is_expiring_soon_non_string_witness :
  is_expiring_soon clock iso_parse VNone 6 (world_of [] [])
  = (Ok false,
     with_log (with_ticks (world_of [] []) 1)
       [{| lr_level := WARNING;
           lr_format := "Error parsing date '{}': {}";
           lr_args := [LVal VNone; LExn TypeError] |}]).
Proof.
  apply (is_expiring_soon_non_string clock iso_parse VNone 6 (world_of [] [])).
  intros s. discriminate.
Defined.

(** A threshold of minus one month, for a date 30 days ahead. *)
Lemma is_expiring_soon_negative_threshold_witness :
  exists w',
    is_expiring_soon clock iso_parse (VStr "2026-12-03") (-1) (world_of [] [])
    = (Ok false, w').
Proof.
  apply (is_expiring_soon_negative_threshold clock iso_parse today
           scenario_today_valid scenario_clock_today).
  reflexivity.
Defined.

(** A key the bucket holds nothing under. *)
Lemma read_json_from_s3_client_error_witness :
  let w := world_of [] [input_file "input/facilities.json" not_expiring_file] in
  read_json_from_s3 json_loads bytes_decode no_fault self "input/missing.json" w
  = (Raise ClientError,
     with_log (with_s3_calls w 1)
       [record INFO "Reading file from s3://{}/{}"
          [LStr "healthcare-facility-data"; LStr "input/missing.json"];
        record ERROR "Error reading from S3: {}" [LExn ClientError]]).
Proof.
  intros w.
  apply (read_json_from_s3_client_error json_loads bytes_decode no_fault self
           "input/missing.json" w).
  right. reflexivity.
Defined.

(** A file that holds the number 42. *)
Lemma read_json_from_s3_scalar_content_witness :
  let w := world_of [] [input_file "input/count.json" "42"] in
  read_json_from_s3 json_loads bytes_decode no_fault self "input/count.json" w
  = (Raise TypeError,
     with_log (with_s3_calls w 1)
       [record INFO "Reading file from s3://{}/{}"
          [LStr "healthcare-facility-data"; LStr "input/count.json"];
        record ERROR "Unexpected error reading JSON: {}" [LExn TypeError]]).
Proof.
  intros w.
  apply (read_json_from_s3_scalar_content json_loads bytes_decode no_fault self
           "input/count.json" w (input_file "input/count.json" "42") "42" (JInt 42)).
  - reflexivity.
  - reflexivity.
  - reflexivity.
  - vm_compute. reflexivity.
  - reflexivity.
Defined.

(** A file of two bytes that no UTF-8 text holds. *)
Lemma read_json_from_s3_undecodable_bytes_witness :
  let w := world_of [] [binary_file "input/image.json"] in
  read_json_from_s3 json_loads utf8_decode no_fault self "input/image.json" w
  = (Raise UnicodeError,
     with_log (with_s3_calls w 1)
       [record INFO "Reading file from s3://{}/{}"
          [LStr "healthcare-facility-data"; LStr "input/image.json"];
        record ERROR "Unexpected error reading JSON: {}" [LExn UnicodeError]]).
Proof.
  intros w.
  apply (read_json_from_s3_undecodable_bytes json_loads utf8_decode no_fault self
           "input/image.json" w (binary_file "input/image.json")).
  - reflexivity.
  - reflexivity.
  - reflexivity.
Defined.

(** A bucket that holds one input file beside the marker of the prefix, a
    text file and, in another bucket, a file of the same name. *)
Lemma list_input_files_sound_witness :
  let w := world_of []
             (input_file "input/facilities.json" not_expiring_file :: other_objects) in
  length ["input/facilities.json"] <= 1000
  /\ Forall (fun key =>
               ends_with ".json" key = true
               /\ key <> input_key self
               /\ exists o, In o (w_s3 w) /\ under_input self o = true
                            /\ s3_key o = key) ["input/facilities.json"].
Proof.
  intros w.
  apply (list_input_files_sound no_fault self w ["input/facilities.json"]
           (snd (list_input_files no_fault self w))).
  vm_compute. reflexivity.
Defined.

Lemma list_input_files_complete_witness :
  let w := world_of []
             (input_file "input/facilities.json" not_expiring_file :: other_objects) in
  exists files w',
    list_input_files no_fault self w = (Ok files, w')
    /\ forall o,
        In o (w_s3 w) -> under_input self o = true ->
        ends_with ".json" (s3_key o) = true -> s3_key o <> input_key self ->
        In (s3_key o) files.
Proof.
  intros w.
  apply (list_input_files_complete no_fault self w).
  - reflexivity.
  - vm_compute. lia.
Defined.

(** A listed file that has been removed before it is read. *)
Lemma process_file_skips_unreadable_witness :
  let w := world_of [] [] in
  process_file clock iso_parse isoformat json_loads bytes_decode no_fault self
    "input/facilities.json" [VRef 0] w
  = (Ok [VRef 0],
     with_log (with_s3_calls w 1)
       [record INFO "Processing file: {}" [LStr "input/facilities.json"];
        record INFO "Reading file from s3://{}/{}"
          [LStr "healthcare-facility-data"; LStr "input/facilities.json"];
        record ERROR "Error reading from S3: {}" [LExn ClientError];
        record ERROR "Error processing file {}: {}"
          [LStr "input/facilities.json"; LExn ClientError]]).
Proof.
  intros w.
  apply (process_file_skips_unreadable clock iso_parse isoformat json_loads bytes_decode
           no_fault self "input/facilities.json" [VRef 0] w).
  right. reflexivity.
Defined.

(** A bucket with no input file in it. *)
Lemma process_all_files_no_input_files_witness :
  let w := world_of [] other_objects in
  process_all_files clock iso_parse isoformat strftime json_loads json_dumps
    str_encode bytes_decode no_fault self w
  = (Ok tt,
     with_log (with_s3_calls w 1)
       [record INFO "Starting healthcare facility processing" [];
        record INFO "Found {} JSON files in input location" [LInt 0];
        record WARNING "No JSON files found in input location" []]).
Proof.
  intros w.
  apply (process_all_files_no_input_files clock iso_parse isoformat strftime json_loads
           json_dumps str_encode bytes_decode no_fault self w).
  - reflexivity.
  - repeat constructor.
Defined.

(** A service that refuses the listing. *)
Lemma process_all_files_listing_refused_witness :
  let w := world_of [] [input_file "input/facilities.json" expiring_file] in
  process_all_files clock iso_parse isoformat strftime json_loads json_dumps
    str_encode bytes_decode (fault_at 0) self w
  = (Raise ClientError,
     with_log (with_s3_calls w 1)
       [record INFO "Starting healthcare facility processing" [];
        record ERROR "Error listing files: {}" [LExn ClientError];
        record ERROR "Fatal error in processing: {}" [LExn ClientError]]).
Proof.
  intros w.
  apply (process_all_files_listing_refused clock iso_parse isoformat strftime json_loads
           json_dumps str_encode bytes_decode (fault_at 0) self w).
  reflexivity.
Defined.

(** The record of FAC001 as the filter returns it, written out. *)
Lemma write_json_to_s3_stores_both_witness :
  let w := world_of filtered_records [] in
  let name := "expiring_facilities_20261103_090000.json" in
  exists w',
    write_json_to_s3 clock isoformat strftime json_dumps str_encode no_fault
      self (VRef 4) name w = (Ok tt, w')
    /\ w_s3 w'
       = store_put
           (summary_object self "20261103_090000"
              (list_byte_of_string
                 (render (summary_json "2026-11-03T09:00:00" (output_location self name)
                            [(JStr "FAC001", JStr "Test Hospital", 1%Z)]))))
           (store_put
              (payload_object self name (list_byte_of_string (render filtered_json)))
              (w_s3 w))
    /\ w_s3_calls w' = 2.
Proof.
  intros w name.
  apply (write_json_to_s3_stores_both clock isoformat strftime json_dumps str_encode
           no_fault self 4 [VRef 3] [(JStr "FAC001", JStr "Test Hospital", 1%Z)]
           name filtered_json).
  - reflexivity.
  - constructor; [|constructor].
    exists [("facility_id", VStr "FAC001"); ("facility_name", VStr "Test Hospital");
            ("_processing_metadata", VRef 2)], (VStr "FAC001"), (VStr "Test Hospital").
    repeat (split; [reflexivity|]).
    eexists. split; reflexivity.
  - reflexivity.
  - reflexivity.
  - reflexivity.
  - reflexivity.
  - reflexivity.
Defined.

(** The same write with a service that refuses the second request. *)
Lemma write_json_to_s3_summary_refused_witness :
  let w := world_of filtered_records [] in
  let name := "expiring_facilities_20261103_090000.json" in
  exists w',
    write_json_to_s3 clock isoformat strftime json_dumps str_encode (fault_at 1)
      self (VRef 4) name w = (Raise ClientError, w')
    /\ w_s3 w'
       = store_put
           (payload_object self name (list_byte_of_string (render filtered_json)))
           (w_s3 w)
    /\ w_s3_calls w' = 2.
Proof.
  intros w name.
  apply (write_json_to_s3_summary_refused clock isoformat strftime json_dumps str_encode
           (fault_at 1) self 4 [VRef 3] [(JStr "FAC001", JStr "Test Hospital", 1%Z)]
           name filtered_json _
           (list_byte_of_string
              (render (summary_json "2026-11-03T09:00:00" (output_location self name)
                         [(JStr "FAC001", JStr "Test Hospital", 1%Z)])))).
  - reflexivity.
  - constructor; [|constructor].
    exists [("facility_id", VStr "FAC001"); ("facility_name", VStr "Test Hospital");
            ("_processing_metadata", VRef 2)], (VStr "FAC001"), (VStr "Test Hospital").
    repeat (split; [reflexivity|]).
    eexists. split; reflexivity.
  - reflexivity.
  - reflexivity.
  - reflexivity.
  - reflexivity.
  - reflexivity.
Defined.

(** The same write with a service that refuses the first request. *)
Lemma write_json_to_s3_payload_refused_witness :
  let w := world_of filtered_records [] in
  write_json_to_s3 clock isoformat strftime json_dumps str_encode (fault_at 0)
    self (VRef 4) "expiring_facilities_20261103_090000.json" w
  = (Raise ClientError,
     with_log (with_s3_calls w 1)
       [record ERROR "Error writing to S3: {}" [LExn ClientError]]).
Proof.
  intros w.
  apply (write_json_to_s3_payload_refused clock isoformat strftime json_dumps str_encode
           (fault_at 0) self (VRef 4) "expiring_facilities_20261103_090000.json"
           filtered_json (list_byte_of_string (render filtered_json)) w).
  - reflexivity.
  - reflexivity.
  - reflexivity.
Defined.

(** A run over one file whose only facility expires in a year. *)
Lemma process_all_files_empty_batch_raises_witness :
  let w := world_of [] [input_file "input/facilities.json" not_expiring_file] in
  exists w',
    process_all_files clock iso_parse isoformat strftime json_loads json_dumps
      str_encode bytes_decode no_fault self w = (Raise (KeyError "facility_id"), w')
    /\ w_s3 w'
       = store_put
           (payload_object self "no_expiring_facilities_20261103_090000.json"
              (list_byte_of_string (render (no_results_payload "2026-11-03T09:00:00"))))
           (w_s3 w)
    /\ exists earlier,
        w_log w'
        = earlier
          ++ [record ERROR "Unexpected error writing JSON: {}"
                [LExn (KeyError "facility_id")];
              record ERROR "Fatal error in processing: {}"
                [LExn (KeyError "facility_id")]].
Proof.
  intros w.
  pose (w1 := snd (list_input_files no_fault self (started w))).
  pose (w2 := snd (for_each (process_file clock iso_parse isoformat json_loads
                               bytes_decode no_fault self)
                     ["input/facilities.json"] [] w1)).
  apply (process_all_files_empty_batch_raises clock iso_parse isoformat strftime
           json_loads json_dumps str_encode bytes_decode no_fault self w
           ["input/facilities.json"] w1 w2
           (list_byte_of_string (render (no_results_payload "2026-11-03T09:00:00")))).
  - vm_compute. reflexivity.
  - discriminate.
  - vm_compute. reflexivity.
  - reflexivity.
  - reflexivity.
Defined.

(** A run over the two facilities of the repository's test. *)
Lemma process_all_files_writes_report_witness :
  let w := world_of [] [input_file "input/facilities.json" expiring_file] in
  let name := "expiring_facilities_20261103_090000.json" in
  exists w',
    process_all_files clock iso_parse isoformat strftime json_loads json_dumps
      str_encode bytes_decode no_fault self w = (Ok tt, w')
    /\ w_s3 w'
       = store_put
           (summary_object self "20261103_090000"
              (list_byte_of_string
                 (render (summary_json "2026-11-03T09:00:00" (output_location self name)
                            [(JStr "FAC001", JStr "Test Hospital", 1%Z)]))))
           (store_put
              (payload_object self name
                 (list_byte_of_string (render (JArr [collected_json]))))
              (w_s3 w))
    /\ w_s3_calls w' = 4.
Proof.
  intros w name.
  pose (w1 := snd (list_input_files no_fault self (started w))).
  pose (w2 := snd (for_each (process_file clock iso_parse isoformat json_loads
                               bytes_decode no_fault self)
                     ["input/facilities.json"] [] w1)).
  apply (process_all_files_writes_report clock iso_parse isoformat strftime
           json_loads json_dumps str_encode bytes_decode no_fault self w
           ["input/facilities.json"] w1 w2 (VRef 9) [] [collected_json]
           [(JStr "FAC001", JStr "Test Hospital", 1%Z)]).
  - vm_compute. reflexivity.
  - vm_compute. reflexivity.
  - constructor; [vm_compute; reflexivity | constructor].
  - constructor; [|constructor].
    exists [("facility_id", VStr "FAC001"); ("facility_name", VStr "Test Hospital");
            ("accreditations", VRef 1); ("_processing_metadata", VRef 11)],
      (VStr "FAC001"), (VStr "Test Hospital").
    split; [vm_compute; reflexivity|].
    repeat (split; [reflexivity|]).
    eexists. split; vm_compute; reflexivity.
  - reflexivity.
  - reflexivity.
  - reflexivity.
  - reflexivity.
Defined.

(** The list [[None, FAC001]]. *)
Lemma filter_raises_on_non_mapping_witness :
  exists w',
    filter_expiring_facilities clock iso_parse isoformat (VRef 7)
      (world_of with_null_record []) = (Raise AttributeError, w').
Proof.
  apply (filter_raises_on_non_mapping clock iso_parse isoformat (VRef 7) [] VNone
           [VRef 2] (world_of with_null_record [])).
  - reflexivity.
  - constructor.
  - exact I.
  - reflexivity.
Defined.

(** A JSON Lines file of one record. *)
Lemma process_file_skips_single_object_witness :
  let w := world_of [] [input_file "input/lines.json" one_record_line] in
  exists w',
    process_file clock iso_parse isoformat json_loads bytes_decode no_fault self
      "input/lines.json" [] w = (Ok [], w')
    /\ exists earlier,
        w_log w' = earlier ++ [record ERROR "Error processing file {}: {}"
                                 [LStr "input/lines.json"; LExn AttributeError]].
Proof.
  intros w.
  apply (process_file_skips_single_object clock iso_parse isoformat json_loads
           bytes_decode no_fault self "input/lines.json" [] w
           (input_file "input/lines.json" one_record_line) one_record_line
           "facility_id" (JStr "FAC001")
           [("facility_name", JStr "Test Hospital");
            ("accreditations",
             JArr [JObj [("accreditation_body", JStr "Joint Commission");
                         ("valid_until", JStr "2026-12-03")]])]).
  - reflexivity.
  - reflexivity.
  - vm_compute. reflexivity.
  - vm_compute. reflexivity.
Defined.

(** The two facilities of the repository's test: FAC001 is kept, FAC002 is
    left out. *)
Lemma filter_selects_exactly_witness :
  let fac001 :=
    ([("facility_id", VStr "FAC001"); ("facility_name", VStr "Test Hospital");
      ("employee_count", VInt 100); ("accreditations", VRef 1)],
     [[("accreditation_body", VStr "Joint Commission");
       ("valid_until", VStr "2026-12-03")]]) in
  exists out outs w',
    filter_expiring_facilities clock iso_parse isoformat (VRef 6)
      (world_of sample_facilities []) = (Ok out, w')
    /\ heap_get (w_heap w') out = Some (OList outs)
    /\ Forall2 (selected iso_parse today (w_heap w')) outs [fac001].
Proof.
  intros fac001.
  apply (filter_selects_exactly clock iso_parse isoformat today scenario_today_valid
           scenario_clock_today 6 [VRef 2; VRef 5]
           [fac001;
            ([("facility_id", VStr "FAC002"); ("facility_name", VStr "Safe Clinic");
              ("employee_count", VInt 50); ("accreditations", VRef 4)],
             [[("accreditation_body", VStr "NCQA");
               ("valid_until", VStr "2027-11-03")]])]
           (world_of sample_facilities [])).
  - reflexivity.
  - constructor; [|constructor; [|constructor]].
    + split; [reflexivity|]. right. exists [VRef 0]. exists 1.
      split; [reflexivity|]. split; [reflexivity|]. repeat constructor.
    + split; [reflexivity|]. right. exists [VRef 3]. exists 4.
      split; [reflexivity|]. split; [reflexivity|]. repeat constructor.
Defined.

(** Start-up without credentials. *)
Lemma main_startup_failure_witness :
  let w := world_of [] [input_file "input/facilities.json" expiring_file] in
  main clock iso_parse isoformat strftime json_loads json_dumps str_encode bytes_decode
    no_fault false w
  = (Raise (SystemExit 1),
     with_log w
       [record ERROR "AWS credentials not found. Please configure your credentials." [];
        record ERROR "Application failed: {}" [LExn NoCredentialsError]]).
Proof.
  intros w.
  apply (main_startup_failure clock iso_parse isoformat strftime json_loads json_dumps
           str_encode bytes_decode no_fault false w).
  left. reflexivity.
Defined.

(** The application started on a bucket with no input file in it. *)
Lemma main_no_input_files_witness :
  let w := world_of [] other_objects in
  main clock iso_parse isoformat strftime json_loads json_dumps str_encode bytes_decode
    no_fault true w
  = (Ok tt,
     with_log (with_s3_calls w 2)
       [record INFO "Successfully connected to AWS S3" [];
        record INFO "Starting healthcare facility processing" [];
        record INFO "Found {} JSON files in input location" [LInt 0];
        record WARNING "No JSON files found in input location" [];
        record INFO "Healthcare facility processing completed successfully" []]).
Proof.
  intros w.
  apply (main_no_input_files clock iso_parse isoformat strftime json_loads json_dumps
           str_encode bytes_decode no_fault true w).
  - reflexivity.
  - reflexivity.
  - reflexivity.
  - repeat constructor.
Defined.

(** The application started on one file whose only facility expires in a
    year. *)
Lemma main_empty_batch_exits_with_failure_witness :
  let w := world_of [] [input_file "input/facilities.json" not_expiring_file] in
  exists w',
    main clock iso_parse isoformat strftime json_loads json_dumps str_encode
      bytes_decode no_fault true w = (Raise (SystemExit 1), w')
    /\ w_s3 w'
       = store_put
           (payload_object main_processor "no_expiring_facilities_20261103_090000.json"
              (list_byte_of_string (render (no_results_payload "2026-11-03T09:00:00"))))
           (w_s3 w).
Proof.
  intros w.
  pose (w1 := snd (list_input_files no_fault main_processor (started (connected w)))).
  pose (w2 := snd (for_each (process_file clock iso_parse isoformat json_loads
                               bytes_decode no_fault main_processor)
                     ["input/facilities.json"] [] w1)).
  apply (main_empty_batch_exits_with_failure clock iso_parse isoformat strftime
           json_loads json_dumps str_encode bytes_decode no_fault true w
           ["input/facilities.json"] w1 w2
           (list_byte_of_string (render (no_results_payload "2026-11-03T09:00:00")))).
  - reflexivity.
  - reflexivity.
  - vm_compute. reflexivity.
  - discriminate.
  - vm_compute. reflexivity.
  - reflexivity.
  - reflexivity.
Defined.

(** The listing is in the order of the keys, not in the order the objects
    were stored. *)
Example list_input_files_in_key_order :
  fst (list_input_files no_fault self
         (world_of [] [input_file "input/b.json" "[]";
                       input_file "input/a.json" "[]";
                       input_file "input/A.json" "[]"]))
  = Ok ["input/A.json"; "input/a.json"; "input/b.json"].
Proof. vm_compute. reflexivity. Qed.
